(** * Diagnostic assessment engine of the public-health chatbot

    A shallow embedding of [app.py]: the question-flow controller
    ([get_next_question]), the answer-to-symptom normaliser
    ([map_answers_to_symptoms]), the condition matcher
    ([find_condition_by_symptoms]) and the cached translation helper
    ([translate_text] with the [clear_old_cache] request hook), followed by
    the properties of each. *)

From stdpp Require Import base decidable option list numbers strings pretty gmap sorting.
From Stdlib Require Import QArith Qcanon.

Close Scope Qc_scope.
Close Scope Q_scope.

(** * Data model *)

(** ** Python dictionaries that are iterated

    [session['answers']] and [translation_cache] are dictionaries whose
    iteration order (insertion order) is observable, so both are kept as
    association lists; the per-department tables are only ever looked up
    and are finite maps. *)

Section dict.
Context {K V : Type} `{EqDecision K}.

(** [d.get(k)] *)
Fixpoint dict_get (d : list (K * V)) (k : K) : option V :=
  match d with
  | [] => None
  | (k', v) :: d' => if decide (k' = k) then Some v else dict_get d' k
  end.

(** [k in d] *)
Definition dict_contains (d : list (K * V)) (k : K) : bool :=
  bool_decide (k ∈ d.*1).

(** [d[k] = v]: an existing key keeps its position, a new key goes last. *)
Fixpoint dict_set (d : list (K * V)) (k : K) (v : V) : list (K * V) :=
  match d with
  | [] => [(k, v)]
  | (k', v') :: d' =>
      if decide (k' = k) then (k', v) :: d' else (k', v') :: dict_set d' k v
  end.
End dict.

(** ** Questions and answers *)

Inductive question_type := single_choice | multiple_choice.

Record option_entry := { opt_value : string; opt_text : string }.

(** One entry of a conversation flow; [q_depends_on] is the optional
    ['depends_on'] dictionary. *)
Record question := {
  q_id : string;
  q_question : string;
  q_type : question_type;
  q_depends_on : option (list (string * string));
  q_options : list option_entry
}.

(** A recorded answer: one token, or the list of tokens of a
    multiple-choice question. *)
Inductive answer_value :=
  | AnswerStr (s : string)
  | AnswerList (items : list string).

#[global] Instance answer_value_eq_dec : EqDecision answer_value.
Proof. solve_decision. Defined.

Abbreviation AnswerSet := (list (string * answer_value)).

(** ** Department data (the JSON files under [data/]) *)

Inductive treatment :=
  | TreatmentText (s : string)
  | TreatmentList (items : list string).

Record disease := {
  d_id : string;
  d_name : string;
  d_symptoms : option (list string)
}.

(** A loaded department file: either key may be absent (a file that failed
    to load is the empty dictionary). *)
Record dept_data := {
  dd_diseases : option (list disease);
  dd_treatments : option (gmap string (gmap string treatment))
}.

Record MedicalChatbot := {
  departments_data : gmap string dept_data;
  conversation_flows : gmap string (list question)
}.

(** * The question flows ([create_conversation_flows]) *)

Definition gastrointestinal_flow : list question :=
  [ {| q_id := "symptom_location";
     q_question := "Where is your abdominal discomfort primarily located?";
     q_type := single_choice;
     q_depends_on := None;
     q_options :=
       [ {| opt_value := "upper_abdomen"; opt_text := "Upper Abdomen (below chest)" |};
         {| opt_value := "lower_abdomen"; opt_text := "Lower Abdomen (below belly button)" |};
         {| opt_value := "whole_abdomen"; opt_text := "Whole Abdomen" |};
         {| opt_value := "right_side"; opt_text := "Right Side" |};
         {| opt_value := "left_side"; opt_text := "Left Side" |};
         {| opt_value := "none"; opt_text := "No specific location" |} ] |};
    {| q_id := "upper_abdomen_timing";
     q_question := "When does your upper abdominal pain occur?";
     q_type := single_choice;
     q_depends_on := Some [("symptom_location", "upper_abdomen")];
     q_options :=
       [ {| opt_value := "after_meals"; opt_text := "After Eating" |};
         {| opt_value := "empty_stomach"; opt_text := "On Empty Stomach" |};
         {| opt_value := "constant"; opt_text := "Constant Pain" |};
         {| opt_value := "night_time"; opt_text := "At Night" |};
         {| opt_value := "none"; opt_text := "No specific timing" |} ] |};
    {| q_id := "pain_character";
     q_question := "What best describes the character of your pain?";
     q_type := single_choice;
     q_depends_on := None;
     q_options :=
       [ {| opt_value := "burning"; opt_text := "Burning Sensation" |};
         {| opt_value := "cramping"; opt_text := "Cramping Pain" |};
         {| opt_value := "sharp"; opt_text := "Sharp/Stabbing Pain" |};
         {| opt_value := "dull"; opt_text := "Dull Ache" |};
         {| opt_value := "none"; opt_text := "No specific character" |} ] |};
    {| q_id := "digestive_symptoms";
     q_question := "Do you experience any of these digestive symptoms?";
     q_type := multiple_choice;
     q_depends_on := None;
     q_options :=
       [ {| opt_value := "heartburn"; opt_text := "Heartburn/Acidity" |};
         {| opt_value := "bloating"; opt_text := "Bloating" |};
         {| opt_value := "belching"; opt_text := "Excessive Belching" |};
         {| opt_value := "nausea"; opt_text := "Nausea" |};
         {| opt_value := "vomiting"; opt_text := "Vomiting" |};
         {| opt_value := "loss_of_appetite"; opt_text := "Loss of Appetite" |};
         {| opt_value := "none"; opt_text := "None of these" |} ] |};
    {| q_id := "bowel_changes";
     q_question := "Any changes in your bowel movements?";
     q_type := multiple_choice;
     q_depends_on := None;
     q_options :=
       [ {| opt_value := "constipation"; opt_text := "Constipation" |};
         {| opt_value := "diarrhea"; opt_text := "Diarrhea" |};
         {| opt_value := "alternating"; opt_text := "Alternating Constipation/Diarrhea" |};
         {| opt_value := "bloody_stools"; opt_text := "Blood in Stool" |};
         {| opt_value := "mucus_stools"; opt_text := "Mucus in Stool" |};
         {| opt_value := "straining"; opt_text := "Straining during Bowel Movement" |};
         {| opt_value := "urgency"; opt_text := "Urgent Need for Bowel Movement" |};
         {| opt_value := "none"; opt_text := "No bowel changes" |} ] |};
    {| q_id := "systemic_symptoms";
     q_question := "Are you experiencing any of these general symptoms?";
     q_type := multiple_choice;
     q_depends_on := None;
     q_options :=
       [ {| opt_value := "fever"; opt_text := "Fever" |};
         {| opt_value := "jaundice"; opt_text := "Yellowing of Skin/Eyes (Jaundice)" |};
         {| opt_value := "painful_bowel_movement"; opt_text := "Painful Bowel Movements" |};
         {| opt_value := "none"; opt_text := "None of these" |} ] |} ].

Definition dermatology_flow : list question :=
  [ {| q_id := "skin_condition_type";
     q_question := "What type of skin condition are you experiencing?";
     q_type := single_choice;
     q_depends_on := None;
     q_options :=
       [ {| opt_value := "rash_bumps"; opt_text := "Rash or Bumps" |};
         {| opt_value := "dry_patches"; opt_text := "Dry/Scaly Patches" |};
         {| opt_value := "oily_skin"; opt_text := "Oily Skin with Pimples" |};
         {| opt_value := "color_changes"; opt_text := "Skin Color Changes" |};
         {| opt_value := "blisters"; opt_text := "Blisters or Sores" |};
         {| opt_value := "none"; opt_text := "Not Sure" |} ] |};
    {| q_id := "skin_location";
     q_question := "Where is the skin condition located?";
     q_type := multiple_choice;
     q_depends_on := None;
     q_options :=
       [ {| opt_value := "face"; opt_text := "Face" |};
         {| opt_value := "scalp"; opt_text := "Scalp" |};
         {| opt_value := "arms"; opt_text := "Arms" |};
         {| opt_value := "legs"; opt_text := "Legs" |};
         {| opt_value := "chest_back"; opt_text := "Chest or Back" |};
         {| opt_value := "all_over_body"; opt_text := "All Over Body" |};
         {| opt_value := "none"; opt_text := "No Specific Location" |} ] |};
    {| q_id := "sensation";
     q_question := "What sensation do you feel on the affected skin?";
     q_type := multiple_choice;
     q_depends_on := None;
     q_options :=
       [ {| opt_value := "itchy"; opt_text := "Itchy" |};
         {| opt_value := "burning"; opt_text := "Burning" |};
         {| opt_value := "painful"; opt_text := "Painful" |};
         {| opt_value := "tender"; opt_text := "Tender to Touch" |};
         {| opt_value := "no_sensation"; opt_text := "No Sensation" |};
         {| opt_value := "none"; opt_text := "None of These" |} ] |};
    {| q_id := "severity";
     q_question := "How severe is the itching or discomfort?";
     q_type := single_choice;
     q_depends_on := None;
     q_options :=
       [ {| opt_value := "mild"; opt_text := "Mild (barely noticeable)" |};
         {| opt_value := "moderate"; opt_text := "Moderate (annoying but manageable)" |};
         {| opt_value := "severe"; opt_text := "Severe (interferes with daily activities)" |};
         {| opt_value := "none"; opt_text := "No Itching/Discomfort" |} ] |};
    {| q_id := "duration";
     q_question := "How long have you had this skin condition?";
     q_type := single_choice;
     q_depends_on := None;
     q_options :=
       [ {| opt_value := "recent"; opt_text := "Recent (less than 1 week)" |};
         {| opt_value := "chronic"; opt_text := "Chronic (more than 1 month)" |};
         {| opt_value := "recurring"; opt_text := "Comes and Goes" |};
         {| opt_value := "none"; opt_text := "Not Sure" |} ] |};
    {| q_id := "triggers";
     q_question := "Do you notice any triggers that make it worse?";
     q_type := multiple_choice;
     q_depends_on := None;
     q_options :=
       [ {| opt_value := "food"; opt_text := "Certain Foods" |};
         {| opt_value := "weather"; opt_text := "Weather Changes" |};
         {| opt_value := "cosmetics"; opt_text := "Cosmetics or Soaps" |};
         {| opt_value := "stress"; opt_text := "Stress" |};
         {| opt_value := "medications"; opt_text := "Medications" |};
         {| opt_value := "none"; opt_text := "No Known Triggers" |} ] |};
    {| q_id := "other_symptoms";
     q_question := "Are you experiencing any other symptoms?";
     q_type := multiple_choice;
     q_depends_on := None;
     q_options :=
       [ {| opt_value := "swelling"; opt_text := "Swelling" |};
         {| opt_value := "pus"; opt_text := "Pus or Discharge" |};
         {| opt_value := "hair_loss"; opt_text := "Hair Loss" |};
         {| opt_value := "nail_changes"; opt_text := "Nail Changes" |};
         {| opt_value := "fever"; opt_text := "Fever" |};
         {| opt_value := "none"; opt_text := "None of These" |} ] |} ].

Definition musculoskeletal_flow : list question :=
  [ {| q_id := "pain_location";
     q_question := "Where is your pain primarily located?";
     q_type := multiple_choice;
     q_depends_on := None;
     q_options :=
       [ {| opt_value := "neck"; opt_text := "Neck" |};
         {| opt_value := "shoulder"; opt_text := "Shoulder" |};
         {| opt_value := "upper_back"; opt_text := "Upper Back" |};
         {| opt_value := "lower_back"; opt_text := "Lower Back" |};
         {| opt_value := "hip"; opt_text := "Hip" |};
         {| opt_value := "knee"; opt_text := "Knee" |};
         {| opt_value := "elbow"; opt_text := "Elbow" |};
         {| opt_value := "wrist"; opt_text := "Wrist" |};
         {| opt_value := "ankle"; opt_text := "Ankle" |};
         {| opt_value := "multiple_joints"; opt_text := "Multiple Joints" |};
         {| opt_value := "none"; opt_text := "No Specific Location" |} ] |};
    {| q_id := "pain_type";
     q_question := "What type of pain are you experiencing?";
     q_type := single_choice;
     q_depends_on := None;
     q_options :=
       [ {| opt_value := "sharp_shooting"; opt_text := "Sharp/Shooting Pain" |};
         {| opt_value := "dull_ache"; opt_text := "Dull Ache" |};
         {| opt_value := "burning"; opt_text := "Burning Sensation" |};
         {| opt_value := "throbbing"; opt_text := "Throbbing Pain" |};
         {| opt_value := "stabbing"; opt_text := "Stabbing Pain" |};
         {| opt_value := "none"; opt_text := "No Specific Type" |} ] |};
    {| q_id := "pain_timing";
     q_question := "When does the pain occur or worsen?";
     q_type := multiple_choice;
     q_depends_on := None;
     q_options :=
       [ {| opt_value := "morning"; opt_text := "Morning Stiffness" |};
         {| opt_value := "activity"; opt_text := "During Activity" |};
         {| opt_value := "rest"; opt_text := "During Rest" |};
         {| opt_value := "night"; opt_text := "At Night" |};
         {| opt_value := "constant"; opt_text := "Constant Pain" |};
         {| opt_value := "none"; opt_text := "No Specific Timing" |} ] |};
    {| q_id := "mobility_issues";
     q_question := "What mobility issues are you experiencing?";
     q_type := multiple_choice;
     q_depends_on := None;
     q_options :=
       [ {| opt_value := "difficulty_moving"; opt_text := "Difficulty Moving" |};
         {| opt_value := "stiffness"; opt_text := "Stiffness" |};
         {| opt_value := "limited_range"; opt_text := "Limited Range of Motion" |};
         {| opt_value := "weakness"; opt_text := "Weakness" |};
         {| opt_value := "giving_way"; opt_text := "Joint Giving Way" |};
         {| opt_value := "none"; opt_text := "No Mobility Issues" |} ] |};
    {| q_id := "swelling_inflammation";
     q_question := "Do you have any signs of inflammation?";
     q_type := multiple_choice;
     q_depends_on := None;
     q_options :=
       [ {| opt_value := "swelling"; opt_text := "Swelling" |};
         {| opt_value := "redness"; opt_text := "Redness" |};
         {| opt_value := "warmth"; opt_text := "Warmth to Touch" |};
         {| opt_value := "tenderness"; opt_text := "Tenderness" |};
         {| opt_value := "none"; opt_text := "No Inflammation Signs" |} ] |};
    {| q_id := "injury_cause";
     q_question := "Was this caused by an injury or specific activity?";
     q_type := single_choice;
     q_depends_on := None;
     q_options :=
       [ {| opt_value := "recent_injury"; opt_text := "Recent Injury" |};
         {| opt_value := "overuse"; opt_text := "Overuse/Repetitive Motion" |};
         {| opt_value := "sports"; opt_text := "Sports Injury" |};
         {| opt_value := "fall"; opt_text := "Fall or Accident" |};
         {| opt_value := "none"; opt_text := "No Specific Cause" |} ] |};
    {| q_id := "duration";
     q_question := "How long have you had these symptoms?";
     q_type := single_choice;
     q_depends_on := None;
     q_options :=
       [ {| opt_value := "acute"; opt_text := "Recent (less than 1 week)" |};
         {| opt_value := "subacute"; opt_text := "Few Weeks (1-4 weeks)" |};
         {| opt_value := "chronic"; opt_text := "Chronic (more than 3 months)" |};
         {| opt_value := "recurring"; opt_text := "Comes and Goes" |};
         {| opt_value := "none"; opt_text := "Not Sure" |} ] |};
    {| q_id := "other_symptoms";
     q_question := "Are you experiencing any other symptoms?";
     q_type := multiple_choice;
     q_depends_on := None;
     q_options :=
       [ {| opt_value := "numbness"; opt_text := "Numbness" |};
         {| opt_value := "tingling"; opt_text := "Tingling Sensation" |};
         {| opt_value := "muscle_spasms"; opt_text := "Muscle Spasms" |};
         {| opt_value := "fatigue"; opt_text := "Fatigue" |};
         {| opt_value := "fever"; opt_text := "Fever" |};
         {| opt_value := "none"; opt_text := "None of These" |} ] |} ].

Definition mental_health_flow : list question :=
  [ {| q_id := "mood_symptoms";
     q_question := "What mood-related symptoms are you experiencing?";
     q_type := multiple_choice;
     q_depends_on := None;
     q_options :=
       [ {| opt_value := "sadness"; opt_text := "Sadness or Hopelessness" |};
         {| opt_value := "anxiety"; opt_text := "Anxiety or Worry" |};
         {| opt_value := "irritability"; opt_text := "Irritability or Anger" |};
         {| opt_value := "mood_swings"; opt_text := "Mood Swings" |};
         {| opt_value := "emotional_numbness"; opt_text := "Emotional Numbness" |};
         {| opt_value := "none"; opt_text := "None of These" |} ] |};
    {| q_id := "physical_symptoms";
     q_question := "What physical symptoms are you experiencing?";
     q_type := multiple_choice;
     q_depends_on := None;
     q_options :=
       [ {| opt_value := "sleep_problems"; opt_text := "Sleep Problems" |};
         {| opt_value := "appetite_changes"; opt_text := "Appetite Changes" |};
         {| opt_value := "fatigue"; opt_text := "Fatigue or Low Energy" |};
         {| opt_value := "body_aches"; opt_text := "Body Aches or Pains" |};
         {| opt_value := "digestive_issues"; opt_text := "Digestive Issues" |};
         {| opt_value := "none"; opt_text := "None of These" |} ] |};
    {| q_id := "cognitive_symptoms";
     q_question := "What thinking-related symptoms are you experiencing?";
     q_type := multiple_choice;
     q_depends_on := None;
     q_options :=
       [ {| opt_value := "concentration"; opt_text := "Concentration Problems" |};
         {| opt_value := "memory"; opt_text := "Memory Issues" |};
         {| opt_value := "indecisiveness"; opt_text := "Indecisiveness" |};
         {| opt_value := "racing_thoughts"; opt_text := "Racing Thoughts" |};
         {| opt_value := "negative_thoughts"; opt_text := "Negative Thoughts" |};
         {| opt_value := "none"; opt_text := "None of These" |} ] |};
    {| q_id := "behavioral_symptoms";
     q_question := "What behavior changes have you noticed?";
     q_type := multiple_choice;
     q_depends_on := None;
     q_options :=
       [ {| opt_value := "social_withdrawal"; opt_text := "Social Withdrawal" |};
         {| opt_value := "loss_interest"; opt_text := "Loss of Interest in Activities" |};
         {| opt_value := "agitation"; opt_text := "Agitation or Restlessness" |};
         {| opt_value := "procrastination"; opt_text := "Procrastination" |};
         {| opt_value := "routine_changes"; opt_text := "Changes in Routine" |};
         {| opt_value := "none"; opt_text := "None of These" |} ] |};
    {| q_id := "duration";
     q_question := "How long have you been experiencing these symptoms?";
     q_type := single_choice;
     q_depends_on := None;
     q_options :=
       [ {| opt_value := "recent"; opt_text := "Recent (less than 2 weeks)" |};
         {| opt_value := "chronic"; opt_text := "Chronic (more than 2 months)" |};
         {| opt_value := "daily"; opt_text := "Daily" |};
         {| opt_value := "episodic"; opt_text := "Comes and Goes" |};
         {| opt_value := "constant"; opt_text := "Constant" |};
         {| opt_value := "none"; opt_text := "Not Sure" |} ] |};
    {| q_id := "impact_life";
     q_question := "How is this affecting your daily life?";
     q_type := multiple_choice;
     q_depends_on := None;
     q_options :=
       [ {| opt_value := "work_school"; opt_text := "Work or School Problems" |};
         {| opt_value := "relationships"; opt_text := "Relationship Issues" |};
         {| opt_value := "self_care"; opt_text := "Difficulty with Self-Care" |};
         {| opt_value := "daily_tasks"; opt_text := "Daily Tasks Challenging" |};
         {| opt_value := "none"; opt_text := "No Significant Impact" |} ] |};
    {| q_id := "stress_triggers";
     q_question := "Are there any specific stressors or triggers?";
     q_type := multiple_choice;
     q_depends_on := None;
     q_options :=
       [ {| opt_value := "work_stress"; opt_text := "Work Stress" |};
         {| opt_value := "relationship_stress"; opt_text := "Relationship Stress" |};
         {| opt_value := "financial_stress"; opt_text := "Financial Stress" |};
         {| opt_value := "health_concerns"; opt_text := "Health Concerns" |};
         {| opt_value := "life_changes"; opt_text := "Major Life Changes" |};
         {| opt_value := "none"; opt_text := "No Specific Triggers" |} ] |};
    {| q_id := "severe_symptoms";
     q_question := "Are you experiencing any of these severe symptoms?";
     q_type := multiple_choice;
     q_depends_on := None;
     q_options :=
       [ {| opt_value := "panic_attacks"; opt_text := "Panic Attacks" |};
         {| opt_value := "suicidal_thoughts"; opt_text := "Suicidal Thoughts" |};
         {| opt_value := "self_harm"; opt_text := "Self-Harm Thoughts" |};
         {| opt_value := "detachment"; opt_text := "Feeling Detached from Reality" |};
         {| opt_value := "extreme_fear"; opt_text := "Extreme Fear" |};
         {| opt_value := "none"; opt_text := "None of These" |} ] |} ].

Definition first_aid_flow : list question :=
  [ {| q_id := "injury_type";
     q_question := "What type of injury or emergency are you dealing with?";
     q_type := single_choice;
     q_depends_on := None;
     q_options :=
       [ {| opt_value := "cuts"; opt_text := "Cuts or Scrapes" |};
         {| opt_value := "burns"; opt_text := "Burns" |};
         {| opt_value := "sprains"; opt_text := "Sprains or Strains" |};
         {| opt_value := "fractures"; opt_text := "Possible Fractures" |};
         {| opt_value := "bleeding"; opt_text := "Bleeding" |};
         {| opt_value := "bites"; opt_text := "Animal or Insect Bites" |};
         {| opt_value := "other"; opt_text := "Other Emergency" |};
         {| opt_value := "none"; opt_text := "Not Sure" |} ] |};
    {| q_id := "bleeding_level";
     q_question := "Is there bleeding?";
     q_type := single_choice;
     q_depends_on := None;
     q_options :=
       [ {| opt_value := "minor_bleeding"; opt_text := "Minor Bleeding" |};
         {| opt_value := "heavy_bleeding"; opt_text := "Heavy Bleeding" |};
         {| opt_value := "no_bleeding"; opt_text := "No Bleeding" |};
         {| opt_value := "none"; opt_text := "Not Sure" |} ] |};
    {| q_id := "pain_level";
     q_question := "How severe is the pain?";
     q_type := single_choice;
     q_depends_on := None;
     q_options :=
       [ {| opt_value := "mild_pain"; opt_text := "Mild Pain" |};
         {| opt_value := "moderate_pain"; opt_text := "Moderate Pain" |};
         {| opt_value := "severe_pain"; opt_text := "Severe Pain" |};
         {| opt_value := "none"; opt_text := "No Pain" |} ] |};
    {| q_id := "emergency_signs";
     q_question := "Are there any emergency warning signs?";
     q_type := multiple_choice;
     q_depends_on := None;
     q_options :=
       [ {| opt_value := "breathing"; opt_text := "Difficulty Breathing" |};
         {| opt_value := "unconscious"; opt_text := "Unconsciousness" |};
         {| opt_value := "allergy"; opt_text := "Severe Allergic Reaction" |};
         {| opt_value := "chest_pain"; opt_text := "Chest Pain" |};
         {| opt_value := "head_injury"; opt_text := "Head Injury" |};
         {| opt_value := "none"; opt_text := "None of These" |} ] |};
    {| q_id := "mobility";
     q_question := "Can the injured area move normally?";
     q_type := single_choice;
     q_depends_on := None;
     q_options :=
       [ {| opt_value := "full_movement"; opt_text := "Full Movement" |};
         {| opt_value := "limited_movement"; opt_text := "Limited Movement" |};
         {| opt_value := "no_movement"; opt_text := "Cannot Move" |};
         {| opt_value := "none"; opt_text := "Not Applicable" |} ] |} ].

Definition general_medicine_flow : list question :=
  [ {| q_id := "main_symptoms";
     q_question := "What are your main symptoms?";
     q_type := multiple_choice;
     q_depends_on := None;
     q_options :=
       [ {| opt_value := "fever"; opt_text := "Fever" |};
         {| opt_value := "cough"; opt_text := "Cough" |};
         {| opt_value := "sore_throat"; opt_text := "Sore Throat" |};
         {| opt_value := "runny_nose"; opt_text := "Runny Nose" |};
         {| opt_value := "headache"; opt_text := "Headache" |};
         {| opt_value := "body_aches"; opt_text := "Body Aches" |};
         {| opt_value := "nausea"; opt_text := "Nausea" |};
         {| opt_value := "diarrhea"; opt_text := "Diarrhea" |};
         {| opt_value := "none"; opt_text := "None of These" |} ] |};
    {| q_id := "fever_level";
     q_question := "Do you have fever?";
     q_type := single_choice;
     q_depends_on := None;
     q_options :=
       [ {| opt_value := "mild_fever"; opt_text := "Mild Fever (below 101°F)" |};
         {| opt_value := "high_fever"; opt_text := "High Fever (above 101°F)" |};
         {| opt_value := "chills"; opt_text := "Chills without Fever" |};
         {| opt_value := "no_fever"; opt_text := "No Fever" |};
         {| opt_value := "none"; opt_text := "Not Sure" |} ] |};
    {| q_id := "respiratory_symptoms";
     q_question := "Any breathing or chest symptoms?";
     q_type := multiple_choice;
     q_depends_on := None;
     q_options :=
       [ {| opt_value := "congestion"; opt_text := "Nasal Congestion" |};
         {| opt_value := "shortness"; opt_text := "Shortness of Breath" |};
         {| opt_value := "chest_pain"; opt_text := "Chest Pain" |};
         {| opt_value := "sinus"; opt_text := "Sinus Pressure" |};
         {| opt_value := "none"; opt_text := "None of These" |} ] |};
    {| q_id := "digestive_symptoms";
     q_question := "Any digestive symptoms?";
     q_type := multiple_choice;
     q_depends_on := None;
     q_options :=
       [ {| opt_value := "nausea"; opt_text := "Nausea" |};
         {| opt_value := "vomiting"; opt_text := "Vomiting" |};
         {| opt_value := "diarrhea"; opt_text := "Diarrhea" |};
         {| opt_value := "abdominal_pain"; opt_text := "Abdominal Pain" |};
         {| opt_value := "loss_appetite"; opt_text := "Loss of Appetite" |};
         {| opt_value := "none"; opt_text := "None of These" |} ] |};
    {| q_id := "duration";
     q_question := "How long have you had these symptoms?";
     q_type := single_choice;
     q_depends_on := None;
     q_options :=
       [ {| opt_value := "recent"; opt_text := "Recent (1-3 days)" |};
         {| opt_value := "lasting"; opt_text := "Lasting (4-7 days)" |};
         {| opt_value := "chronic"; opt_text := "Chronic (over 1 week)" |};
         {| opt_value := "recurring"; opt_text := "Comes and Goes" |};
         {| opt_value := "none"; opt_text := "Not Sure" |} ] |};
    {| q_id := "severity";
     q_question := "How severe are your symptoms?";
     q_type := single_choice;
     q_depends_on := None;
     q_options :=
       [ {| opt_value := "mild"; opt_text := "Mild (can do daily activities)" |};
         {| opt_value := "moderate"; opt_text := "Moderate (affects daily activities)" |};
         {| opt_value := "severe"; opt_text := "Severe (cannot do daily activities)" |};
         {| opt_value := "none"; opt_text := "Not Sure" |} ] |} ].

Definition create_conversation_flows : gmap string (list question) :=
  list_to_map
    [ ("gastrointestinal", gastrointestinal_flow);
      ("dermatology", dermatology_flow);
      ("musculoskeletal", musculoskeletal_flow);
      ("mental_health", mental_health_flow);
      ("first_aid", first_aid_flow);
      ("general_medicine", general_medicine_flow) ].

(** [MedicalChatbot.__init__]: the loaded department data and the flows
    above. *)
Definition MedicalChatbot_init (data : gmap string dept_data) : MedicalChatbot :=
  {| departments_data := data;
     conversation_flows := create_conversation_flows |}.

(** * Flow controller *)

(** The loop over [question['depends_on'].items()], with its [break] on
    the first pair whose recorded answer is not the required value.
    [current_answers.get(dep_key)] is [None] for an unanswered question,
    and a list never equals a string. *)
Fixpoint dependency_met (current_answers : AnswerSet)
    (deps : list (string * string)) : bool :=
  match deps with
  | [] => true
  | (dep_key, dep_value) :: deps' =>
      if decide (dict_get current_answers dep_key ≠ Some (AnswerStr dep_value))
      then false
      else dependency_met current_answers deps'
  end.

(** The scan [for question in flow]. *)
Fixpoint scan_flow (flow : list question) (current_answers : AnswerSet)
    : option question :=
  match flow with
  | [] => None
  | question :: flow' =>
      if dict_contains current_answers (q_id question)
      then scan_flow flow' current_answers
      else
        match q_depends_on question with
        | Some deps =>
            if dependency_met current_answers deps
            then Some question
            else scan_flow flow' current_answers
        | None => Some question
        end
  end.

Definition get_next_question (self : MedicalChatbot) (department : string)
    (current_answers : AnswerSet) : option question :=
  match conversation_flows self !! department with
  | None => None
  | Some flow => scan_flow flow current_answers
  end.

(** * Symptom normaliser *)

(** The table local to [map_answers_to_symptoms]. *)

Definition gastrointestinal_symptoms : gmap string string :=
  list_to_map
    [ ("upper_abdomen", "SYP_001"); ("lower_abdomen", "SYP_007"); ("right_side", "SYP_008");
      ("left_side", "SYP_009"); ("whole_abdomen", "SYP_010"); ("after_meals", "SYP_001");
      ("empty_stomach", "SYP_004"); ("constant", "SYP_005"); ("night_time", "SYP_006");
      ("burning", "SYP_011"); ("cramping", "SYP_007"); ("sharp", "SYP_008");
      ("dull", "SYP_005"); ("nausea", "SYP_014"); ("vomiting", "SYP_014");
      ("bloating", "SYP_025"); ("heartburn", "SYP_011"); ("belching", "SYP_026");
      ("loss_of_appetite", "SYP_027"); ("constipation", "SYP_018"); ("diarrhea", "SYP_019");
      ("alternating", "SYP_020"); ("bloody_stools", "SYP_021"); ("mucus_stools", "SYP_022");
      ("straining", "SYP_023"); ("urgency", "SYP_024"); ("fever", "SYP_028");
      ("jaundice", "SYP_029"); ("painful_bowel_movement", "SYP_030") ].

Definition dermatology_symptoms : gmap string string :=
  list_to_map
    [ ("rash_bumps", "DER_001"); ("dry_patches", "DER_004"); ("oily_skin", "DER_005");
      ("color_changes", "DER_006"); ("blisters", "DER_003"); ("face", "DER_014");
      ("scalp", "DER_015"); ("arms", "DER_016"); ("legs", "DER_017");
      ("chest_back", "DER_018"); ("all_over_body", "DER_019"); ("itchy", "DER_002");
      ("burning", "DER_010"); ("painful", "DER_011"); ("tender", "DER_012");
      ("no_sensation", "DER_013"); ("mild", "DER_020"); ("moderate", "DER_021");
      ("severe", "DER_022"); ("recent", "DER_024"); ("chronic", "DER_025");
      ("recurring", "DER_026"); ("food", "DER_027"); ("weather", "DER_028");
      ("cosmetics", "DER_029"); ("stress", "DER_030"); ("medications", "DER_031");
      ("swelling", "DER_032"); ("pus", "DER_033"); ("hair_loss", "DER_034");
      ("nail_changes", "DER_035"); ("fever", "DER_036") ].

Definition musculoskeletal_symptoms : gmap string string :=
  list_to_map
    [ ("neck", "MSK_001"); ("shoulder", "MSK_002"); ("upper_back", "MSK_003");
      ("lower_back", "MSK_004"); ("hip", "MSK_005"); ("knee", "MSK_006");
      ("elbow", "MSK_007"); ("wrist", "MSK_008"); ("ankle", "MSK_009");
      ("multiple_joints", "MSK_010"); ("sharp_shooting", "MSK_011"); ("dull_ache", "MSK_012");
      ("burning", "MSK_013"); ("throbbing", "MSK_014"); ("stabbing", "MSK_015");
      ("morning", "MSK_016"); ("activity", "MSK_017"); ("rest", "MSK_018");
      ("night", "MSK_019"); ("constant", "MSK_020"); ("difficulty_moving", "MSK_021");
      ("stiffness", "MSK_022"); ("limited_range", "MSK_023"); ("weakness", "MSK_024");
      ("giving_way", "MSK_025"); ("swelling", "MSK_026"); ("redness", "MSK_027");
      ("warmth", "MSK_028"); ("tenderness", "MSK_029"); ("recent_injury", "MSK_030");
      ("overuse", "MSK_031"); ("sports", "MSK_032"); ("fall", "MSK_033");
      ("acute", "MSK_034"); ("subacute", "MSK_035"); ("chronic", "MSK_036");
      ("recurring", "MSK_037"); ("numbness", "MSK_038"); ("tingling", "MSK_039");
      ("muscle_spasms", "MSK_040"); ("fatigue", "MSK_041"); ("fever", "MSK_042") ].

Definition mental_health_symptoms : gmap string string :=
  list_to_map
    [ ("sadness", "MH_001"); ("anxiety", "MH_002"); ("irritability", "MH_003");
      ("mood_swings", "MH_004"); ("emotional_numbness", "MH_005"); ("sleep_problems", "MH_006");
      ("appetite_changes", "MH_007"); ("fatigue", "MH_008"); ("body_aches", "MH_009");
      ("digestive_issues", "MH_010"); ("concentration", "MH_011"); ("memory", "MH_012");
      ("indecisiveness", "MH_013"); ("racing_thoughts", "MH_014"); ("negative_thoughts", "MH_015");
      ("social_withdrawal", "MH_016"); ("loss_interest", "MH_017"); ("agitation", "MH_018");
      ("procrastination", "MH_019"); ("routine_changes", "MH_020"); ("recent", "MH_021");
      ("chronic", "MH_022"); ("daily", "MH_023"); ("episodic", "MH_024");
      ("constant", "MH_025"); ("work_school", "MH_026"); ("relationships", "MH_027");
      ("self_care", "MH_028"); ("daily_tasks", "MH_029"); ("work_stress", "MH_030");
      ("relationship_stress", "MH_031"); ("financial_stress", "MH_032"); ("health_concerns", "MH_033");
      ("life_changes", "MH_034"); ("panic_attacks", "MH_035"); ("suicidal_thoughts", "MH_036");
      ("self_harm", "MH_037"); ("detachment", "MH_038"); ("extreme_fear", "MH_039") ].

Definition first_aid_symptoms : gmap string string :=
  list_to_map
    [ ("cuts", "FA_001"); ("burns", "FA_002"); ("sprains", "FA_004");
      ("fractures", "FA_005"); ("bleeding", "FA_009"); ("bites", "FA_007");
      ("minor_bleeding", "FA_009"); ("heavy_bleeding", "FA_010"); ("no_bleeding", "FA_011");
      ("mild_pain", "FA_012"); ("moderate_pain", "FA_013"); ("severe_pain", "FA_014");
      ("breathing", "FA_024"); ("unconscious", "FA_025"); ("allergy", "FA_026");
      ("chest_pain", "FA_027"); ("head_injury", "FA_028"); ("full_movement", "FA_018");
      ("limited_movement", "FA_019"); ("no_movement", "FA_020") ].

Definition general_medicine_symptoms : gmap string string :=
  list_to_map
    [ ("fever", "GM_001"); ("cough", "GM_005"); ("sore_throat", "GM_006");
      ("runny_nose", "GM_007"); ("headache", "GM_010"); ("body_aches", "GM_019");
      ("nausea", "GM_014"); ("diarrhea", "GM_016"); ("mild_fever", "GM_001");
      ("high_fever", "GM_002"); ("chills", "GM_003"); ("no_fever", "GM_001");
      ("congestion", "GM_008"); ("shortness", "GM_009"); ("chest_pain", "GM_031");
      ("sinus", "GM_012"); ("vomiting", "GM_015"); ("abdominal_pain", "GM_017");
      ("loss_appetite", "GM_018"); ("recent", "GM_023"); ("lasting", "GM_024");
      ("chronic", "GM_025"); ("recurring", "GM_026"); ("mild", "GM_027");
      ("moderate", "GM_028"); ("severe", "GM_029") ].

Definition symptom_mapping : gmap string (gmap string string) :=
  list_to_map
    [ ("gastrointestinal", gastrointestinal_symptoms);
      ("dermatology", dermatology_symptoms);
      ("musculoskeletal", musculoskeletal_symptoms);
      ("mental_health", mental_health_symptoms);
      ("first_aid", first_aid_symptoms);
      ("general_medicine", general_medicine_symptoms) ].

(** The body shared by the two branches: a non-empty token other than
    ['none'] that has an entry in the department's table adds its
    symptom id, unless the id is already in [symptoms]. *)
Definition add_symptom (mapping : gmap string string)
    (symptoms : list string) (item : string) : list string :=
  if decide (item ≠ "" ∧ item ≠ "none") then
    match mapping !! item with
    | Some symptom_id =>
        if decide (symptom_id ∈ symptoms) then symptoms
        else symptoms ++ [symptom_id]
    | None => symptoms
    end
  else symptoms.

(** One iteration of [for answer_key, answer_value in answers.items()]. *)
Definition add_answer (mapping : gmap string string)
    (symptoms : list string) (entry : string * answer_value) : list string :=
  match entry.2 with
  | AnswerList items => foldl (add_symptom mapping) symptoms items
  | AnswerStr item => add_symptom mapping symptoms item
  end.

Definition map_answers_to_symptoms (self : MedicalChatbot)
    (department : string) (answers : AnswerSet) : list string :=
  match symptom_mapping !! department with
  | Some mapping => foldl (add_answer mapping) [] answers
  | None => []
  end.

(** * Condition matcher *)

(** [disease.get('symptoms', [])] *)
Definition disease_symptoms (d : disease) : list string :=
  default [] (d_symptoms d).

(** [set(symptoms) & set(disease_symptoms)] *)
Definition matching_symptoms (symptoms : list string) (d : disease)
    : gset string :=
  list_to_set symptoms ∩ list_to_set (disease_symptoms d).

Definition match_count (symptoms : list string) (d : disease) : nat :=
  size (matching_symptoms symptoms d).

Definition total_possible (d : disease) : nat :=
  length (disease_symptoms d).

Definition Qc_of_nat (n : nat) : Qc := Qc_of_Z (Z.of_nat n).

(** [(match_count / total_possible) * 100 if total_possible > 0 else 0].
    The Python value is a float; it is kept here as the exact rational.
    The function compares the value with [30] only when the count is 1
    (a count of 2 or more already admits), where it is 100, 50, 33.3...
    or at most 25, and otherwise only orders results by it. *)
Definition match_percentage (symptoms : list string) (d : disease) : Qc :=
  if decide (0 < total_possible d)%nat then
    (Qc_of_nat (match_count symptoms d) / Qc_of_nat (total_possible d)
     * Qc_of_nat 100)%Qc
  else 0%Qc.

(** [match_count >= 2 or (match_count >= 1 and match_percentage >= 30)] *)
Definition meets_threshold (symptoms : list string) (d : disease) : bool :=
  bool_decide (2 ≤ match_count symptoms d)%nat
  || (bool_decide (1 ≤ match_count symptoms d)%nat
      && bool_decide (Qc_of_nat 30 ≤ match_percentage symptoms d)%Qc).

Record condition_info := {
  ci_disease_id : string;
  ci_disease_name : string;
  ci_match_score : nat;
  ci_match_percentage : Qc;
  ci_matching_symptoms : list string;
  ci_total_disease_symptoms : nat;
  ci_symptoms : list string;
  ci_treatments : gmap string treatment
}.

(** The dictionary appended for an admitted condition.
    ['matching_symptoms'] is [list(matching_symptoms)] of a Python set,
    whose order the program does not fix; here it is the elements of the
    set in one fixed order, and the properties stated of it below speak
    of its members and its length only. *)
Definition make_condition_info
    (treatments : gmap string (gmap string treatment))
    (symptoms : list string) (d : disease) : condition_info :=
  {| ci_disease_id := d_id d;
     ci_disease_name := d_name d;
     ci_match_score := match_count symptoms d;
     ci_match_percentage := match_percentage symptoms d;
     ci_matching_symptoms := elements (matching_symptoms symptoms d);
     ci_total_disease_symptoms := total_possible d;
     ci_symptoms := disease_symptoms d;
     ci_treatments := default ∅ (treatments !! d_id d) |}.

(** The loop [for disease in dept_data['diseases']], appending to
    [matched_conditions]. *)
Definition collect_matches
    (treatments : gmap string (gmap string treatment))
    (symptoms : list string) (diseases : list disease) : list condition_info :=
  foldl (λ (matched_conditions : list condition_info) d,
           if meets_threshold symptoms d
           then matched_conditions ++ [make_condition_info treatments symptoms d]
           else matched_conditions)
        [] diseases.

(** The sort key [(x['match_score'], x['match_percentage'])] and Python's
    tuple comparison. *)
Definition sort_key (x : condition_info) : nat * Qc :=
  (ci_match_score x, ci_match_percentage x).

Definition key_lt (a b : nat * Qc) : Prop :=
  (a.1 < b.1)%nat ∨ (a.1 = b.1 ∧ (a.2 < b.2)%Qc).

#[global] Instance key_lt_dec : RelDecision key_lt.
Proof. intros a b. unfold key_lt. apply _. Defined.

(** [list.sort(key=..., reverse=True)]: descending, and stable (entries
    with equal keys keep their original order).  Inserting the elements
    from the back, each element goes in front of the first one whose key
    is not greater than its own. *)
Fixpoint insert_desc (x : condition_info) (l : list condition_info)
    : list condition_info :=
  match l with
  | [] => [x]
  | y :: l' =>
      if decide (key_lt (sort_key x) (sort_key y))
      then y :: insert_desc x l'
      else x :: y :: l'
  end.

Definition sort_desc (l : list condition_info) : list condition_info :=
  foldr insert_desc [] l.

Definition find_condition_by_symptoms (self : MedicalChatbot)
    (department : string) (symptoms : list string)
    : option (list condition_info) :=
  match departments_data self !! department with
  | None => None
  | Some dept =>
      let matched_conditions :=
        match dd_diseases dept, dd_treatments dept with
        | Some diseases, Some treatments =>
            collect_matches treatments symptoms diseases
        | _, _ => []
        end in
      Some (sort_desc matched_conditions)
  end.

(** * Translation helpers *)

(** What one call of [GoogleTranslator(...).translate(text)] on a pool
    worker can do: return a translation, raise, or still be running when
    the three-second wait of [future.result(timeout=3)] expires. *)
Inductive provider_outcome :=
  | Translated (translation : string)
  | ProviderError
  | ProviderTimeout.

(** The module-level state: [translation_cache], keyed by
    [(text, lang)] in insertion order, together with a log of the calls
    handed to the provider so far, kept to tell whether a call reaches
    the provider.  Calls are taken one after the other. *)
Record world := {
  translation_cache : list ((string * string) * string);
  provider_calls : list (string * string)
}.

Definition empty_world : world :=
  {| translation_cache := []; provider_calls := [] |}.

Section translation.
(** The external provider: its answer may depend on the calls made
    before, on the target language and on the text. *)
Variable GoogleTranslator :
  list (string * string) → string → string → provider_outcome.

(** The worker body [do_translate] seen through [future.result]:
    [None] stands for the [TimeoutError] of the wait.  An exception of
    the provider is caught inside the worker, which then returns
    [text] as its result. *)
Definition do_translate (calls : list (string * string))
    (lang text : string) : option string :=
  match GoogleTranslator calls lang text with
  | Translated translation => Some translation
  | ProviderError => Some text
  | ProviderTimeout => None
  end.

(** [translate_text]; [session_language] is [session.get("language")],
    read with the default ["en"]. *)
Definition translate_text (session_language : option string)
    (text : string) (w : world) : string * world :=
  if decide (text = "") then (text, w)
  else
    let lang := default "en" session_language in
    if decide (lang = "en") then (text, w)
    else
      let key := (text, lang) in
      match dict_get (translation_cache w) key with
      | Some cached => (cached, w)
      | None =>
          let calls := provider_calls w in
          match do_translate calls lang text with
          | Some translated =>
              (translated,
               {| translation_cache :=
                    dict_set (translation_cache w) key translated;
                  provider_calls := calls ++ [key] |})
          | None =>
              (text,
               {| translation_cache := translation_cache w;
                  provider_calls := calls ++ [key] |})
          end
      end.

(** One round of the eviction loop:
    [if translation_cache: translation_cache.pop(next(iter(translation_cache)))]. *)
Definition pop_oldest (cache : list ((string * string) * string))
    : list ((string * string) * string) :=
  match cache with
  | [] => []
  | _ :: cache' => cache'
  end.

(** The [before_request] hook. *)
Definition clear_old_cache (w : world) : world :=
  if decide (500 < length (translation_cache w)) then
    {| translation_cache := Nat.iter 100 pop_oldest (translation_cache w);
       provider_calls := provider_calls w |}
  else w.

(** A request as the cache sees it: the hook, then the [translate_text]
    calls of the route handler, all under the session's language. *)
Record request := {
  req_language : option string;
  req_texts : list string
}.

Definition handle_request (w : world) (r : request) : world :=
  foldl (λ w text, (translate_text (req_language r) text w).2)
        (clear_old_cache w) (req_texts r).

Definition serve (requests : list request) (w : world) : world :=
  foldl handle_request w requests.
End translation.

(** * The engine's error interface as the specification words it *)

Inductive engine_error := UnknownDomain.

Inductive outcome (A : Type) :=
  | Returned (a : A)
  | Signalled (e : engine_error).
Arguments Returned {A} a.
Arguments Signalled {A} e.

(** [next] as specified: an unknown domain is an error. *)
Definition next_spec (self : MedicalChatbot) (department : string)
    (current_answers : AnswerSet) : outcome (option question) :=
  match conversation_flows self !! department with
  | None => Signalled UnknownDomain
  | Some flow => Returned (scan_flow flow current_answers)
  end.

(** [map] as specified: an unknown domain is an error. *)
Definition map_spec (self : MedicalChatbot) (department : string)
    (answers : AnswerSet) : outcome (list string) :=
  match symptom_mapping !! department with
  | None => Signalled UnknownDomain
  | Some mapping => Returned (foldl (add_answer mapping) [] answers)
  end.

(** * Vocabulary of the statements *)

(** The tokens an answer set carries, scalar answers counting as
    one-member collections. *)
Definition answer_tokens (answers : AnswerSet) : list string :=
  answers ≫= λ entry,
    match entry.2 with
    | AnswerList items => items
    | AnswerStr item => [item]
    end.

(** The answer set with every ['none'] token taken out: removed from the
    multiple-choice lists, and a scalar ['none'] answer dropped. *)
Definition remove_none (answers : AnswerSet) : AnswerSet :=
  omap (λ entry : string * answer_value,
          match entry.2 with
          | AnswerList items =>
              Some (entry.1, AnswerList (filter (λ item, item ≠ "none") items))
          | AnswerStr item =>
              if decide (item = "none") then None else Some entry
          end) answers.

(** Descending order of the composite key: the count decides, the
    percentage breaks ties. *)
Definition key_ge (a b : nat * Qc) : Prop :=
  (b.1 < a.1)%nat ∨ (a.1 = b.1 ∧ (b.2 ≤ a.2)%Qc).

Definition ranked_before (x y : condition_info) : Prop :=
  key_ge (sort_key x) (sort_key y).

(** The admitted conditions of a department in catalog order. *)
Definition admitted_in_catalog_order (dept : dept_data)
    (symptoms : list string) : list condition_info :=
  match dd_diseases dept, dd_treatments dept with
  | Some diseases, Some treatments =>
      make_condition_info treatments symptoms
        <$> filter (λ d, meets_threshold symptoms d) diseases
  | _, _ => []
  end.

(** ** The flow controller's notion of a question that can be asked *)

(** A question can be asked: it is not answered yet, and every pair of its
    ['depends_on'] dictionary, if it has one, is the recorded answer. *)
Definition eligible (current_answers : AnswerSet) (q : question) : Prop :=
  (q_id q ∉ current_answers.*1)
  ∧ ∀ deps dep_key dep_value,
      q_depends_on q = Some deps →
      (dep_key, dep_value) ∈ deps →
      dict_get current_answers dep_key = Some (AnswerStr dep_value).

(** ** The matcher's quantities as the specification words them

    These are stated over the given symptoms and a condition's required
    symptoms, both read as sets, without reference to the functions of
    the matcher.  The catalog keeps the required symptoms as a JSON
    array; the array stands for the set when no id is repeated in it. *)

(** [matchCount]: the size of the intersection of the given symptoms
    with the required symptoms. *)
Definition spec_match_count (symptoms required : list string) : nat :=
  length (remove_dups (filter (λ s, s ∈ symptoms) required)).

(** [|requiredSymptoms|]: the number of distinct required symptoms. *)
Definition spec_total (required : list string) : nat :=
  length (remove_dups required).

(** [matchPercentage]: matchCount / |requiredSymptoms| × 100, taken as 0
    when there are no required symptoms. *)
Definition spec_match_percentage (symptoms required : list string) : Qc :=
  if decide (spec_total required = 0) then 0%Qc
  else (Qc_of_nat (spec_match_count symptoms required)
        / Qc_of_nat (spec_total required) * Qc_of_nat 100)%Qc.

(** The admission policy. *)
Definition spec_admitted (symptoms required : list string) : Prop :=
  (2 ≤ spec_match_count symptoms required)%nat
  ∨ ((1 ≤ spec_match_count symptoms required)%nat
     ∧ (Qc_of_nat 30 ≤ spec_match_percentage symptoms required)%Qc).

#[global] Instance spec_admitted_dec symptoms required :
  Decision (spec_admitted symptoms required).
Proof. unfold spec_admitted. apply _. Defined.

(** The composite key (matchCount, matchPercentage) of a condition. *)
Definition spec_key (symptoms required : list string) : nat * Qc :=
  (spec_match_count symptoms required, spec_match_percentage symptoms required).

(** The composite key a result record carries. *)
Definition composite_key (x : condition_info) : nat * Qc :=
  (ci_match_score x, ci_match_percentage x).

(** A result record is the record of a catalog condition. *)
Definition is_record_of (x : condition_info) (d : disease) : Prop :=
  ci_disease_id x = d_id d
  ∧ ci_disease_name x = d_name d
  ∧ ci_symptoms x = disease_symptoms d.

(** ** Sample department data for the concrete checks *)

Definition gastritis : disease :=
  {| d_id := "DIS_01"; d_name := "Gastritis";
     d_symptoms :=
       Some ["SYP_001"; "SYP_011"; "SYP_014"; "SYP_025"; "SYP_027"] |}.

Definition constipation : disease :=
  {| d_id := "DIS_02"; d_name := "Constipation";
     d_symptoms := Some ["SYP_018"; "SYP_023"; "SYP_025"] |}.

Definition gerd : disease :=
  {| d_id := "DIS_03"; d_name := "Acid Reflux";
     d_symptoms := Some ["SYP_011"; "SYP_026"; "SYP_006"] |}.

Definition sample_treatments : gmap string (gmap string treatment) :=
  {[ "DIS_02" := {[ "home_remedy" := TreatmentList ["Drink more water"] ]} ]}.

Definition sample_dept : dept_data :=
  {| dd_diseases := Some [gastritis; constipation; gerd];
     dd_treatments := Some sample_treatments |}.

(** The same condition list in a file that has no ['treatments'] key. *)
Definition dept_without_treatments : dept_data :=
  {| dd_diseases := Some [gastritis; constipation; gerd];
     dd_treatments := None |}.

Definition sample_chatbot : MedicalChatbot :=
  MedicalChatbot_init
    {[ "gastrointestinal" := sample_dept;
       "general_medicine" := dept_without_treatments ]}.

(** A catalog in which ranking changes the order: for the symptoms
    [ranking_symptoms] the first condition matches two of five, the
    second and the fourth one of three, and the third two of three. *)
Definition dyspepsia : disease :=
  {| d_id := "DIS_04"; d_name := "Indigestion";
     d_symptoms := Some ["SYP_001"; "SYP_025"; "SYP_027"] |}.

Definition ranking_dept : dept_data :=
  {| dd_diseases := Some [gastritis; gerd; constipation; dyspepsia];
     dd_treatments := Some sample_treatments |}.

Definition ranking_chatbot : MedicalChatbot :=
  MedicalChatbot_init {[ "gastrointestinal" := ranking_dept ]}.

Definition ranking_symptoms : list string :=
  ["SYP_011"; "SYP_018"; "SYP_023"; "SYP_001"].

(** ** Sample providers and request streams *)

(** A provider that is down for the first call and works afterwards. *)
Definition recovering_provider
    (calls : list (string * string)) (lang text : string) : provider_outcome :=
  match calls with
  | [] => ProviderError
  | _ => Translated "Hola"
  end.

(** A provider that always answers. *)
Definition echo_provider
    (calls : list (string * string)) (lang text : string) : provider_outcome :=
  Translated (lang +:+ ":" +:+ text).

(** [n] requests, each translating one text not seen before. *)
Definition fresh_requests (n : nat) : list request :=
  (λ i : nat, {| req_language := Some "es"; req_texts := [pretty i] |})
    <$> seq 0 n.

(** What one token contributes. *)
Definition contributes (mapping : gmap string string) (item s : string) : Prop :=
  item ≠ "" ∧ item ≠ "none" ∧ mapping !! item = Some s.

(** The caller's choice [matched_conditions[0]] in [select_treatment]. *)
Definition top_condition (matched_conditions : list condition_info)
    : option condition_info :=
  head matched_conditions.


(** Two result records that agree on every field, the list of matching
    symptoms being compared as a set: Python builds it with
    [list(set(...) & set(...))], whose order is not fixed by the program. *)
Definition same_entry (x y : condition_info) : Prop :=
  ci_disease_id x = ci_disease_id y
  ∧ ci_disease_name x = ci_disease_name y
  ∧ ci_match_score x = ci_match_score y
  ∧ ci_match_percentage x = ci_match_percentage y
  ∧ ci_matching_symptoms x ≡ₚ ci_matching_symptoms y
  ∧ ci_total_disease_symptoms x = ci_total_disease_symptoms y
  ∧ ci_symptoms x = ci_symptoms y
  ∧ ci_treatments x = ci_treatments y.

(** Two results of the matcher that agree entry by entry. *)
Definition same_result (r r' : option (list condition_info)) : Prop :=
  match r, r' with
  | Some l, Some l' => Forall2 same_entry l l'
  | None, None => True
  | _, _ => False
  end.
(** No cache key has an empty text or the base language. *)
Definition cache_keys_valid (w : world) : Prop :=
  ∀ text lang v, ((text, lang), v) ∈ translation_cache w →
    text ≠ "" ∧ lang ≠ "en".

(** Every cache entry maps a text to itself: no translation is stored. *)
Definition cache_untranslated (w : world) : Prop :=
  ∀ text lang v, ((text, lang), v) ∈ translation_cache w → v = text.

(** A provider that never delivers a translation: every call raises or
    outlasts the wait. *)
Definition provider_down
    (GoogleTranslator : list (string * string) → string → string → provider_outcome)
    : Prop :=
  ∀ calls lang text translation,
    GoogleTranslator calls lang text ≠ Translated translation.

(** A provider that times out on every call. *)
Definition slow_provider
    (calls : list (string * string)) (lang text : string) : provider_outcome :=
  ProviderTimeout.

(** * Translation of questions and treatments *)

(** What [GoogleTranslator(...).translate_batch(texts)] can do: return a
    list of translations, of whatever length, or raise. *)
Inductive batch_outcome :=
  | BatchTranslated (translated : list string)
  | BatchError.

(** The loop [for i, opt in enumerate(options): opt["text"] = translated[i]].
    The options are updated in place, so when [translated] runs out the
    [IndexError] leaves the options before that index changed and the
    others as they were; the flag tells whether the loop completed. *)
Fixpoint assign_batch (options : list option_entry) (translated : list string)
    : list option_entry * bool :=
  match options with
  | [] => ([], true)
  | opt :: options' =>
      match translated with
      | [] => (opt :: options', false)
      | t :: translated' =>
          let '(rest, completed) := assign_batch options' translated' in
          ({| opt_value := opt_value opt; opt_text := t |} :: rest, completed)
      end
  end.

Section translate_structures.
Variable GoogleTranslator :
  list (string * string) → string → string → provider_outcome.
(** The batch call goes straight to the provider, without the pool, the
    wait and the cache; it is not entered in [provider_calls], which
    counts the calls of [translate_text]. *)
Variable translate_batch :
  list (string * string) → string → list string → batch_outcome.

(** [[translate_text(item) for item in items]], and the fallback loop
    over the options: one [translate_text] after the other. *)
Fixpoint translate_texts (session_language : option string)
    (items : list string) (w : world) : list string * world :=
  match items with
  | [] => ([], w)
  | item :: items' =>
      let '(translated, w1) :=
        translate_text GoogleTranslator session_language item w in
      let '(rest, w2) := translate_texts session_language items' w1 in
      (translated :: rest, w2)
  end.

Fixpoint translate_options (session_language : option string)
    (options : list option_entry) (w : world) : list option_entry * world :=
  match options with
  | [] => ([], w)
  | opt :: options' =>
      let '(translated, w1) :=
        translate_text GoogleTranslator session_language (opt_text opt) w in
      let '(rest, w2) := translate_options session_language options' w1 in
      ({| opt_value := opt_value opt; opt_text := translated |} :: rest, w2)
  end.

(** [translate_question]; the argument [asked] is the [question]
    parameter, [None] for Python's [None], and the copy made through JSON
    is the record itself. *)
Definition translate_question (session_language : option string)
    (asked : option question) (w : world) : option question * world :=
  match asked with
  | None => (None, w)
  | Some q =>
      let '(text, w1) :=
        translate_text GoogleTranslator session_language (q_question q) w in
      let q_copy options :=
        {| q_id := q_id q; q_question := text; q_type := q_type q;
           q_depends_on := q_depends_on q; q_options := options |} in
      let lang := default "en" session_language in
      if decide (lang = "en") then (Some (q_copy (q_options q)), w1)
      else
        let texts := opt_text <$> q_options q in
        match translate_batch (provider_calls w1) lang texts with
        | BatchTranslated translated =>
            let '(options, completed) := assign_batch (q_options q) translated in
            if completed then (Some (q_copy options), w1)
            else
              let '(options', w2) :=
                translate_options session_language options w1 in
              (Some (q_copy options'), w2)
        | BatchError =>
            let '(options', w2) :=
              translate_options session_language (q_options q) w1 in
            (Some (q_copy options'), w2)
        end
  end.

(** One value of the treatments dictionary. *)
Definition translate_treatment (session_language : option string)
    (t : treatment) (w : world) : treatment * world :=
  match t with
  | TreatmentList items =>
      let '(items', w') := translate_texts session_language items w in
      (TreatmentList items', w')
  | TreatmentText s =>
      let '(s', w') := translate_text GoogleTranslator session_language s w in
      (TreatmentText s', w')
  end.

(** The loop [for treatment_type, treatment_list in treatments.items()]
    over the dictionary in its iteration order. *)
Fixpoint translate_treatment_items (session_language : option string)
    (treatments : list (string * treatment)) (w : world)
    : list (string * treatment) * world :=
  match treatments with
  | [] => ([], w)
  | (treatment_type, treatment_list) :: treatments' =>
      let '(t', w1) := translate_treatment session_language treatment_list w in
      let '(rest, w2) :=
        translate_treatment_items session_language treatments' w1 in
      ((treatment_type, t') :: rest, w2)
  end.

(** [translate_treatments], on the dictionary as the list of its items. *)
Definition translate_treatments (session_language : option string)
    (treatments : list (string * treatment)) (w : world)
    : list (string * treatment) * world :=
  match treatments with
  | [] => (treatments, w)
  | _ =>
      if decide (default "en" session_language = "en") then (treatments, w)
      else translate_treatment_items session_language treatments w
  end.
End translate_structures.

(** Same constructor and, for lists, same number of items. *)
Definition same_shape (t t' : treatment) : Prop :=
  match t, t' with
  | TreatmentText _, TreatmentText _ => True
  | TreatmentList items, TreatmentList items' => length items = length items'
  | _, _ => False
  end.

(** A batch provider that is down, and one that answers. *)
Definition failing_batch
    (calls : list (string * string)) (lang : string) (texts : list string)
    : batch_outcome :=
  BatchError.

Definition echo_batch
    (calls : list (string * string)) (lang : string) (texts : list string)
    : batch_outcome :=
  BatchTranslated ((λ text, lang +:+ ":" +:+ text) <$> texts).

(** A batch provider that returns one translation too few. *)
Definition short_batch
    (calls : list (string * string)) (lang : string) (texts : list string)
    : batch_outcome :=
  BatchTranslated ((λ text, lang +:+ ":" +:+ text) <$> take (length texts - 1) texts).

(** The last question of the gastrointestinal flow. *)
Definition systemic_symptoms_question : question :=
  {| q_id := "systemic_symptoms";
     q_question := "Are you experiencing any of these general symptoms?";
     q_type := multiple_choice;
     q_depends_on := None;
     q_options :=
       [ {| opt_value := "fever"; opt_text := "Fever" |};
         {| opt_value := "jaundice"; opt_text := "Yellowing of Skin/Eyes (Jaundice)" |};
         {| opt_value := "painful_bowel_movement"; opt_text := "Painful Bowel Movements" |};
         {| opt_value := "none"; opt_text := "None of these" |} ] |}.

Definition sample_treatment_items : list (string * treatment) :=
  [ ("allopathy", TreatmentList ["Antacids"; "Proton pump inhibitors"]);
    ("home_remedy", TreatmentText "please consult doctor") ].

(** * Configuration and loading *)

Definition DEPARTMENTS : list (string * string) :=
  [ ("gastrointestinal", "Gastrointestinal Issues");
    ("dermatology", "Skin & Dermatology");
    ("first_aid", "First Aid & Emergency");
    ("general_medicine", "General Medicine");
    ("mental_health", "Mental Health");
    ("musculoskeletal", "Musculoskeletal & Pain") ].

Definition TREATMENT_TYPES : list (string * string) :=
  [ ("allopathy", "🏥 Modern Medicine (Allopathy)");
    ("homeopathy", "🌿 Homeopathic Medicine");
    ("ayurveda", "🌱 Ayurvedic Medicine");
    ("home_remedy", "🏠 Home Remedies & Lifestyle") ].

Definition LANGUAGES : list (string * string) :=
  [ ("en", "English");
    ("es", "Español");
    ("fr", "Français");
    ("de", "Deutsch");
    ("hi", "हिन्दी");
    ("ta", "தமிழ்");
    ("te", "తెలుగు");
    ("kn", "ಕನ್ನಡ");
    ("ml", "മലയാളം");
    ("bn", "বাংলা");
    ("gu", "ગુજરાતી");
    ("mr", "मराठी");
    ("pa", "ਪੰਜਾਬੀ") ].

Definition serious_conditions : list (string * list string) :=
  [ ("gastrointestinal", ["DIS_07"; "DIS_12"; "DIS_13"; "DIS_15"]);
    ("dermatology", ["DER_DIS_11"; "DER_DIS_12"; "DER_DIS_14"]);
    ("musculoskeletal", ["MSK_DIS_09"; "MSK_DIS_10"; "MSK_DIS_14"]);
    ("mental_health", ["MH_DIS_03"; "MH_DIS_06"; "MH_DIS_07"]);
    ("first_aid", ["FA_DIS_08"; "FA_DIS_09"; "FA_DIS_10"; "FA_DIS_11"; "FA_DIS_12"; "FA_DIS_13"]);
    ("general_medicine", ["GM_DIS_09"; "GM_DIS_10"]) ].

(** What [load_all_departments] finds at a path: no file, a file whose
    opening or parsing raises, or a file that parses to a department
    object: a JSON object whose ['diseases'], when present, is a list of
    condition objects and whose ['treatments'], when present, is an
    object.  [json.load] accepts any JSON value; files holding a value of
    another shape are not represented here, and nothing below speaks
    about them. *)
Inductive file_state :=
  | FileMissing
  | FileUnreadable
  | FileContent (data : dept_data).

(** The empty dictionary stored for a department that could not be loaded. *)
Definition empty_dept_data : dept_data :=
  {| dd_diseases := None; dd_treatments := None |}.

(** One round of [for dept in DEPARTMENTS.keys()]. *)
Definition load_department (files : string → file_state)
    (departments_data : gmap string dept_data) (dept : string)
    : gmap string dept_data :=
  let file_path := "data/" +:+ dept +:+ ".json" in
  match files file_path with
  | FileContent data => <[dept := data]> departments_data
  | FileMissing => <[dept := empty_dept_data]> departments_data
  | FileUnreadable => <[dept := empty_dept_data]> departments_data
  end.

Definition load_all_departments (files : string → file_state)
    : gmap string dept_data :=
  foldl (load_department files) ∅ DEPARTMENTS.*1.

(** The module-level [chatbot = MedicalChatbot()]. *)
Definition chatbot (files : string → file_state) : MedicalChatbot :=
  MedicalChatbot_init (load_all_departments files).

(** A data directory holding only the gastrointestinal file, and an
    unreadable dermatology file. *)
Definition sample_files (file_path : string) : file_state :=
  if decide (file_path = "data/gastrointestinal.json") then FileContent sample_dept
  else if decide (file_path = "data/dermatology.json") then FileUnreadable
  else FileMissing.

(** * The request handlers *)

#[global] Instance treatment_eq_dec : EqDecision treatment.
Proof. solve_decision. Defined.

(** The Flask session of one user; a field is [None] while its key is
    absent (or holds Python's [None]). *)
Record session := {
  s_department : option string;
  s_answers : option AnswerSet;
  s_current_step : option nat;
  s_treatment_type : option string;
  s_language : option string
}.

(** [session.clear()] *)
Definition cleared_session : session :=
  {| s_department := None; s_answers := None; s_current_step := None;
     s_treatment_type := None; s_language := None |}.

(** The body of the recommendation answer of [select_treatment]. *)
Record recommendation := {
  r_condition : string;
  r_treatment_type : string;
  r_recommendations : treatment;
  r_matched_symptoms_count : nat;
  r_formatted_message : string;
  r_requires_doctor : bool
}.

(** The JSON answers of the handlers. *)
Inductive response :=
  | error_response (error : string) (status : nat)
  | start_response (department : string) (asked : option question)
      (message : string)
  | next_question_response (next_question : question) (completed : bool)
  | treatment_question_response (id question type : string)
      (options : list option_entry) (completed : bool)
  | language_response (message : string)
  | recommendation_response (r : recommendation)
  | no_match_response (message : string) (requires_doctor : bool)
  | restart_response
  | chat_status_response (department : option string) (answers : AnswerSet)
      (treatment_type : option string) (language : string)
  | current_language_response (language language_name : string).

(** The exceptions a handler lets escape. *)
Inductive exception :=
  | KeyError (key : string)
  | UnboundLocalError (name : string).

(** A handler answers, leaving the session as given, or raises. *)
Inductive route_result :=
  | Responded (r : response) (s : session)
  | Raised (e : exception).

(** Python's truth value of a request or session field. *)
Definition truthy (field : option string) : bool :=
  match field with
  | Some s => bool_decide (s ≠ "")
  | None => false
  end.

(** The line feed written [\n] in the source. *)
Definition newline : string := String (Ascii.ascii_of_nat 10) EmptyString.

Section handlers.
Variable GoogleTranslator :
  list (string * string) → string → string → provider_outcome.
Variable translate_batch :
  list (string * string) → string → list string → batch_outcome.
(** The module-level [chatbot]. *)
Variable the_chatbot : MedicalChatbot.
(** The iteration order of a treatments dictionary, which the finite map
    does not record. *)
Variable treatment_items : gmap string treatment → list (string * treatment).

(** [set_language]; [req_language] is the ['language'] field of the
    request, if present. *)
Definition set_language (req_language : option string)
    (s : session) (w : world) : route_result * world :=
  let language := default "en" req_language in
  match dict_get LANGUAGES language with
  | Some language_name =>
      (Responded (language_response ("Language set to " +:+ language_name))
         {| s_department := s_department s; s_answers := s_answers s;
            s_current_step := s_current_step s;
            s_treatment_type := s_treatment_type s;
            s_language := Some language |},
       {| translation_cache := []; provider_calls := provider_calls w |})
  | None => (Responded (error_response "Invalid language" 400) s, w)
  end.

(** [start_chat] *)
Definition start_chat (req_department req_language : option string)
    (s : session) (w : world) : route_result * world :=
  match req_department ≫= λ department,
          (λ name, (department, name)) <$> dict_get DEPARTMENTS department with
  | None => (Responded (error_response "Invalid department" 400) s, w)
  | Some (department, department_name) =>
      let s' :=
        {| s_department := Some department; s_answers := Some [];
           s_current_step := Some 0; s_treatment_type := None;
           s_language := Some (default "en" req_language) |} in
      let first_question := get_next_question the_chatbot department [] in
      let '(translated_question, w1) :=
        translate_question GoogleTranslator translate_batch (s_language s')
          first_question w in
      let '(welcome_message, w2) :=
        translate_text GoogleTranslator (s_language s')
          ("Great! Let's start with the " +:+ department_name +:+ " assessment.")
          w1 in
      (Responded (start_response department translated_question welcome_message)
         s',
       w2)
  end.

(** The comprehension
    [[{'value': k, 'text': translate_text(v)} for k, v in TREATMENT_TYPES.items()]]. *)
Fixpoint treatment_options (session_language : option string)
    (types : list (string * string)) (w : world) : list option_entry * world :=
  match types with
  | [] => ([], w)
  | (k, v) :: types' =>
      let '(text, w1) := translate_text GoogleTranslator session_language v w in
      let '(rest, w2) := treatment_options session_language types' w1 in
      ({| opt_value := k; opt_text := text |} :: rest, w2)
  end.

(** [answer_question], for a request that carries an answer. *)
Definition answer_question (question_id : option string)
    (answer : answer_value) (s : session) (w : world) : route_result * world :=
  match s_department s, question_id with
  | Some department, Some question_id =>
      if truthy (Some department) && truthy (Some question_id) then
        let answers := dict_set (default [] (s_answers s)) question_id answer in
        let s' :=
          {| s_department := s_department s; s_answers := Some answers;
             s_current_step := s_current_step s;
             s_treatment_type := s_treatment_type s;
             s_language := s_language s |} in
        let next_question := get_next_question the_chatbot department answers in
        let '(translated_question, w1) :=
          translate_question GoogleTranslator translate_batch (s_language s')
            next_question w in
        match translated_question with
        | Some q => (Responded (next_question_response q false) s', w1)
        | None =>
            let '(text, w2) :=
              translate_text GoogleTranslator (s_language s')
                "Which treatment type would you prefer?" w1 in
            let '(options, w3) :=
              treatment_options (s_language s') TREATMENT_TYPES w2 in
            (Responded
               (treatment_question_response "treatment_preference" text
                  "treatment_selection" options false) s',
             w3)
        end
      else (Responded (error_response "Invalid request" 400) s, w)
  | _, _ => (Responded (error_response "Invalid request" 400) s, w)
  end.

(** [restart_chat], [get_chat_status] and [get_current_language]. *)
Definition restart_chat (s : session) (w : world) : route_result * world :=
  (Responded restart_response cleared_session, w).

Definition get_chat_status (s : session) (w : world) : route_result * world :=
  (Responded
     (chat_status_response (s_department s) (default [] (s_answers s))
        (s_treatment_type s) (default "en" (s_language s))) s,
   w).

Definition get_current_language (s : session) (w : world)
    : route_result * world :=
  let language := default "en" (s_language s) in
  (Responded
     (current_language_response language
        (default "English" (dict_get LANGUAGES language))) s,
   w).
(** The numbered lines of a list of recommendations:
    [for i, item in enumerate(selected_treatment, 1)]. *)
Fixpoint numbered_items (i : nat) (items : list string) : string :=
  match items with
  | [] => ""
  | item :: items' =>
      "**" +:+ pretty i +:+ ".** " +:+ item +:+ newline
      +:+ numbered_items (S i) items'
  end.

(** The message of the branch taken when the home remedy is to consult
    a doctor. *)
Definition urgent_message (session_language : option string)
    (condition_name : string) (w : world) : string * world :=
  let tr := translate_text GoogleTranslator session_language in
  let '(t1, w1) := tr "Condition Identified:" w in
  let message := "🚨 **" +:+ t1 +:+ "** " +:+ condition_name +:+ newline +:+ newline in
  let '(t2, w2) := tr "Urgent Medical Attention Required" w1 in
  let message := message +:+ "**" +:+ t2 +:+ "**" +:+ newline +:+ newline in
  let '(t3, w3) :=
    tr "This condition requires professional medical diagnosis and treatment. " w2 in
  let message := message +:+ t3 in
  let '(t4, w4) := tr "Please consult a healthcare provider immediately." w3 in
  (message +:+ t4, w4).

(** The [if]/[elif] chain of usage instructions. *)
Definition usage_instructions (session_language : option string)
    (treatment_type : string) (w : world) : string * world :=
  let tr := translate_text GoogleTranslator session_language in
  if decide (treatment_type = "allopathy") then
    tr ("Take as directed above. Complete the full course if antibiotics are prescribed."
        +:+ newline) w
  else if decide (treatment_type = "homeopathy") then
    tr ("Take pills 15-20 minutes before or after meals. Avoid strong smells during treatment."
        +:+ newline) w
  else if decide (treatment_type = "ayurveda") then
    tr ("Take with warm water unless specified. Best taken before meals."
        +:+ newline) w
  else if decide (treatment_type = "home_remedy") then
    tr ("Follow the remedies consistently for best results." +:+ newline) w
  else ("", w).

(** The message of the other branch; it also yields [department_serious],
    the local variable this branch assigns. *)
Definition regular_message (session_language : option string)
    (department treatment_type condition_name treatment_type_name : string)
    (selected_treatment : treatment) (symptoms : list string)
    (disease_id : string) (w : world) : (string * list string) * world :=
  let tr := translate_text GoogleTranslator session_language in
  let '(t1, w1) := tr "Condition Identified:" w in
  let message := "**" +:+ t1 +:+ "** " +:+ condition_name +:+ newline +:+ newline in
  let '(t2, w2) := tr "Recommended" w1 in
  let message :=
    message +:+ "**" +:+ t2 +:+ " " +:+ treatment_type_name +:+ ":**"
    +:+ newline +:+ newline in
  let message :=
    match selected_treatment with
    | TreatmentList items => message +:+ numbered_items 1 items
    | TreatmentText text => message +:+ "• " +:+ text +:+ newline
    end in
  let '(t3, w3) := tr "Usage Instructions:" w2 in
  let message := message +:+ newline +:+ "**" +:+ t3 +:+ "**" +:+ newline in
  let '(t4, w4) := usage_instructions session_language treatment_type w3 in
  let message := message +:+ t4 in
  let '(t5, w5) := tr "Matched Symptoms:" w4 in
  let '(t6, w6) := tr "symptoms identified" w5 in
  let message :=
    message +:+ newline +:+ "**" +:+ t5 +:+ "** " +:+ pretty (length symptoms)
    +:+ " " +:+ t6 +:+ newline in
  let department_serious := default [] (dict_get serious_conditions department) in
  if decide (disease_id ∈ department_serious) then
    let '(t7, w7) := tr "Medical Attention Recommended:" w6 in
    let '(t8, w8) := tr "This condition may require professional supervision." w7 in
    ((message +:+ newline +:+ "⚠️ **" +:+ t7 +:+ "** " +:+ t8 +:+ newline,
      department_serious), w8)
  else ((message, department_serious), w6).

(** [select_treatment]; [req_treatment_type] is the ['treatment_type']
    field of the request, if present. *)
Definition select_treatment (req_treatment_type : option string)
    (s : session) (w : world) : route_result * world :=
  let tr := translate_text GoogleTranslator (s_language s) in
  match s_department s, req_treatment_type with
  | Some department, Some treatment_type =>
      if truthy (Some department) && truthy (Some treatment_type) then
        let answers := default [] (s_answers s) in
        let s' :=
          {| s_department := s_department s; s_answers := s_answers s;
             s_current_step := s_current_step s;
             s_treatment_type := Some treatment_type;
             s_language := s_language s |} in
        let symptoms := map_answers_to_symptoms the_chatbot department answers in
        let matched_conditions :=
          find_condition_by_symptoms the_chatbot department symptoms in
        match matched_conditions with
        | Some (top_condition :: _) =>
            let treatments := treatment_items (ci_treatments top_condition) in
            let '(translated_treatments, w1) :=
              translate_treatments GoogleTranslator (s_language s) treatments w in
            let selected_treatment :=
              default (TreatmentList [])
                (dict_get translated_treatments treatment_type) in
            let '(condition_name, w2) := tr (ci_disease_name top_condition) w1 in
            match dict_get TREATMENT_TYPES treatment_type with
            | None => (Raised (KeyError treatment_type), w2)
            | Some treatment_type_label =>
                let '(treatment_type_name, w3) := tr treatment_type_label w2 in
                let '(urgent, w4) :=
                  if decide (treatment_type = "home_remedy") then
                    let '(consult, w4) := tr "please consult doctor" w3 in
                    (bool_decide (selected_treatment = TreatmentText consult), w4)
                  else (false, w3) in
                let '((message, department_serious), w5) :=
                  if urgent then
                    let '(message, w5) :=
                      urgent_message (s_language s) condition_name w4 in
                    ((message, @None (list string)), w5)
                  else
                    let '((message, serious), w5) :=
                      regular_message (s_language s) department treatment_type
                        condition_name treatment_type_name selected_treatment
                        symptoms (ci_disease_id top_condition) w4 in
                    ((message, Some serious), w5) in
                let message := message +:+ newline +:+ "---" +:+ newline in
                let '(t1, w6) := tr "Disclaimer:" w5 in
                let '(t2, w7) :=
                  tr "This information is for educational purposes only. Always consult qualified healthcare providers for medical advice and proper diagnosis."
                     w6 in
                let message := message +:+ "**" +:+ t1 +:+ "** " +:+ t2 in
                match department_serious with
                | None => (Raised (UnboundLocalError "department_serious"), w7)
                | Some serious =>
                    (Responded
                       (recommendation_response
                          {| r_condition := condition_name;
                             r_treatment_type := treatment_type_name;
                             r_recommendations := selected_treatment;
                             r_matched_symptoms_count := length symptoms;
                             r_formatted_message := message;
                             r_requires_doctor :=
                               bool_decide (ci_disease_id top_condition ∈ serious) |})
                       s',
                     w7)
                end
            end
        | _ =>
            let '(message, w1) :=
              tr "No specific conditions matched your symptoms pattern. Please consult a healthcare professional for proper diagnosis and treatment."
                 w in
            (Responded (no_match_response message true) s', w1)
        end
      else (Responded (error_response "Invalid request" 400) s, w)
  | _, _ => (Responded (error_response "Invalid request" 400) s, w)
  end.
End handlers.


(** ** Vocabulary of the statements about the handlers *)

(** The questions of a flow that are not answered yet. *)
Definition pending (flow : list question) (answers : AnswerSet)
    : list question :=
  filter (λ q, q_id q ∉ answers.*1) flow.

(** An interview as the front end drives it: ask for the next question,
    let the user answer it, store the answer under the question's id as
    [answer_question] does, for at most [rounds] questions. *)
Fixpoint interview (self : MedicalChatbot) (department : string)
    (user : question → answer_value) (rounds : nat) (answers : AnswerSet)
    : AnswerSet :=
  match rounds with
  | 0 => answers
  | S rounds' =>
      match get_next_question self department answers with
      | Some q =>
          interview self department user rounds'
            (dict_set answers (q_id q) (user q))
      | None => answers
      end
  end.

(** A user who ticks nothing. *)
Definition silent_user (q : question) : answer_value := AnswerStr "none".

(** A session in the middle of a gastrointestinal interview, and one
    with only the last question open. *)
Definition early_session : session :=
  {| s_department := Some "gastrointestinal"; s_answers := Some [];
     s_current_step := Some 0; s_treatment_type := None;
     s_language := Some "en" |}.

Definition late_session : session :=
  {| s_department := Some "gastrointestinal";
     s_answers :=
       Some [("symptom_location", AnswerStr "none");
             ("pain_character", AnswerStr "dull");
             ("digestive_symptoms", AnswerList ["nausea"]);
             ("bowel_changes", AnswerList ["none"])];
     s_current_step := Some 0; s_treatment_type := None;
     s_language := Some "es" |}.

(** Sample data with a condition whose home remedy is to see a doctor,
    and a session whose answers match it. *)
Definition appendicitis : disease :=
  {| d_id := "DIS_07"; d_name := "Appendicitis";
     d_symptoms := Some ["SYP_008"; "SYP_014"; "SYP_028"] |}.

Definition urgent_dept : dept_data :=
  {| dd_diseases := Some [appendicitis];
     dd_treatments :=
       Some {[ "DIS_07" :=
                 {[ "allopathy" := TreatmentList ["Seek emergency care"];
                    "home_remedy" := TreatmentText "please consult doctor" ]} ]} |}.

Definition urgent_chatbot : MedicalChatbot :=
  MedicalChatbot_init {[ "gastrointestinal" := urgent_dept ]}.

Definition answered_session : session :=
  {| s_department := Some "gastrointestinal";
     s_answers :=
       Some [("symptom_location", AnswerStr "right_side");
             ("digestive_symptoms", AnswerList ["nausea"]);
             ("systemic_symptoms", AnswerList ["fever"])];
     s_current_step := Some 0; s_treatment_type := None;
     s_language := Some "en" |}.

(** The items of a treatments dictionary in the map's own order. *)
Definition map_items (treatments : gmap string treatment)
    : list (string * treatment) :=
  map_to_list treatments.

(** * Properties of the flow controller *)

Lemma dict_contains_get {V} (d : list (string * V)) (k : string) :
  dict_contains d k = false ↔ dict_get d k = None.
Proof.
  unfold dict_contains. rewrite bool_decide_eq_false.
  induction d as [|[k' v] d IH]; simpl.
  - split; [done|]. intros _. apply not_elem_of_nil.
  - rewrite not_elem_of_cons. destruct (decide (k' = k)) as [->|Hne].
    + split; [intros [? _]|]; done.
    + rewrite <- IH. split; [intros [_ ?]; done|]. intros ?; split; [congruence|done].
Qed.

Lemma dependency_met_spec (current_answers : AnswerSet) deps :
  dependency_met current_answers deps = true ↔
  ∀ dep_key dep_value, (dep_key, dep_value) ∈ deps →
    dict_get current_answers dep_key = Some (AnswerStr dep_value).
Proof.
  induction deps as [|[k v] deps IH]; simpl.
  - split; [|done]. intros _ ?? H. by apply elem_of_nil in H.
  - destruct (decide (dict_get current_answers k ≠ Some (AnswerStr v))) as [Hne|Heq].
    + split; [done|]. intros H. destruct Hne. apply H. left.
    + apply dec_stable in Heq. rewrite IH. split.
      * intros H k' v' [[= -> ->]|Hin]%elem_of_cons; auto.
      * intros H k' v' Hin. apply H. by right.
Qed.

(** A question handed out by the scan comes from the flow, is not yet
    answered, and has every dependency met. *)
Lemma scan_flow_Some flow (current_answers : AnswerSet) q :
  scan_flow flow current_answers = Some q →
  q ∈ flow
  ∧ dict_contains current_answers (q_id q) = false
  ∧ ∀ deps, q_depends_on q = Some deps →
      dependency_met current_answers deps = true.
Proof.
  induction flow as [|q' flow IH]; simpl; [done|].
  destruct (dict_contains current_answers (q_id q')) eqn:Hc.
  { intros H. destruct (IH H) as (? & ? & ?). split; [by right|done]. }
  destruct (q_depends_on q') as [deps'|] eqn:Hd.
  - destruct (dependency_met current_answers deps') eqn:Hm.
    + intros [= <-]. split; [left|]. split; [done|]. congruence.
    + intros H. destruct (IH H) as (? & ? & ?). split; [by right|done].
  - intros [= <-]. split; [left|]. split; [done|]. congruence.
Qed.

(** A question with an unmet dependency is transparent to the scan. *)
Lemma scan_flow_skip before q after (current_answers : AnswerSet) deps :
  q_depends_on q = Some deps →
  dependency_met current_answers deps = false →
  scan_flow (before ++ q :: after) current_answers
  = scan_flow (before ++ after) current_answers.
Proof.
  intros Hd Hm. induction before as [|q' before IH]; simpl.
  - rewrite Hd, Hm. by destruct (dict_contains _ _).
  - rewrite IH. done.
Qed.

Lemma scan_step_eligible (current_answers : AnswerSet) q :
  eligible current_answers q ↔
  dict_contains current_answers (q_id q) = false
  ∧ match q_depends_on q with
    | Some deps => dependency_met current_answers deps = true
    | None => True
    end.
Proof.
  unfold eligible, dict_contains. rewrite bool_decide_eq_false.
  split; intros [Hk Hd]; (split; [done|]).
  - destruct (q_depends_on q) as [deps|]; [|done].
    apply dependency_met_spec. intros k v. by apply Hd.
  - intros deps k v Heq. rewrite Heq in Hd.
    rewrite dependency_met_spec in Hd. apply Hd.
Qed.

Lemma scan_flow_cons_eligible (current_answers : AnswerSet) q flow :
  eligible current_answers q →
  scan_flow (q :: flow) current_answers = Some q.
Proof.
  rewrite scan_step_eligible. intros [Hk Hd]. simpl. rewrite Hk.
  destruct (q_depends_on q); [by rewrite Hd|done].
Qed.

Lemma scan_flow_cons_ineligible (current_answers : AnswerSet) q flow :
  ¬ eligible current_answers q →
  scan_flow (q :: flow) current_answers = scan_flow flow current_answers.
Proof.
  rewrite scan_step_eligible. intros H. simpl.
  destruct (dict_contains current_answers (q_id q)); [done|].
  destruct (q_depends_on q) as [deps|]; [|by destruct H].
  destruct (dependency_met current_answers deps); [by destruct H|done].
Qed.

Lemma eligible_dec (current_answers : AnswerSet) q :
  eligible current_answers q ∨ ¬ eligible current_answers q.
Proof.
  rewrite scan_step_eligible.
  destruct (dict_contains current_answers (q_id q)); [right; by intros [? _]|].
  destruct (q_depends_on q) as [deps|]; [|by left].
  destruct (dependency_met current_answers deps); [by left|right; by intros [_ ?]].
Qed.

Lemma scan_flow_first_eligible flow (current_answers : AnswerSet) q :
  scan_flow flow current_answers = Some q ↔
  ∃ before after,
    flow = before ++ q :: after
    ∧ Forall (λ q', ¬ eligible current_answers q') before
    ∧ eligible current_answers q.
Proof.
  induction flow as [|q' flow IH].
  - split; [done|]. intros (before & after & H & _). by destruct before.
  - destruct (eligible_dec current_answers q') as [He|He].
    + rewrite (scan_flow_cons_eligible _ _ _ He). split.
      * intros [= <-]. by exists [], flow.
      * intros (before & after & Hf & Hb & _).
        destruct before as [|q'' before]; simplify_eq/=; [done|].
        by apply Forall_cons in Hb as [? _].
    + rewrite (scan_flow_cons_ineligible _ _ _ He), IH. split.
      * intros (before & after & -> & Hb & Hq).
        exists (q' :: before), after.
        split; [done|]. split; [by constructor|done].
      * intros (before & after & Hf & Hb & Hq).
        destruct before as [|q'' before]; simplify_eq/=; [done|].
        apply Forall_cons in Hb as [_ Hb]. by exists before, after.
Qed.

(** C5: dependency gating.  A question carrying [depends_on] is returned
    by [get_next_question] only if every (question id, required value)
    pair of the conjunction is matched exactly by the recorded answer.
    A question with a pair whose question is unanswered, or answered
    differently, is passed over and the scan goes on to the later
    questions: when no question before it can be asked, the first
    question after it that can be asked is the one returned. *)
Theorem get_next_question_dependency_gating
    (self : MedicalChatbot) (department : string) (current_answers : AnswerSet) :
  (∀ q deps dep_key dep_value,
      get_next_question self department current_answers = Some q →
      q_depends_on q = Some deps →
      (dep_key, dep_value) ∈ deps →
      dict_get current_answers dep_key = Some (AnswerStr dep_value))
  ∧ (∀ before q between later after deps dep_key dep_value,
      conversation_flows self !! department
      = Some (before ++ q :: between ++ later :: after) →
      q_depends_on q = Some deps →
      (dep_key, dep_value) ∈ deps →
      dict_get current_answers dep_key ≠ Some (AnswerStr dep_value) →
      Forall (λ q', ¬ eligible current_answers q') (before ++ between) →
      eligible current_answers later →
      get_next_question self department current_answers = Some later).
Proof.
  unfold get_next_question. split.
  - intros q deps k v Hq Hd Hin.
    destruct (conversation_flows self !! department) as [flow|]; [|done].
    apply scan_flow_Some in Hq as (_ & _ & Hmet).
    specialize (Hmet deps Hd). rewrite dependency_met_spec in Hmet. auto.
  - intros before q between later after deps k v -> Hd Hin Hne Hnot Hl.
    apply scan_flow_first_eligible.
    exists (before ++ q :: between), after.
    split; [by rewrite <- app_assoc|]. split; [|done].
    apply Forall_app in Hnot as [Hb Hm].
    apply Forall_app. split; [done|]. constructor; [|done].
    intros [_ He]. apply Hne. by apply (He deps).
Qed.

(** The gastrointestinal flow with the location answered as the upper
    abdomen: the follow-up question's dependency is the recorded answer.
    Answered as the lower abdomen: the follow-up is passed over and the
    question after it, on the character of the pain, is returned. *)
Lemma get_next_question_dependency_gating_witness :
  dict_get [("symptom_location", AnswerStr "upper_abdomen")] "symptom_location"
  = Some (AnswerStr "upper_abdomen")
  ∧ ∃ later,
      gastrointestinal_flow !! 2 = Some later
      ∧ q_id later = "pain_character"
      ∧ get_next_question (MedicalChatbot_init ∅) "gastrointestinal"
          [("symptom_location", AnswerStr "lower_abdomen")]
        = Some later.
Proof.
  split.
  - refine (proj1 (get_next_question_dependency_gating (MedicalChatbot_init ∅)
      "gastrointestinal" [("symptom_location", AnswerStr "upper_abdomen")])
      _ [("symptom_location", "upper_abdomen")] _ _ _ _ _).
    + vm_compute. reflexivity.
    + reflexivity.
    + left.
  - eexists. split; [reflexivity|]. split; [reflexivity|].
    refine (proj2 (get_next_question_dependency_gating (MedicalChatbot_init ∅)
      "gastrointestinal" [("symptom_location", AnswerStr "lower_abdomen")])
      (take 1 gastrointestinal_flow) _ [] _ (drop 3 gastrointestinal_flow)
      [("symptom_location", "upper_abdomen")]
      "symptom_location" "upper_abdomen" _ _ _ _ _ _).
    + vm_compute. reflexivity.
    + reflexivity.
    + left.
    + vm_compute. discriminate.
    + constructor; [|constructor]. rewrite scan_step_eligible.
      intros [H _]. vm_compute in H. discriminate H.
    + apply scan_step_eligible. split; vm_compute; done.
Defined.

(** C6: no repeats.  A question whose id is already a key of the answer
    set is never returned. *)
Theorem get_next_question_never_repeats
    (self : MedicalChatbot) (department : string) (current_answers : AnswerSet)
    (k : string) (q : question) :
  k ∈ current_answers.*1 →
  get_next_question self department current_answers = Some q →
  q_id q ≠ k.
Proof.
  unfold get_next_question. intros Hk Hq <-.
  destruct (conversation_flows self !! department) as [flow|]; [|done].
  apply scan_flow_Some in Hq as (_ & Hc & _).
  unfold dict_contains in Hc. by rewrite bool_decide_eq_false in Hc.
Qed.

Lemma get_next_question_never_repeats_witness :
  ∃ q, get_next_question (MedicalChatbot_init ∅) "gastrointestinal"
         [("symptom_location", AnswerStr "right_side")] = Some q
       ∧ "symptom_location" ∈ [("symptom_location", AnswerStr "right_side")].*1
       ∧ q_id q ≠ "symptom_location".
Proof.
  eexists. split; [vm_compute; reflexivity|]. split; [left|].
  apply (get_next_question_never_repeats (MedicalChatbot_init ∅)
    "gastrointestinal" [("symptom_location", AnswerStr "right_side")]).
  - left.
  - vm_compute. reflexivity.
Defined.

(** C7, as the code has it: for a department that is absent from the
    tables, [get_next_question] returns [None] and
    [map_answers_to_symptoms] returns the empty list; neither signals an
    error. *)
Theorem unknown_department_results
    (self : MedicalChatbot) (department : string) (answers : AnswerSet) :
  (conversation_flows self !! department = None →
   get_next_question self department answers = None)
  ∧ (symptom_mapping !! department = None →
     map_answers_to_symptoms self department answers = []).
Proof.
  unfold get_next_question, map_answers_to_symptoms.
  split; intros ->; reflexivity.
Qed.

Lemma unknown_department_results_witness :
  get_next_question (MedicalChatbot_init ∅) "cardiology"
    [("symptom_location", AnswerStr "upper_abdomen")] = None
  ∧ map_answers_to_symptoms (MedicalChatbot_init ∅) "cardiology"
      [("symptom_location", AnswerStr "upper_abdomen")] = [].
Proof.
  split.
  - apply (proj1 (unknown_department_results (MedicalChatbot_init ∅)
      "cardiology" [("symptom_location", AnswerStr "upper_abdomen")])).
    vm_compute. reflexivity.
  - apply (proj2 (unknown_department_results (MedicalChatbot_init ∅)
      "cardiology" [("symptom_location", AnswerStr "upper_abdomen")])).
    vm_compute. reflexivity.
Defined.

(** C7 as stated fails: ["cardiology"] is in neither table, the
    specified operations signal [UnknownDomain] there, and the code
    returns [None] and the empty list. *)
Lemma unknown_department_not_signalled :
  conversation_flows (MedicalChatbot_init ∅) !! "cardiology" = None
  ∧ symptom_mapping !! "cardiology" = None
  ∧ next_spec (MedicalChatbot_init ∅) "cardiology" [] = Signalled UnknownDomain
  ∧ map_spec (MedicalChatbot_init ∅) "cardiology" [] = Signalled UnknownDomain
  ∧ get_next_question (MedicalChatbot_init ∅) "cardiology" [] = None
  ∧ map_answers_to_symptoms (MedicalChatbot_init ∅) "cardiology" [] = []
  ∧ Returned (get_next_question (MedicalChatbot_init ∅) "cardiology" [])
    ≠ next_spec (MedicalChatbot_init ∅) "cardiology" []
  ∧ Returned (map_answers_to_symptoms (MedicalChatbot_init ∅) "cardiology" [])
    ≠ map_spec (MedicalChatbot_init ∅) "cardiology" [].
Proof. vm_compute. repeat split; discriminate. Qed.

(** * Properties of the symptom normaliser *)

Lemma add_symptom_none mapping symptoms :
  add_symptom mapping symptoms "none" = symptoms.
Proof.
  unfold add_symptom. destruct (decide _) as [[_ H]|]; [by destruct H|done].
Qed.

Lemma foldl_add_symptom_filter mapping items : ∀ symptoms,
  foldl (add_symptom mapping) symptoms (filter (λ item, item ≠ "none") items)
  = foldl (add_symptom mapping) symptoms items.
Proof.
  induction items as [|item items IH]; intros symptoms; [done|].
  rewrite filter_cons. destruct (decide (item ≠ "none")) as [|Heq]; simpl.
  - apply IH.
  - apply dec_stable in Heq as ->. rewrite add_symptom_none. apply IH.
Qed.

Lemma foldl_add_answer_remove_none mapping answers : ∀ symptoms,
  foldl (add_answer mapping) symptoms (remove_none answers)
  = foldl (add_answer mapping) symptoms answers.
Proof.
  induction answers as [|[k v] answers IH]; intros symptoms; [done|].
  unfold remove_none in *. simpl. destruct v as [item|items]; simpl.
  - destruct (decide (item = "none")) as [->|]; simpl.
    + change (add_answer mapping symptoms (k, AnswerStr "none"))
        with (add_symptom mapping symptoms "none").
      rewrite add_symptom_none. apply IH.
    + apply IH.
  - rewrite IH. f_equal. unfold add_answer. simpl.
    apply foldl_add_symptom_filter.
Qed.

(** Every id the inner step adds comes from the token it was given. *)
Lemma add_symptom_elem_of mapping symptoms item s :
  s ∈ add_symptom mapping symptoms item →
  s ∈ symptoms ∨ (item ≠ "none" ∧ mapping !! item = Some s).
Proof.
  unfold add_symptom. destruct (decide _) as [[_ Hn]|]; [|by left].
  destruct (mapping !! item) as [symptom_id|]; [|by left].
  destruct (decide (symptom_id ∈ symptoms)); [by left|].
  rewrite elem_of_app, list_elem_of_singleton. intros [?| ->]; auto.
Qed.

Lemma foldl_add_symptom_elem_of mapping items s : ∀ symptoms,
  s ∈ foldl (add_symptom mapping) symptoms items →
  s ∈ symptoms
  ∨ ∃ item, item ∈ items ∧ item ≠ "none" ∧ mapping !! item = Some s.
Proof.
  induction items as [|item items IH]; intros symptoms; simpl; [by left|].
  intros [H|(item' & ? & ? & ?)]%IH.
  - apply add_symptom_elem_of in H as [?|[??]]; [by left|].
    right. exists item. split; [left|done].
  - right. exists item'. split; [by right|done].
Qed.

Lemma foldl_add_answer_elem_of mapping answers s : ∀ symptoms,
  s ∈ foldl (add_answer mapping) symptoms answers →
  s ∈ symptoms
  ∨ ∃ item, item ∈ answer_tokens answers ∧ item ≠ "none"
            ∧ mapping !! item = Some s.
Proof.
  induction answers as [|[k v] answers IH]; intros symptoms; simpl; [by left|].
  intros [H|(item & Hin & ? & ?)]%IH.
  - unfold add_answer in H. simpl in H. destruct v as [item|items].
    + apply add_symptom_elem_of in H as [?|[??]]; [by left|].
      right. exists item. split; [|done]. unfold answer_tokens. simpl. left.
    + apply foldl_add_symptom_elem_of in H as [?|(item & ? & ? & ?)]; [by left|].
      right. exists item. split; [|done]. unfold answer_tokens. simpl.
      apply elem_of_app. by left.
  - right. exists item. split; [|done]. unfold answer_tokens in *. simpl.
    apply elem_of_app. by right.
Qed.

(** C9: ['none'] is never a symptom.  Taking every ['none'] token out of
    the answer set, whether it sits in a multiple-choice list or is a
    scalar answer and however often it occurs, leaves the result of
    [map_answers_to_symptoms] unchanged; and every symptom id of the
    result is the table entry of a token of the answer set that is not
    ['none']. *)
Theorem none_is_never_a_symptom
    (self : MedicalChatbot) (department : string) (answers : AnswerSet) :
  map_answers_to_symptoms self department (remove_none answers)
  = map_answers_to_symptoms self department answers
  ∧ ∀ s, s ∈ map_answers_to_symptoms self department answers →
      ∃ mapping item,
        symptom_mapping !! department = Some mapping
        ∧ item ∈ answer_tokens answers
        ∧ item ≠ "none"
        ∧ mapping !! item = Some s.
Proof.
  unfold map_answers_to_symptoms.
  destruct (symptom_mapping !! department) as [mapping|].
  - split; [apply foldl_add_answer_remove_none|].
    intros s [H|(item & ? & ? & ?)]%foldl_add_answer_elem_of.
    + by apply elem_of_nil in H.
    + by exists mapping, item.
  - split; [done|]. intros s H. by apply elem_of_nil in H.
Qed.

Lemma none_is_never_a_symptom_witness :
  map_answers_to_symptoms (MedicalChatbot_init ∅) "gastrointestinal"
    [("symptom_location", AnswerStr "none");
     ("digestive_symptoms", AnswerList ["none"; "nausea"; "none"])]
  = ["SYP_014"]
  ∧ ∃ mapping item,
      symptom_mapping !! "gastrointestinal" = Some mapping
      ∧ item ∈ answer_tokens
          [("symptom_location", AnswerStr "none");
           ("digestive_symptoms", AnswerList ["none"; "nausea"; "none"])]
      ∧ item ≠ "none"
      ∧ mapping !! item = Some "SYP_014".
Proof.
  split; [vm_compute; reflexivity|].
  apply (proj2 (none_is_never_a_symptom (MedicalChatbot_init ∅)
    "gastrointestinal"
    [("symptom_location", AnswerStr "none");
     ("digestive_symptoms", AnswerList ["none"; "nausea"; "none"])])).
  vm_compute. left.
Defined.

(** * Properties of the condition matcher *)

Lemma collect_matches_filter treatments symptoms diseases :
  collect_matches treatments symptoms diseases
  = make_condition_info treatments symptoms
      <$> filter (λ d, meets_threshold symptoms d) diseases.
Proof.
  unfold collect_matches.
  enough (∀ acc : list condition_info,
    foldl (λ (matched_conditions : list condition_info) d,
             if meets_threshold symptoms d
             then matched_conditions ++ [make_condition_info treatments symptoms d]
             else matched_conditions) acc diseases
    = acc ++ (make_condition_info treatments symptoms
                <$> filter (λ d, meets_threshold symptoms d) diseases))
    as H by apply (H []).
  induction diseases as [|d diseases IH]; intros acc; simpl.
  - by rewrite app_nil_r.
  - rewrite IH, filter_cons.
    destruct (meets_threshold symptoms d); simpl; [|done].
    by rewrite <- app_assoc.
Qed.

Lemma matched_conditions_catalog_order dept symptoms :
  match dd_diseases dept, dd_treatments dept with
  | Some diseases, Some treatments => collect_matches treatments symptoms diseases
  | _, _ => []
  end = admitted_in_catalog_order dept symptoms.
Proof.
  unfold admitted_in_catalog_order.
  destruct (dd_diseases dept), (dd_treatments dept); try done.
  apply collect_matches_filter.
Qed.

(** ** The sort *)

Lemma insert_desc_Permutation x l : insert_desc x l ≡ₚ x :: l.
Proof.
  induction l as [|y l IH]; simpl; [done|].
  destruct (decide _); [|done]. rewrite IH. apply Permutation_swap.
Qed.

Lemma sort_desc_Permutation l : sort_desc l ≡ₚ l.
Proof.
  induction l as [|x l IH]; simpl; [done|].
  by rewrite insert_desc_Permutation, IH.
Qed.

Lemma key_ge_refl a : key_ge a a.
Proof. right. split; [done|]. apply Qcle_refl. Qed.

Lemma key_ge_trans a b c : key_ge a b → key_ge b c → key_ge a c.
Proof.
  unfold key_ge. intros [?|[? ?]] [?|[? ?]].
  - left. lia.
  - left. lia.
  - left. lia.
  - right. split; [congruence|]. by apply Qcle_trans with b.2.
Qed.

Lemma not_key_lt a b : ¬ key_lt a b → key_ge a b.
Proof.
  unfold key_lt, key_ge. intros H.
  destruct (decide (b.1 < a.1)%nat); [by left|].
  destruct (decide (a.1 = b.1)) as [Heq|]; [|destruct H; left; lia].
  right. split; [done|]. apply Qcnot_lt_le. intros ?. apply H. by right.
Qed.

Lemma key_lt_ge a b : key_lt a b → key_ge b a.
Proof.
  unfold key_lt, key_ge. intros [?|[? ?]]; [by left|].
  right. split; [done|]. by apply Qclt_le_weak.
Qed.

Lemma key_lt_irrefl a : ¬ key_lt a a.
Proof.
  unfold key_lt. intros [?|[_ H]]; [lia|]. by apply Qclt_not_eq in H.
Qed.

Lemma insert_desc_sorted x l :
  StronglySorted ranked_before l → StronglySorted ranked_before (insert_desc x l).
Proof.
  induction 1 as [|y l Hl IH Hy]; simpl.
  - repeat constructor.
  - destruct (decide (key_lt (sort_key x) (sort_key y))) as [Hlt|Hge].
    + constructor; [done|].
      rewrite insert_desc_Permutation. constructor; [|done].
      by apply key_lt_ge.
    + apply not_key_lt in Hge. constructor; [by constructor|].
      constructor; [done|].
      eapply Forall_impl; [exact Hy|]. intros z ?.
      by apply key_ge_trans with (sort_key y).
Qed.

Lemma sort_desc_sorted l : StronglySorted ranked_before (sort_desc l).
Proof.
  induction l as [|x l IH]; simpl; [constructor|]. by apply insert_desc_sorted.
Qed.

(** Stability: among the entries of any one key, insertion at the front
    is what [insert_desc] does. *)
Lemma insert_desc_stable k x l :
  filter (λ y, sort_key y = k) (insert_desc x l)
  = filter (λ y, sort_key y = k) (x :: l).
Proof.
  induction l as [|y l IH]; simpl; [done|].
  destruct (decide (key_lt (sort_key x) (sort_key y))) as [Hlt|]; [|done].
  rewrite (filter_cons _ y), IH, !filter_cons.
  destruct (decide (sort_key y = k)) as [Hy|], (decide (sort_key x = k)) as [Hx|];
    try done.
  rewrite Hx, Hy in Hlt. by apply key_lt_irrefl in Hlt.
Qed.

Lemma sort_desc_stable k l :
  filter (λ y, sort_key y = k) (sort_desc l) = filter (λ y, sort_key y = k) l.
Proof.
  induction l as [|x l IH]; simpl; [done|].
  by rewrite insert_desc_stable, !filter_cons, IH.
Qed.

(** ** Admission *)

Lemma meets_threshold_spec symptoms d :
  meets_threshold symptoms d = true ↔
  (2 ≤ match_count symptoms d)%nat
  ∨ ((1 ≤ match_count symptoms d)%nat
     ∧ (Qc_of_nat 30 ≤ match_percentage symptoms d)%Qc).
Proof.
  unfold meets_threshold.
  rewrite orb_true_iff, andb_true_iff, !bool_decide_eq_true. done.
Qed.

(** The percentage test in integers: at least 30 percent means
    [30 * total <= 100 * count] over a non-empty symptom list. *)
Lemma percentage_ge_30 (c n : nat) :
  (0 < n)%nat →
  (Qc_of_nat 30 ≤ Qc_of_nat c / Qc_of_nat n * Qc_of_nat 100)%Qc
  ↔ (30 * n ≤ 100 * c)%nat.
Proof.
  intros Hn. unfold Qcle, Qc_of_nat, Qc_of_Z, Qcdiv, Qcmult, Qcinv, Q2Qc.
  cbn [this]. rewrite !Qred_correct.
  destruct n as [|n]; [lia|].
  change (Z.of_nat (S n)) with (Z.pos (Pos.of_succ_nat n)).
  unfold Qle, Qmult, Qinv, inject_Z. cbn [Qnum Qden].
  assert (Z.pos (Pos.of_succ_nat n) = Z.of_nat (S n)) as Hp by done.
  rewrite !Pos.mul_1_l, !Pos.mul_1_r, !Z.mul_1_r, Hp. lia.
Qed.

Lemma match_percentage_ge_30 symptoms d :
  (Qc_of_nat 30 ≤ match_percentage symptoms d)%Qc
  ↔ (0 < total_possible d)%nat
    ∧ (30 * total_possible d ≤ 100 * match_count symptoms d)%nat.
Proof.
  unfold match_percentage.
  destruct (decide (0 < total_possible d)%nat) as [Hn|Hn].
  - rewrite (percentage_ge_30 _ _ Hn). tauto.
  - split; [|tauto]. intros H. exfalso. revert H.
    apply (bool_decide_unpack _). vm_compute. exact I.
Qed.

Lemma find_condition_by_symptoms_known self department symptoms dept :
  departments_data self !! department = Some dept →
  find_condition_by_symptoms self department symptoms
  = Some (sort_desc (admitted_in_catalog_order dept symptoms)).
Proof.
  intros H. unfold find_condition_by_symptoms. rewrite H. simpl.
  by rewrite matched_conditions_catalog_order.
Qed.

(** *** The matcher's scores are the specification's quantities *)

Lemma match_count_spec symptoms d :
  match_count symptoms d = spec_match_count symptoms (disease_symptoms d).
Proof.
  unfold match_count, matching_symptoms, spec_match_count.
  change (size ?X) with (length (elements X)).
  apply Permutation_length, NoDup_Permutation;
    [apply NoDup_elements|apply NoDup_remove_dups|].
  intros s. rewrite elem_of_elements, elem_of_intersection,
    !elem_of_list_to_set, elem_of_remove_dups, list_elem_of_filter. tauto.
Qed.

Lemma total_possible_spec d :
  NoDup (disease_symptoms d) →
  total_possible d = spec_total (disease_symptoms d).
Proof.
  intros Hnd. unfold total_possible, spec_total.
  apply Permutation_length, NoDup_Permutation;
    [done|apply NoDup_remove_dups|].
  intros s. by rewrite elem_of_remove_dups.
Qed.

Lemma match_percentage_spec symptoms d :
  NoDup (disease_symptoms d) →
  match_percentage symptoms d
  = spec_match_percentage symptoms (disease_symptoms d).
Proof.
  intros Hnd. unfold match_percentage, spec_match_percentage.
  rewrite match_count_spec, (total_possible_spec _ Hnd).
  destruct (decide (0 < spec_total (disease_symptoms d))%nat),
    (decide (spec_total (disease_symptoms d) = 0)); try done; lia.
Qed.

Lemma meets_threshold_spec_admitted symptoms d :
  NoDup (disease_symptoms d) →
  meets_threshold symptoms d = true
  ↔ spec_admitted symptoms (disease_symptoms d).
Proof.
  intros Hnd. rewrite meets_threshold_spec. unfold spec_admitted.
  by rewrite match_count_spec, (match_percentage_spec _ _ Hnd).
Qed.

Lemma make_condition_info_record treatments symptoms d :
  is_record_of (make_condition_info treatments symptoms d) d.
Proof. done. Qed.

Lemma make_condition_info_key treatments symptoms d :
  NoDup (disease_symptoms d) →
  composite_key (make_condition_info treatments symptoms d)
  = spec_key symptoms (disease_symptoms d).
Proof.
  intros Hnd. unfold composite_key, spec_key. simpl.
  by rewrite match_count_spec, (match_percentage_spec _ _ Hnd).
Qed.

(** C1: admission.  For a department with its catalog (the condition
    list and the treatment table the loop runs over) and a condition of
    the list whose required symptoms are a set, the condition appears in
    the result of [find_condition_by_symptoms] if and only if its match
    count is at least 2, or is at least 1 with a match percentage of at
    least 30.  The match count is the size of the intersection of the
    given symptoms with the required symptoms, and the percentage is the
    count over the number of required symptoms times 100, or 0 when there
    are none. *)
Theorem admission_policy
    (self : MedicalChatbot) (department : string) (symptoms : list string)
    (dept : dept_data) (diseases : list disease)
    (treatments : gmap string (gmap string treatment)) (d : disease) :
  departments_data self !! department = Some dept →
  dd_diseases dept = Some diseases →
  dd_treatments dept = Some treatments →
  d ∈ diseases →
  NoDup (disease_symptoms d) →
  (∃ result x,
     find_condition_by_symptoms self department symptoms = Some result
     ∧ x ∈ result
     ∧ is_record_of x d)
  ↔ (2 ≤ spec_match_count symptoms (disease_symptoms d))%nat
    ∨ ((1 ≤ spec_match_count symptoms (disease_symptoms d))%nat
       ∧ (Qc_of_nat 30
          ≤ spec_match_percentage symptoms (disease_symptoms d))%Qc).
Proof.
  intros Hdept Hds Hts Hd Hnd.
  change (_ ∨ _) with (spec_admitted symptoms (disease_symptoms d)).
  rewrite (find_condition_by_symptoms_known _ _ _ _ Hdept).
  unfold admitted_in_catalog_order. rewrite Hds, Hts. split.
  - intros (result & x & [= <-] & Hin & (_ & _ & Hsym)).
    rewrite sort_desc_Permutation in Hin.
    apply list_elem_of_fmap in Hin as (d' & -> & Hin).
    apply list_elem_of_filter in Hin as [Hm _].
    simpl in Hsym. rewrite <- Hsym in Hnd |- *.
    by apply meets_threshold_spec_admitted, Is_true_true.
  - intros Hm. eexists _, (make_condition_info treatments symptoms d).
    split; [done|]. split; [|done].
    rewrite sort_desc_Permutation. apply list_elem_of_fmap.
    exists d. split; [done|]. apply list_elem_of_filter.
    split; [|done]. by apply Is_true_true, meets_threshold_spec_admitted.
Qed.

(** One matched symptom out of three (33%) admits a condition, one out
    of five (20%) does not. *)
Lemma admission_policy_witness :
  (∃ result x,
     find_condition_by_symptoms sample_chatbot "gastrointestinal" ["SYP_025"]
     = Some result
     ∧ x ∈ result
     ∧ is_record_of x constipation)
  ∧ ¬ (∃ result x,
         find_condition_by_symptoms sample_chatbot "gastrointestinal"
           ["SYP_025"] = Some result
         ∧ x ∈ result
         ∧ is_record_of x gastritis).
Proof.
  split.
  - apply (proj2 (admission_policy sample_chatbot "gastrointestinal"
      ["SYP_025"] sample_dept [gastritis; constipation; gerd]
      sample_treatments constipation eq_refl eq_refl eq_refl
      ltac:(right; left)
      ltac:(apply (bool_decide_unpack _); vm_compute; exact I))).
    right. split; apply (bool_decide_unpack _); vm_compute; exact I.
  - intros H.
    apply (proj1 (admission_policy sample_chatbot "gastrointestinal"
      ["SYP_025"] sample_dept [gastritis; constipation; gerd]
      sample_treatments gastritis eq_refl eq_refl eq_refl
      ltac:(left)
      ltac:(apply (bool_decide_unpack _); vm_compute; exact I))) in H.
    revert H. apply (bool_decide_unpack _). vm_compute. exact I.
Defined.

(** ** Degraded departments *)

(** C3, as the code has it: for a department that is not loaded,
    [find_condition_by_symptoms] returns [None]; for a loaded department
    whose data lacks the condition list or the treatment table it returns
    the empty list. *)
Theorem find_condition_by_symptoms_degraded
    (self : MedicalChatbot) (department : string) (symptoms : list string) :
  (departments_data self !! department = None →
   find_condition_by_symptoms self department symptoms = None)
  ∧ (∀ dept,
       departments_data self !! department = Some dept →
       dd_diseases dept = None ∨ dd_treatments dept = None →
       find_condition_by_symptoms self department symptoms = Some []).
Proof.
  unfold find_condition_by_symptoms. split.
  - by intros ->.
  - intros dept -> [H|H]; simpl; rewrite H; [done|].
    by destruct (dd_diseases dept).
Qed.

Lemma find_condition_by_symptoms_degraded_witness :
  find_condition_by_symptoms sample_chatbot "cardiology" ["SYP_025"] = None
  ∧ find_condition_by_symptoms sample_chatbot "general_medicine" ["SYP_025"]
    = Some [].
Proof.
  split.
  - apply (proj1 (find_condition_by_symptoms_degraded sample_chatbot
      "cardiology" ["SYP_025"])).
    vm_compute. reflexivity.
  - apply (proj2 (find_condition_by_symptoms_degraded sample_chatbot
      "general_medicine" ["SYP_025"]) dept_without_treatments).
    + vm_compute. reflexivity.
    + right. reflexivity.
Defined.

(** C3 as stated fails for an unknown department: the result is [None],
    not the empty list. *)
Lemma unknown_department_match_is_none :
  departments_data sample_chatbot !! "cardiology" = None
  ∧ find_condition_by_symptoms sample_chatbot "cardiology" ["SYP_025"] = None
  ∧ find_condition_by_symptoms sample_chatbot "cardiology" ["SYP_025"]
    ≠ Some [].
Proof. vm_compute. repeat split; discriminate. Qed.

(** ** Ranking *)

(** Among the records of one key, the admitted list holds the records
    of the admitted conditions of that key, in catalog order. *)
Lemma admitted_records_of_key treatments symptoms k diseases :
  Forall (λ d, NoDup (disease_symptoms d)) diseases →
  Forall2 is_record_of
    (filter (λ x, composite_key x = k)
       (make_condition_info treatments symptoms
          <$> filter (λ d, meets_threshold symptoms d) diseases))
    (filter (λ d, spec_admitted symptoms (disease_symptoms d)
                  ∧ spec_key symptoms (disease_symptoms d) = k)
       diseases).
Proof.
  induction 1 as [|d diseases Hnd _ IH]; [constructor|].
  rewrite (filter_cons _ d diseases), (filter_cons (λ d, _ ∧ _) d diseases).
  destruct (decide (meets_threshold symptoms d)) as [Hm|Hm].
  - rewrite fmap_cons, filter_cons, (make_condition_info_key _ _ _ Hnd).
    assert (spec_admitted symptoms (disease_symptoms d)) as Ha
      by by apply meets_threshold_spec_admitted, Is_true_true.
    destruct (decide (spec_key symptoms (disease_symptoms d) = k)) as [Hk|Hk].
    + rewrite decide_True by done.
      constructor; [apply make_condition_info_record|done].
    + rewrite decide_False by (by intros [_ ?]). done.
  - rewrite decide_False; [done|]. intros [Ha _]. apply Hm.
    by apply Is_true_true, meets_threshold_spec_admitted.
Qed.

(** C4: ranking.  For a department with its catalog, whose conditions
    have sets of required symptoms, the returned list is in descending
    order of the composite key (match count, match percentage) its
    records carry, the count deciding and the percentage breaking ties;
    and for every key, the records of that key are, in order, the records
    of the catalog's conditions that are admitted and have that key, in
    the order of the catalog: conditions equal on both keys keep their
    catalog order. *)
Theorem find_condition_by_symptoms_ranking
    (self : MedicalChatbot) (department : string) (symptoms : list string)
    (dept : dept_data) (diseases : list disease)
    (treatments : gmap string (gmap string treatment))
    (result : list condition_info) :
  departments_data self !! department = Some dept →
  dd_diseases dept = Some diseases →
  dd_treatments dept = Some treatments →
  Forall (λ d, NoDup (disease_symptoms d)) diseases →
  find_condition_by_symptoms self department symptoms = Some result →
  StronglySorted (λ x y, key_ge (composite_key x) (composite_key y)) result
  ∧ ∀ k,
      Forall2 is_record_of
        (filter (λ x, composite_key x = k) result)
        (filter (λ d, spec_admitted symptoms (disease_symptoms d)
                      ∧ spec_key symptoms (disease_symptoms d) = k)
           diseases).
Proof.
  intros Hdept Hds Hts Hnd.
  rewrite (find_condition_by_symptoms_known _ _ _ _ Hdept). intros [= <-].
  split; [apply sort_desc_sorted|]. intros k.
  change (λ x, composite_key x = k) with (λ x, sort_key x = k).
  rewrite sort_desc_stable. unfold admitted_in_catalog_order.
  rewrite Hds, Hts. by apply admitted_records_of_key.
Qed.

(** Four conditions, of which the third has the highest key and the
    second and fourth tie: the result lists the third, the first, the
    second and the fourth. *)
Lemma find_condition_by_symptoms_ranking_witness :
  ∃ result,
    find_condition_by_symptoms ranking_chatbot "gastrointestinal"
      ranking_symptoms = Some result
    ∧ d_id <$> [gastritis; gerd; constipation; dyspepsia]
      = ["DIS_01"; "DIS_03"; "DIS_02"; "DIS_04"]
    ∧ (λ x, (ci_disease_id x, ci_match_score x)) <$> result
      = [("DIS_02", 2); ("DIS_01", 2); ("DIS_03", 1); ("DIS_04", 1)]
    ∧ StronglySorted (λ x y, key_ge (composite_key x) (composite_key y)) result
    ∧ ∀ k,
        Forall2 is_record_of
          (filter (λ x, composite_key x = k) result)
          (filter (λ d, spec_admitted ranking_symptoms (disease_symptoms d)
                        ∧ spec_key ranking_symptoms (disease_symptoms d) = k)
             [gastritis; gerd; constipation; dyspepsia]).
Proof.
  eexists. split; [vm_compute; reflexivity|].
  split; [reflexivity|]. split; [vm_compute; reflexivity|].
  apply (find_condition_by_symptoms_ranking ranking_chatbot "gastrointestinal"
    ranking_symptoms ranking_dept [gastritis; gerd; constipation; dyspepsia]
    sample_treatments).
  - vm_compute. reflexivity.
  - reflexivity.
  - reflexivity.
  - apply (bool_decide_unpack _). vm_compute. exact I.
  - vm_compute. reflexivity.
Defined.

(** * Properties of the translation helpers *)

Lemma dict_set_fresh {K V} `{EqDecision K} (d : list (K * V)) k v :
  dict_get d k = None → dict_set d k v = d ++ [(k, v)].
Proof.
  induction d as [|[k' v'] d IH]; simpl; [done|].
  destruct (decide (k' = k)); [done|]. intros H. by rewrite IH.
Qed.

Section translation_properties.
Variable GoogleTranslator :
  list (string * string) → string → string → provider_outcome.

(** The fast paths leave the world alone. *)
Lemma translate_text_base_language text w :
  translate_text GoogleTranslator (Some "en") text w = (text, w)
  ∧ translate_text GoogleTranslator None text w = (text, w).
Proof.
  unfold translate_text. by destruct (decide (text = "")).
Qed.

(** A cached key is answered from the cache, without the provider. *)
Lemma translate_text_cache_hit lang text cached w :
  text ≠ "" → lang ≠ "en" →
  dict_get (translation_cache w) (text, lang) = Some cached →
  translate_text GoogleTranslator (Some lang) text w = (cached, w).
Proof.
  intros Ht Hl Hc. unfold translate_text. simpl.
  by rewrite decide_False, decide_False, Hc.
Qed.

(** The wait timing out: the text comes back and nothing is stored. *)
Lemma translate_text_timeout lang text w :
  text ≠ "" → lang ≠ "en" →
  dict_get (translation_cache w) (text, lang) = None →
  GoogleTranslator (provider_calls w) lang text = ProviderTimeout →
  translate_text GoogleTranslator (Some lang) text w
  = (text, {| translation_cache := translation_cache w;
              provider_calls := provider_calls w ++ [(text, lang)] |}).
Proof.
  intros Ht Hl Hc Hp. unfold translate_text, do_translate. simpl.
  by rewrite decide_False, decide_False, Hc, Hp.
Qed.

(** The provider raising: the worker returns [text] as if it were the
    translation, and the caller stores it under the key. *)
Lemma translate_text_provider_error lang text w :
  text ≠ "" → lang ≠ "en" →
  dict_get (translation_cache w) (text, lang) = None →
  GoogleTranslator (provider_calls w) lang text = ProviderError →
  translate_text GoogleTranslator (Some lang) text w
  = (text, {| translation_cache := translation_cache w ++ [((text, lang), text)];
              provider_calls := provider_calls w ++ [(text, lang)] |}).
Proof.
  intros Ht Hl Hc Hp. unfold translate_text, do_translate. simpl.
  rewrite decide_False, decide_False, Hc, Hp by done.
  by rewrite dict_set_fresh.
Qed.

(** [translate_text] never removes an entry: the cache is unchanged or
    has one new entry at the end. *)
Lemma translate_text_cache_grows session_language text w :
  let cache' :=
    translation_cache (translate_text GoogleTranslator session_language text w).2 in
  cache' = translation_cache w
  ∨ ∃ translated,
      cache' = translation_cache w
               ++ [((text, default "en" session_language), translated)].
Proof.
  unfold translate_text. simpl.
  destruct (decide (text = "")); [by left|].
  destruct (decide (default "en" session_language = "en")); [by left|].
  destruct (dict_get _ _) eqn:Hc; [by left|].
  destruct (do_translate _ _ _ _) as [translated|]; simpl; [|by left].
  right. exists translated. by apply dict_set_fresh.
Qed.

Lemma iter_pop_oldest n (cache : list ((string * string) * string)) :
  Nat.iter n pop_oldest cache = drop n cache.
Proof.
  induction n as [|n IH]; simpl; [by rewrite drop_0|].
  rewrite IH. replace (S n) with (n + 1) by lia. rewrite <- drop_drop.
  by destruct (drop n cache).
Qed.
End translation_properties.

(** C10: an empty text is returned at once: whatever the session language,
    the provider and the cache (even one holding an entry for the empty
    text), the result is the text itself and the cache and the provider
    log are unchanged. *)
Theorem translate_text_empty
    (GoogleTranslator : list (string * string) → string → string → provider_outcome)
    (session_language : option string) (w : world) :
  translate_text GoogleTranslator session_language "" w = ("", w).
Proof. reflexivity. Qed.

(** C2 at a failing provider: the first call for ["Hello"] in Spanish
    returns the text and stores it in the cache under the key; the second
    call, made when the provider works again, is answered from the cache
    and does not reach the provider. *)
Theorem translate_text_caches_provider_failure :
  let w1 := {| translation_cache := [(("Hello", "es"), "Hello")];
               provider_calls := [("Hello", "es")] |} in
  translate_text recovering_provider (Some "es") "Hello" empty_world
  = ("Hello", w1)
  ∧ recovering_provider (provider_calls w1) "es" "Hello" = Translated "Hola"
  ∧ translate_text recovering_provider (Some "es") "Hello" w1 = ("Hello", w1).
Proof. vm_compute. repeat split. Qed.

(** ** Eviction *)

(** On a cache of more than 500 entries the 100 rounds of the loop drop
    the 100 oldest entries. *)
Lemma clear_old_cache_over (w : world) :
  500 < length (translation_cache w) →
  clear_old_cache w
  = {| translation_cache := drop 100 (translation_cache w);
       provider_calls := provider_calls w |}.
Proof.
  intros H. unfold clear_old_cache.
  destruct (decide (500 < length (translation_cache w))); [|done].
  rewrite iter_pop_oldest. reflexivity.
Qed.

Lemma clear_old_cache_under (w : world) :
  length (translation_cache w) ≤ 500 → clear_old_cache w = w.
Proof.
  intros H. unfold clear_old_cache.
  destruct (decide (500 < length (translation_cache w))) as [Hgt|]; [|done].
  exfalso; revert H Hgt; generalize (length (translation_cache w)); intros n; apply Nat.le_ngt.
Qed.

(** [translate_text] only ever appends. *)
Lemma translate_text_cache_prefix GoogleTranslator session_language text w :
  let cache' :=
    translation_cache (translate_text GoogleTranslator session_language text w).2 in
  translation_cache w `prefix_of` cache'
  ∧ length cache' ≤ S (length (translation_cache w)).
Proof.
  destruct (translate_text_cache_grows GoogleTranslator session_language text w)
    as [->|[translated ->]]; simpl.
  + split; [done|]. apply Nat.le_succ_diag_r.
  + split; [by apply prefix_app_r|]. rewrite length_app. simpl.
    rewrite Nat.add_1_r. done.
Qed.

(** C8, as the code has it: the hook acts only on a cache of more than
    500 entries, and then removes exactly the 100 oldest ones, in
    insertion order; a cache of at most 500 entries is left as it is; and
    [translate_text] itself never evicts, it leaves the cache as it is or
    adds one entry at the end. *)
Theorem clear_old_cache_evicts_oldest (w : world) :
  (500 < length (translation_cache w) →
   translation_cache (clear_old_cache w) = drop 100 (translation_cache w)
   ∧ length (translation_cache (clear_old_cache w))
     = length (translation_cache w) - 100
   ∧ provider_calls (clear_old_cache w) = provider_calls w)
  ∧ (length (translation_cache w) ≤ 500 → clear_old_cache w = w)
  ∧ (∀ GoogleTranslator session_language text,
       let cache' :=
         translation_cache
           (translate_text GoogleTranslator session_language text w).2 in
       translation_cache w `prefix_of` cache'
       ∧ length cache' ≤ S (length (translation_cache w))).
Proof.
  split; [|split].
  - intros H. rewrite (clear_old_cache_over w H). cbn [translation_cache provider_calls].
    rewrite length_drop. done.
  - apply clear_old_cache_under.
  - intros. apply translate_text_cache_prefix.
Qed.

(** After 501 requests that each translate one new text the cache holds
    501 entries; the hook of the next request cuts it to the 401 newest. *)
Lemma clear_old_cache_evicts_oldest_witness :
  let w := serve echo_provider (fresh_requests 501) empty_world in
  length (translation_cache w) = 501
  ∧ translation_cache (clear_old_cache w) = drop 100 (translation_cache w)
  ∧ length (translation_cache (clear_old_cache w)) = 401.
Proof.
  cbv zeta.
  assert (length (translation_cache
            (serve echo_provider (fresh_requests 501) empty_world)) = 501)
    as Hlen by (vm_compute; reflexivity).
  split; [exact Hlen|].
  destruct (proj1 (clear_old_cache_evicts_oldest
                     (serve echo_provider (fresh_requests 501) empty_world)))
    as (Hdrop & Hsize & _).
  - rewrite Hlen. apply (bool_decide_unpack _). vm_compute. exact I.
  - split; [exact Hdrop|]. rewrite Hsize, Hlen. reflexivity.
Defined.

(** C8 as stated fails: the same 501 requests leave 501 entries in the
    cache, one more than the capacity. *)
Lemma cache_exceeds_capacity :
  length (translation_cache
            (serve echo_provider (fresh_requests 501) empty_world)) = 501
  ∧ ¬ length (translation_cache
                (serve echo_provider (fresh_requests 501) empty_world)) ≤ 500.
Proof.
  assert (length (translation_cache
            (serve echo_provider (fresh_requests 501) empty_world)) = 501)
    as Hlen by (vm_compute; reflexivity).
  split; [exact Hlen|]. rewrite Hlen. lia.
Qed.

(** ** A bound that does hold

    When no request makes more than 100 [translate_text] calls, the hook
    brings a cache of at most 600 entries back to at most 500, and the
    cache never holds more than 600. *)
Lemma clear_old_cache_bound (w : world) :
  length (translation_cache w) ≤ 600 →
  length (translation_cache (clear_old_cache w)) ≤ 500.
Proof.
  intros H. destruct (decide (500 < length (translation_cache w))) as [Hgt|Hle].
  - rewrite (clear_old_cache_over w Hgt). cbn [translation_cache].
    rewrite length_drop. lia.
  - rewrite clear_old_cache_under; lia.
Qed.

Lemma foldl_translate_text_bound GoogleTranslator session_language texts : ∀ w,
  length (translation_cache
            (foldl (λ w text, (translate_text GoogleTranslator session_language text w).2)
                   w texts))
  ≤ length (translation_cache w) + length texts.
Proof.
  induction texts as [|text texts IH]; intros w; cbn [foldl length].
  - lia.
  - etrans; [apply IH|].
    pose proof (proj2 (translate_text_cache_prefix GoogleTranslator
                         session_language text w)) as H.
    cbv zeta in H. lia.
Qed.

Lemma handle_request_bound GoogleTranslator w r :
  length (req_texts r) ≤ 100 →
  length (translation_cache w) ≤ 600 →
  length (translation_cache (handle_request GoogleTranslator w r)) ≤ 600.
Proof.
  intros Hr Hw. unfold handle_request.
  etrans; [apply foldl_translate_text_bound|].
  apply clear_old_cache_bound in Hw. lia.
Qed.

Lemma serve_bound GoogleTranslator requests : ∀ w,
  Forall (λ r, length (req_texts r) ≤ 100) requests →
  length (translation_cache w) ≤ 600 →
  length (translation_cache (serve GoogleTranslator requests w)) ≤ 600.
Proof.
  unfold serve. induction requests as [|r requests IH]; intros w Hr Hw; [done|].
  apply Forall_cons in Hr as [Hr Hrs]. cbn [foldl].
  apply IH; [done|]. by apply handle_request_bound.
Qed.

(** * Further properties of the flow controller *)

Lemma scan_flow_none flow (current_answers : AnswerSet) :
  scan_flow flow current_answers = None ↔
  Forall (λ q, ¬ eligible current_answers q) flow.
Proof.
  induction flow as [|q flow IH]; [done|].
  destruct (eligible_dec current_answers q) as [He|He].
  - rewrite (scan_flow_cons_eligible _ _ _ He). split; [done|].
    by intros [? _]%Forall_cons.
  - rewrite (scan_flow_cons_ineligible _ _ _ He), IH, Forall_cons. tauto.
Qed.

(** X1: the question returned is the first one, in flow order, that can
    be asked: it is not answered, its dependencies are all met, and every
    question before it in the flow is answered or has an unmet
    dependency. *)
Theorem get_next_question_first_eligible
    (self : MedicalChatbot) (department : string)
    (current_answers : AnswerSet) (flow : list question) (q : question) :
  conversation_flows self !! department = Some flow →
  get_next_question self department current_answers = Some q ↔
  ∃ before after,
    flow = before ++ q :: after
    ∧ Forall (λ q', ¬ eligible current_answers q') before
    ∧ eligible current_answers q.
Proof.
  intros Hf. unfold get_next_question. rewrite Hf.
  apply scan_flow_first_eligible.
Qed.

Lemma get_next_question_first_eligible_witness :
  ∃ before after,
    gastrointestinal_flow
    = before ++ default (Build_question "" "" single_choice None [])
                  (gastrointestinal_flow !! 2) :: after
    ∧ Forall (λ q', ¬ eligible [("symptom_location", AnswerStr "left_side")] q')
        before
    ∧ eligible [("symptom_location", AnswerStr "left_side")]
        (default (Build_question "" "" single_choice None [])
           (gastrointestinal_flow !! 2)).
Proof.
  apply (get_next_question_first_eligible (MedicalChatbot_init ∅)
    "gastrointestinal" [("symptom_location", AnswerStr "left_side")]
    gastrointestinal_flow).
  - vm_compute. reflexivity.
  - vm_compute. reflexivity.
Defined.

(** X2: for a department with a flow, [None] means the interview is
    complete: every question of the flow is answered or has an unmet
    dependency, and conversely. *)
Theorem get_next_question_none_complete
    (self : MedicalChatbot) (department : string)
    (current_answers : AnswerSet) (flow : list question) :
  conversation_flows self !! department = Some flow →
  get_next_question self department current_answers = None ↔
  Forall (λ q, ¬ eligible current_answers q) flow.
Proof.
  intros Hf. unfold get_next_question. rewrite Hf. apply scan_flow_none.
Qed.

(** Every gastrointestinal question but the upper-abdomen follow-up is
    answered, and the follow-up's dependency is unmet. *)
Lemma get_next_question_none_complete_witness :
  Forall (λ q, ¬ eligible
                   [("symptom_location", AnswerStr "none");
                    ("pain_character", AnswerStr "dull");
                    ("digestive_symptoms", AnswerList ["nausea"]);
                    ("bowel_changes", AnswerList ["none"]);
                    ("systemic_symptoms", AnswerList [])] q)
         gastrointestinal_flow.
Proof.
  apply (get_next_question_none_complete (MedicalChatbot_init ∅)
    "gastrointestinal" _ gastrointestinal_flow).
  - vm_compute. reflexivity.
  - vm_compute. reflexivity.
Defined.

(** * Further properties of the symptom normaliser *)

Lemma add_symptom_NoDup mapping symptoms item :
  NoDup symptoms → NoDup (add_symptom mapping symptoms item).
Proof.
  intros Hnd. unfold add_symptom. destruct (decide _); [|done].
  destruct (mapping !! item) as [symptom_id|]; [|done].
  destruct (decide (symptom_id ∈ symptoms)); [done|].
  apply NoDup_app. split; [done|]. split; [|apply NoDup_singleton].
  intros x Hx ->%list_elem_of_singleton. done.
Qed.

Lemma foldl_add_symptom_NoDup mapping items : ∀ symptoms,
  NoDup symptoms → NoDup (foldl (add_symptom mapping) symptoms items).
Proof.
  induction items as [|item items IH]; intros symptoms Hnd; simpl; [done|].
  by apply IH, add_symptom_NoDup.
Qed.

Lemma foldl_add_answer_NoDup mapping answers : ∀ symptoms,
  NoDup symptoms → NoDup (foldl (add_answer mapping) symptoms answers).
Proof.
  induction answers as [|[k v] answers IH]; intros symptoms Hnd; simpl; [done|].
  apply IH. unfold add_answer. simpl. destruct v.
  - by apply add_symptom_NoDup.
  - by apply foldl_add_symptom_NoDup.
Qed.

(** X3: the symptom list has no repeated id, however many tokens map to
    the same id. *)
Theorem map_answers_to_symptoms_NoDup
    (self : MedicalChatbot) (department : string) (answers : AnswerSet) :
  NoDup (map_answers_to_symptoms self department answers).
Proof.
  unfold map_answers_to_symptoms.
  destruct (symptom_mapping !! department); [|apply NoDup_nil_2].
  apply foldl_add_answer_NoDup, NoDup_nil_2.
Qed.

Lemma add_symptom_elem_of_iff mapping symptoms item s :
  s ∈ add_symptom mapping symptoms item ↔
  s ∈ symptoms ∨ contributes mapping item s.
Proof.
  unfold add_symptom, contributes.
  destruct (decide (item ≠ "" ∧ item ≠ "none")) as [[??]|Hn].
  - destruct (mapping !! item) as [symptom_id|] eqn:Hm.
    + destruct (decide (symptom_id ∈ symptoms)).
      * split; [by left|]. intros [?|(_ & _ & [= <-])]; done.
      * rewrite elem_of_app, list_elem_of_singleton.
        split; [intros [?| ->]; auto|]. intros [?|(_ & _ & [= <-])]; auto.
    + split; [by left|]. by intros [?|(_ & _ & ?)].
  - split; [by left|]. intros [?|(? & ? & _)]; [done|]. by destruct Hn.
Qed.

Lemma foldl_add_symptom_elem_of_iff mapping items s : ∀ symptoms,
  s ∈ foldl (add_symptom mapping) symptoms items ↔
  s ∈ symptoms ∨ ∃ item, item ∈ items ∧ contributes mapping item s.
Proof.
  induction items as [|item items IH]; intros symptoms; simpl.
  - split; [by left|]. intros [?|(? & H & _)]; [done|]. by apply elem_of_nil in H.
  - rewrite IH, add_symptom_elem_of_iff. split.
    + intros [[?|?]|(item' & ? & ?)]; [by left| |].
      * right. exists item. split; [left|done].
      * right. exists item'. split; [by right|done].
    + intros [?|(item' & [->|?]%elem_of_cons & ?)]; [by left; left| |].
      * left. by right.
      * right. by exists item'.
Qed.

Lemma foldl_add_answer_elem_of_iff mapping answers s : ∀ symptoms,
  s ∈ foldl (add_answer mapping) symptoms answers ↔
  s ∈ symptoms
  ∨ ∃ item, item ∈ answer_tokens answers ∧ contributes mapping item s.
Proof.
  induction answers as [|[k v] answers IH]; intros symptoms; simpl.
  - split; [by left|]. intros [?|(? & H & _)]; [done|]. by apply elem_of_nil in H.
  - rewrite IH. unfold answer_tokens, add_answer. simpl.
    setoid_rewrite elem_of_app. destruct v as [item|items].
    + rewrite add_symptom_elem_of_iff. setoid_rewrite list_elem_of_singleton.
      split.
      * intros [[?|?]|(item' & ? & ?)]; [by left| |].
        -- right. exists item. split; [by left|done].
        -- right. exists item'. split; [by right|done].
      * intros [?|(item' & [->|?] & ?)]; [by left; left| |].
        -- left. by right.
        -- right. by exists item'.
    + rewrite foldl_add_symptom_elem_of_iff. split.
      * intros [[?|(item' & ? & ?)]|(item' & ? & ?)]; [by left| |].
        -- right. exists item'. split; [by left|done].
        -- right. exists item'. split; [by right|done].
      * intros [?|(item' & [?|?] & ?)]; [by left; left| |].
        -- left. right. by exists item'.
        -- right. by exists item'.
Qed.

(** X4: a symptom id is in the result exactly when the department has a
    table and some token of the answer set, scalar or member of a list,
    is non-empty, is not ['none'] and has that id as its table entry;
    tokens without an entry contribute nothing. *)
Theorem map_answers_to_symptoms_elem_of
    (self : MedicalChatbot) (department : string) (answers : AnswerSet)
    (s : string) :
  s ∈ map_answers_to_symptoms self department answers ↔
  ∃ mapping item,
    symptom_mapping !! department = Some mapping
    ∧ item ∈ answer_tokens answers
    ∧ item ≠ "" ∧ item ≠ "none" ∧ mapping !! item = Some s.
Proof.
  unfold map_answers_to_symptoms.
  destruct (symptom_mapping !! department) as [mapping|].
  - rewrite foldl_add_answer_elem_of_iff. unfold contributes. split.
    + intros [H|(item & ? & ?)]; [by apply elem_of_nil in H|].
      by exists mapping, item.
    + intros (? & item & [= <-] & ? & ?). right. by exists item.
  - split; [by intros ?%elem_of_nil|]. by intros (? & ? & ? & _).
Qed.

(** * Further properties of the condition matcher *)

Lemma size_list_to_set_le (l : list string) :
  size (list_to_set (C:=gset string) l) ≤ length l.
Proof.
  induction l as [|x l IH]; [by rewrite list_to_set_nil, size_empty|].
  rewrite list_to_set_cons, size_union_alt, size_singleton. cbn [length].
  assert (size (list_to_set (C:=gset string) l ∖ {[x]})
          ≤ size (list_to_set (C:=gset string) l)) as H
    by (apply subseteq_size; intros y [? _]%elem_of_difference; done).
  lia.
Qed.

Lemma match_count_le_total symptoms d :
  match_count symptoms d ≤ total_possible d.
Proof.
  unfold match_count, total_possible, matching_symptoms.
  etrans; [|apply size_list_to_set_le]. apply subseteq_size.
  by intros y [_ ?]%elem_of_intersection.
Qed.

(** The percentage test against an upper bound, in integers. *)
Lemma percentage_le (c n b : nat) :
  (0 < n)%nat →
  (Qc_of_nat c / Qc_of_nat n * Qc_of_nat 100 ≤ Qc_of_nat b)%Qc
  ↔ (100 * c ≤ b * n)%nat.
Proof.
  intros Hn. unfold Qcle, Qc_of_nat, Qc_of_Z, Qcdiv, Qcmult, Qcinv, Q2Qc.
  cbn [this]. rewrite !Qred_correct.
  destruct n as [|n]; [lia|].
  change (Z.of_nat (S n)) with (Z.pos (Pos.of_succ_nat n)).
  unfold Qle, Qmult, Qinv, inject_Z. cbn [Qnum Qden].
  assert (Z.pos (Pos.of_succ_nat n) = Z.of_nat (S n)) as Hp by done.
  rewrite !Pos.mul_1_l, !Pos.mul_1_r, !Z.mul_1_r, Hp. lia.
Qed.

(** The entries of a result come from the catalog. *)
Lemma find_condition_by_symptoms_elem_of self department symptoms result x :
  find_condition_by_symptoms self department symptoms = Some result →
  x ∈ result →
  ∃ dept diseases treatments d,
    departments_data self !! department = Some dept
    ∧ dd_diseases dept = Some diseases
    ∧ dd_treatments dept = Some treatments
    ∧ d ∈ diseases
    ∧ meets_threshold symptoms d = true
    ∧ x = make_condition_info treatments symptoms d.
Proof.
  unfold find_condition_by_symptoms.
  destruct (departments_data self !! department) as [dept|] eqn:Hdept; [|done].
  simpl. intros [= <-]. rewrite sort_desc_Permutation.
  destruct (dd_diseases dept) as [diseases|] eqn:Hds;
    [|by intros ?%elem_of_nil].
  destruct (dd_treatments dept) as [treatments|] eqn:Hts;
    [|by intros ?%elem_of_nil].
  rewrite collect_matches_filter.
  intros (d & -> & [Hm Hd]%list_elem_of_filter)%list_elem_of_fmap.
  exists dept, diseases, treatments, d.
  repeat split; try done. by apply Is_true_true.
Qed.

(** X5: the record of a reported condition is consistent: the match
    score is at least 1 and at most the number of the condition's
    symptoms, it is the length of the list of matching symptoms, which
    holds, without repetition, exactly the given symptoms that are among
    the condition's, and the percentage is above 0 and at most 100. *)
Theorem reported_condition_bounds
    (self : MedicalChatbot) (department : string) (symptoms : list string)
    (result : list condition_info) (x : condition_info) :
  find_condition_by_symptoms self department symptoms = Some result →
  x ∈ result →
  (1 ≤ ci_match_score x ≤ ci_total_disease_symptoms x)%nat
  ∧ ci_match_score x = length (ci_matching_symptoms x)
  ∧ NoDup (ci_matching_symptoms x)
  ∧ (∀ s, s ∈ ci_matching_symptoms x ↔ s ∈ symptoms ∧ s ∈ ci_symptoms x)
  ∧ (Qc_of_nat 0 < ci_match_percentage x)%Qc
  ∧ (ci_match_percentage x ≤ Qc_of_nat 100)%Qc.
Proof.
  intros Hfind Hx.
  destruct (find_condition_by_symptoms_elem_of _ _ _ _ _ Hfind Hx)
    as (dept & diseases & treatments & d & _ & _ & _ & _ & Hm & ->).
  simpl.
  assert (1 ≤ match_count symptoms d)%nat as H1.
  { apply meets_threshold_spec in Hm. lia. }
  pose proof (match_count_le_total symptoms d) as H2.
  split; [lia|]. split; [done|]. split; [apply NoDup_elements|].
  split.
  { intros s. rewrite elem_of_elements. unfold matching_symptoms.
    rewrite elem_of_intersection, !elem_of_list_to_set. done. }
  unfold match_percentage. rewrite decide_True by lia. split.
  - apply Qclt_nge. rewrite percentage_le by lia. lia.
  - rewrite percentage_le by lia. lia.
Qed.

Lemma reported_condition_bounds_witness :
  ∃ x,
    top_condition
      (default [] (find_condition_by_symptoms sample_chatbot "gastrointestinal"
                     ["SYP_025"; "SYP_011"])) = Some x
    ∧ (1 ≤ ci_match_score x ≤ ci_total_disease_symptoms x)%nat
    ∧ ci_match_score x = length (ci_matching_symptoms x)
    ∧ NoDup (ci_matching_symptoms x)
    ∧ (∀ s, s ∈ ci_matching_symptoms x
            ↔ s ∈ ["SYP_025"; "SYP_011"] ∧ s ∈ ci_symptoms x)
    ∧ (Qc_of_nat 0 < ci_match_percentage x)%Qc
    ∧ (ci_match_percentage x ≤ Qc_of_nat 100)%Qc.
Proof.
  eexists. split; [vm_compute; reflexivity|].
  eapply (reported_condition_bounds sample_chatbot "gastrointestinal"
            ["SYP_025"; "SYP_011"]).
  - vm_compute. reflexivity.
  - left.
Defined.

Lemma matching_symptoms_ext symptoms symptoms' d :
  (∀ s, s ∈ symptoms ↔ s ∈ symptoms') →
  matching_symptoms symptoms d = matching_symptoms symptoms' d.
Proof.
  intros H. unfold matching_symptoms. apply set_eq. intros s.
  rewrite !elem_of_intersection, !elem_of_list_to_set, H. done.
Qed.

Lemma collect_matches_ext treatments symptoms symptoms' diseases :
  (∀ s, s ∈ symptoms ↔ s ∈ symptoms') →
  collect_matches treatments symptoms diseases
  = collect_matches treatments symptoms' diseases.
Proof.
  intros H. rewrite !collect_matches_filter.
  assert (∀ d, meets_threshold symptoms d = meets_threshold symptoms' d) as Hm.
  { intros d. unfold meets_threshold, match_percentage, match_count.
    by rewrite (matching_symptoms_ext _ _ d H). }
  assert (∀ d, make_condition_info treatments symptoms d
               = make_condition_info treatments symptoms' d) as Hi.
  { intros d. unfold make_condition_info, match_percentage, match_count.
    by rewrite (matching_symptoms_ext _ _ d H). }
  induction diseases as [|d diseases IH]; [done|].
  rewrite !filter_cons, <- Hm.
  destruct (decide (meets_threshold symptoms d)); [|done].
  rewrite !fmap_cons, IH, Hi. done.
Qed.

Lemma find_condition_by_symptoms_ext self department symptoms symptoms' :
  (∀ s, s ∈ symptoms ↔ s ∈ symptoms') →
  find_condition_by_symptoms self department symptoms
  = find_condition_by_symptoms self department symptoms'.
Proof.
  intros H. unfold find_condition_by_symptoms.
  destruct (departments_data self !! department) as [dept|]; [|done].
  simpl. destruct (dd_diseases dept), (dd_treatments dept); try done.
  by rewrite (collect_matches_ext _ _ _ _ H).
Qed.

Lemma same_result_refl r : same_result r r.
Proof.
  destruct r as [l|]; [|done]. simpl.
  induction l as [|x l IH]; constructor; [|done]. by repeat split.
Qed.

(** X6: the matcher reads the symptoms as a set: two symptom lists with
    the same members, in any order and with any repetition, give the same
    conditions in the same order, with the same scores, percentages and
    treatments, and the same matching symptoms up to their order. *)
Theorem find_condition_by_symptoms_set
    (self : MedicalChatbot) (department : string)
    (symptoms symptoms' : list string) :
  (∀ s, s ∈ symptoms ↔ s ∈ symptoms') →
  same_result (find_condition_by_symptoms self department symptoms)
              (find_condition_by_symptoms self department symptoms').
Proof.
  intros H. rewrite (find_condition_by_symptoms_ext _ _ _ _ H).
  apply same_result_refl.
Qed.

Lemma find_condition_by_symptoms_set_witness :
  same_result
    (find_condition_by_symptoms sample_chatbot "gastrointestinal"
       ["SYP_011"; "SYP_025"; "SYP_011"])
    (find_condition_by_symptoms sample_chatbot "gastrointestinal"
       ["SYP_025"; "SYP_011"]).
Proof.
  apply (find_condition_by_symptoms_set sample_chatbot "gastrointestinal").
  intros s. rewrite !elem_of_cons. pose proof (elem_of_nil s). tauto.
Defined.

Lemma find_condition_by_symptoms_Permutation self department symptoms dept result :
  departments_data self !! department = Some dept →
  find_condition_by_symptoms self department symptoms = Some result →
  result ≡ₚ admitted_in_catalog_order dept symptoms.
Proof.
  intros Hdept. rewrite (find_condition_by_symptoms_known _ _ _ _ Hdept).
  intros [= <-]. apply sort_desc_Permutation.
Qed.

(** X7: ranking neither loses nor repeats a condition: the result is a
    rearrangement of the admitted conditions, one entry for each catalog
    entry that meets the threshold, so it is never longer than the
    condition list. *)
Theorem find_condition_by_symptoms_one_entry_each
    (self : MedicalChatbot) (department : string) (symptoms : list string)
    (dept : dept_data) (diseases : list disease)
    (treatments : gmap string (gmap string treatment))
    (result : list condition_info) :
  departments_data self !! department = Some dept →
  dd_diseases dept = Some diseases →
  dd_treatments dept = Some treatments →
  find_condition_by_symptoms self department symptoms = Some result →
  result ≡ₚ make_condition_info treatments symptoms
              <$> filter (λ d, meets_threshold symptoms d) diseases
  ∧ length result ≤ length diseases.
Proof.
  intros Hdept Hds Hts Hfind.
  pose proof (find_condition_by_symptoms_Permutation _ _ _ _ _ Hdept Hfind) as Hp.
  unfold admitted_in_catalog_order in Hp. rewrite Hds, Hts in Hp.
  split; [done|]. rewrite Hp, length_fmap. apply length_filter.
Qed.

Lemma find_condition_by_symptoms_one_entry_each_witness :
  ∃ result,
    find_condition_by_symptoms sample_chatbot "gastrointestinal" ["SYP_018"]
    = Some result
    ∧ result ≡ₚ make_condition_info sample_treatments ["SYP_018"]
                  <$> filter (λ d, meets_threshold ["SYP_018"] d)
                        [gastritis; constipation; gerd]
    ∧ length result ≤ 3.
Proof.
  eexists. split; [vm_compute; reflexivity|].
  apply (find_condition_by_symptoms_one_entry_each sample_chatbot
           "gastrointestinal" ["SYP_018"] sample_dept).
  - vm_compute. reflexivity.
  - reflexivity.
  - reflexivity.
  - vm_compute. reflexivity.
Defined.

Lemma key_ge_neq_lt a b : key_ge a b → a ≠ b → key_lt b a.
Proof.
  unfold key_ge, key_lt. intros [?|[H1 H2]] Hne; [by left|].
  right. split; [done|]. apply Qcle_lt_or_eq in H2 as [?|H2]; [done|].
  destruct Hne. destruct a, b; simpl in *. congruence.
Qed.

Lemma filter_cons_inv {A} (P : A → Prop) `{∀ x, Decision (P x)} l x l' :
  filter P l = x :: l' →
  ∃ before after, l = before ++ x :: after ∧ Forall (λ y, ¬ P y) before.
Proof.
  induction l as [|y l IH]; [done|]. rewrite filter_cons.
  destruct (decide (P y)) as [Hy|Hy].
  - intros [= -> _]. by exists [], l.
  - intros (before & after & -> & Hb)%IH.
    exists (y :: before), after. split; [done|]. by constructor.
Qed.

Lemma top_condition_first_of_best self department symptoms dept result top :
  departments_data self !! department = Some dept →
  find_condition_by_symptoms self department symptoms = Some result →
  top_condition result = Some top →
  Forall (ranked_before top) result
  ∧ ∃ before after,
      admitted_in_catalog_order dept symptoms = before ++ top :: after
      ∧ Forall (λ y, key_lt (sort_key y) (sort_key top)) before.
Proof.
  intros Hdept Hfind Htop.
  pose proof (find_condition_by_symptoms_Permutation _ _ _ _ _ Hdept Hfind) as Hp.
  rewrite (find_condition_by_symptoms_known _ _ _ _ Hdept) in Hfind.
  injection Hfind as <-.
  pose proof (sort_desc_sorted (admitted_in_catalog_order dept symptoms)) as Hs.
  pose proof (sort_desc_stable (sort_key top)
                (admitted_in_catalog_order dept symptoms)) as Hst.
  destruct (sort_desc (admitted_in_catalog_order dept symptoms))
    as [|top' rest]; [done|].
  injection Htop as ->.
  apply StronglySorted_inv in Hs as [_ Hrest].
  assert (Forall (ranked_before top) (top :: rest)) as Hall.
  { constructor; [apply key_ge_refl|done]. }
  split; [done|].
  rewrite filter_cons, decide_True in Hst by done. symmetry in Hst.
  apply filter_cons_inv in Hst as (before & after & Heq & Hb).
  exists before, after. split; [done|].
  rewrite Forall_forall in Hb, Hall. apply Forall_forall. intros y Hy.
  apply key_ge_neq_lt; [|by intros Heq'; apply (Hb y Hy)].
  apply (Hall y). rewrite Hp, Heq. apply elem_of_app. by left.
Qed.

Lemma fmap_filter_split {A B} (f : A → B) (P : A → Prop)
    `{∀ x, Decision (P x)} (l : list A) : ∀ l1 x l2,
  f <$> filter P l = l1 ++ x :: l2 →
  ∃ before d after,
    l = before ++ d :: after ∧ P d ∧ f d = x
    ∧ f <$> filter P before = l1 ∧ f <$> filter P after = l2.
Proof.
  induction l as [|y l IH]; intros l1 x l2.
  - by destruct l1.
  - rewrite filter_cons. destruct (decide (P y)) as [Hy|Hy].
    + rewrite fmap_cons. destruct l1 as [|z l1].
      * intros [= <- <-]. by exists [], y, l.
      * intros [= <- (before & d & after & -> & Hd & <- & <- & <-)%IH].
        exists (y :: before), d, after.
        rewrite filter_cons, decide_True by done. done.
    + intros (before & d & after & -> & Hd & <- & <- & <-)%IH.
      exists (y :: before), d, after.
      rewrite filter_cons, decide_False by done. done.
Qed.

Lemma key_lt_ge_neq a b : key_lt a b → key_ge b a ∧ a ≠ b.
Proof.
  unfold key_lt, key_ge. intros [Hlt|[Heq Hlt]].
  - split; [by left|]. intros ->. lia.
  - split; [right; split; [done|by apply Qclt_le_weak]|].
    intros ->. by apply Qclt_not_eq in Hlt.
Qed.

(** X8: the entry the caller takes, [matched_conditions[0]], is the
    record of a condition of the catalog that is admitted and whose
    composite key (match count, match percentage) no admitted condition
    of the catalog exceeds: it has the highest match count and among
    those the highest percentage; and among the conditions tied with it
    on both it is the first of the catalog, every admitted condition
    before it in the catalog having a lower, different key. *)
Theorem top_condition_is_best
    (self : MedicalChatbot) (department : string) (symptoms : list string)
    (dept : dept_data) (diseases : list disease)
    (treatments : gmap string (gmap string treatment))
    (result : list condition_info) (top : condition_info) :
  departments_data self !! department = Some dept →
  dd_diseases dept = Some diseases →
  dd_treatments dept = Some treatments →
  Forall (λ d, NoDup (disease_symptoms d)) diseases →
  find_condition_by_symptoms self department symptoms = Some result →
  top_condition result = Some top →
  Forall (λ x, key_ge (composite_key top) (composite_key x)) result
  ∧ ∃ before d after,
      diseases = before ++ d :: after
      ∧ is_record_of top d
      ∧ spec_admitted symptoms (disease_symptoms d)
      ∧ composite_key top = spec_key symptoms (disease_symptoms d)
      ∧ Forall (λ d', spec_admitted symptoms (disease_symptoms d') →
                      key_ge (spec_key symptoms (disease_symptoms d))
                             (spec_key symptoms (disease_symptoms d'))
                      ∧ spec_key symptoms (disease_symptoms d')
                        ≠ spec_key symptoms (disease_symptoms d))
               before
      ∧ Forall (λ d', spec_admitted symptoms (disease_symptoms d') →
                      key_ge (spec_key symptoms (disease_symptoms d))
                             (spec_key symptoms (disease_symptoms d')))
               after.
Proof.
  intros Hdept Hds Hts Hnd Hfind Htop.
  destruct (top_condition_first_of_best _ _ _ _ _ _ Hdept Hfind Htop)
    as (Hall & before_x & after_x & Heq & Hb).
  pose proof (find_condition_by_symptoms_Permutation _ _ _ _ _ Hdept Hfind) as Hp.
  split; [done|].
  unfold admitted_in_catalog_order in Heq, Hp. rewrite Hds, Hts in Heq, Hp.
  pose proof Heq as Hsplit.
  apply fmap_filter_split in Hsplit
    as (before & d & after & -> & Hd & <- & <- & <-).
  apply Forall_app in Hnd as [Hndb Hnda].
  apply Forall_cons in Hnda as [Hndd Hnda].
  exists before, d, after. split; [done|].
  split; [apply make_condition_info_record|].
  split; [by apply meets_threshold_spec_admitted, Is_true_true|].
  split; [by apply make_condition_info_key|].
  rewrite Forall_forall in Hb. rewrite Forall_forall in Hall.
  rewrite Forall_forall in Hndb. rewrite Forall_forall in Hnda.
  split; apply Forall_forall; intros d' Hd' Ha.
  - assert (make_condition_info treatments symptoms d'
            ∈ make_condition_info treatments symptoms
                <$> filter (λ d, meets_threshold symptoms d) before) as Hin.
    { apply list_elem_of_fmap. exists d'. split; [done|].
      apply list_elem_of_filter. split; [|done].
      by apply Is_true_true, meets_threshold_spec_admitted; [apply Hndb|]. }
    apply Hb, key_lt_ge_neq in Hin.
    change (sort_key ?x) with (composite_key x) in Hin.
    by rewrite !make_condition_info_key in Hin by auto.
  - assert (make_condition_info treatments symptoms d' ∈ result) as Hin.
    { rewrite Hp, Heq. apply elem_of_app. right. right.
      apply list_elem_of_fmap. exists d'. split; [done|].
      apply list_elem_of_filter. split; [|done].
      by apply Is_true_true, meets_threshold_spec_admitted; [apply Hnda|]. }
    apply Hall in Hin. unfold ranked_before in Hin.
    change (sort_key ?x) with (composite_key x) in Hin.
    by rewrite !make_condition_info_key in Hin by auto.
Qed.

(** Of four conditions the third has the highest key: it is the entry
    the caller takes. *)
Lemma top_condition_is_best_witness :
  ∃ result top,
    find_condition_by_symptoms ranking_chatbot "gastrointestinal"
      ranking_symptoms = Some result
    ∧ top_condition result = Some top
    ∧ ci_disease_id top = "DIS_02"
    ∧ Forall (λ x, key_ge (composite_key top) (composite_key x)) result
    ∧ ∃ before d after,
        [gastritis; gerd; constipation; dyspepsia] = before ++ d :: after
        ∧ is_record_of top d
        ∧ spec_admitted ranking_symptoms (disease_symptoms d)
        ∧ composite_key top = spec_key ranking_symptoms (disease_symptoms d)
        ∧ Forall (λ d', spec_admitted ranking_symptoms (disease_symptoms d') →
                        key_ge (spec_key ranking_symptoms (disease_symptoms d))
                               (spec_key ranking_symptoms (disease_symptoms d'))
                        ∧ spec_key ranking_symptoms (disease_symptoms d')
                          ≠ spec_key ranking_symptoms (disease_symptoms d))
                 before
        ∧ Forall (λ d', spec_admitted ranking_symptoms (disease_symptoms d') →
                        key_ge (spec_key ranking_symptoms (disease_symptoms d))
                               (spec_key ranking_symptoms (disease_symptoms d')))
                 after.
Proof.
  eexists. eexists. split; [vm_compute; reflexivity|].
  split; [reflexivity|]. split; [reflexivity|].
  apply (top_condition_is_best ranking_chatbot "gastrointestinal"
           ranking_symptoms ranking_dept
           [gastritis; gerd; constipation; dyspepsia] sample_treatments).
  - vm_compute. reflexivity.
  - reflexivity.
  - reflexivity.
  - apply (bool_decide_unpack _). vm_compute. exact I.
  - vm_compute. reflexivity.
  - reflexivity.
Defined.

Lemma match_count_disjoint symptoms d :
  (∀ s, s ∈ symptoms → s ∉ disease_symptoms d) →
  match_count symptoms d = 0.
Proof.
  intros H. unfold match_count, matching_symptoms. apply size_empty_iff.
  intros s. rewrite elem_of_intersection, !elem_of_list_to_set.
  split; [|by intros ?%not_elem_of_empty]. intros [??]. by destruct (H s).
Qed.

(** X9: when no given symptom is listed by any condition of a loaded
    department, in particular for the empty symptom list, the result is
    the empty list. *)
Theorem find_condition_by_symptoms_no_overlap
    (self : MedicalChatbot) (department : string) (symptoms : list string)
    (dept : dept_data) :
  departments_data self !! department = Some dept →
  (∀ d s, d ∈ default [] (dd_diseases dept) → s ∈ symptoms →
          s ∉ disease_symptoms d) →
  find_condition_by_symptoms self department symptoms = Some [].
Proof.
  intros Hdept H. rewrite (find_condition_by_symptoms_known _ _ _ _ Hdept).
  unfold admitted_in_catalog_order.
  destruct (dd_diseases dept) as [diseases|]; [|done].
  destruct (dd_treatments dept); [|done]. simpl in H.
  replace (filter (λ d, meets_threshold symptoms d) diseases) with (@nil disease);
    [done|].
  symmetry.
  induction diseases as [|d diseases IH]; [done|].
  rewrite filter_cons. destruct (decide _) as [Hm|_].
  - apply Is_true_true, meets_threshold_spec in Hm.
    rewrite (match_count_disjoint symptoms d) in Hm; [lia|].
    intros s. apply H. left.
  - apply IH. intros d' s ?. apply H. by right.
Qed.

Lemma find_condition_by_symptoms_no_overlap_witness :
  find_condition_by_symptoms sample_chatbot "gastrointestinal" [] = Some [].
Proof.
  apply (find_condition_by_symptoms_no_overlap sample_chatbot
           "gastrointestinal" [] sample_dept).
  - vm_compute. reflexivity.
  - intros d s _ Hs. by apply elem_of_nil in Hs.
Defined.

(** * Further properties of the translation helpers *)

Lemma dict_get_elem_of {K V} `{EqDecision K} (d : list (K * V)) k v :
  dict_get d k = Some v → (k, v) ∈ d.
Proof.
  induction d as [|[k' v'] d IH]; simpl; [done|].
  destruct (decide (k' = k)) as [->|]; [intros [= ->]; left|].
  intros ?. right. auto.
Qed.

Lemma dict_get_app_fresh {K V} `{EqDecision K} (d : list (K * V)) k v :
  dict_get d k = None → dict_get (d ++ [(k, v)]) k = Some v.
Proof.
  induction d as [|[k' v'] d IH]; simpl.
  - by rewrite decide_True.
  - destruct (decide (k' = k)); [done|]. apply IH.
Qed.

Lemma dict_get_None_keys {K V} `{EqDecision K} (d : list (K * V)) k :
  dict_get d k = None → k ∉ d.*1.
Proof.
  induction d as [|[k' v'] d IH]; simpl; [intros _; apply not_elem_of_nil|].
  destruct (decide (k' = k)); [done|]. intros H.
  apply not_elem_of_cons. split; [done|]. by apply IH.
Qed.

(** What a call that reaches the provider does to the world. *)
Lemma translate_text_dispatch GoogleTranslator lang text w :
  text ≠ "" → lang ≠ "en" →
  dict_get (translation_cache w) (text, lang) = None →
  translate_text GoogleTranslator (Some lang) text w
  = match do_translate GoogleTranslator (provider_calls w) lang text with
    | Some translated =>
        (translated,
         {| translation_cache := translation_cache w ++ [((text, lang), translated)];
            provider_calls := provider_calls w ++ [(text, lang)] |})
    | None =>
        (text,
         {| translation_cache := translation_cache w;
            provider_calls := provider_calls w ++ [(text, lang)] |})
    end.
Proof.
  intros Ht Hl Hc. unfold translate_text. simpl.
  rewrite decide_False, decide_False, Hc by done.
  destruct (do_translate _ _ _ _); [|done]. by rewrite dict_set_fresh.
Qed.

(** X10: a delivered translation is stored and then served from the
    cache: the call returns the provider's translation, and a second call
    for the same text and language returns that same translation and
    leaves the cache and the provider untouched, whatever the provider
    would answer by then. *)
Theorem translate_text_cached_after_success
    (GoogleTranslator GoogleTranslator' :
       list (string * string) → string → string → provider_outcome)
    (lang text translation : string) (w : world) :
  text ≠ "" → lang ≠ "en" →
  dict_get (translation_cache w) (text, lang) = None →
  GoogleTranslator (provider_calls w) lang text = Translated translation →
  let first := translate_text GoogleTranslator (Some lang) text w in
  first.1 = translation
  ∧ translate_text GoogleTranslator' (Some lang) text first.2
    = (translation, first.2).
Proof.
  intros Ht Hl Hc Hp. cbv zeta.
  rewrite (translate_text_dispatch _ _ _ _ Ht Hl Hc).
  unfold do_translate. rewrite Hp. simpl. split; [done|].
  apply translate_text_cache_hit; [done..|]. simpl.
  by apply dict_get_app_fresh.
Qed.

Lemma translate_text_cached_after_success_witness :
  (translate_text echo_provider (Some "es") "Fever" empty_world).1 = "es:Fever"
  ∧ translate_text slow_provider (Some "es") "Fever"
      (translate_text echo_provider (Some "es") "Fever" empty_world).2
    = ("es:Fever",
       (translate_text echo_provider (Some "es") "Fever" empty_world).2).
Proof.
  apply (translate_text_cached_after_success echo_provider slow_provider
           "es" "Fever" "es:Fever" empty_world).
  - done.
  - done.
  - reflexivity.
  - reflexivity.
Defined.

(** X11: a wait that times out stores nothing, so the next call for the
    same text and language goes to the provider again: the first call
    returns the text with the cache unchanged, and after the second call
    the provider has been handed the key twice. *)
Theorem translate_text_retries_after_timeout
    (GoogleTranslator GoogleTranslator' :
       list (string * string) → string → string → provider_outcome)
    (lang text : string) (w : world) :
  text ≠ "" → lang ≠ "en" →
  dict_get (translation_cache w) (text, lang) = None →
  GoogleTranslator (provider_calls w) lang text = ProviderTimeout →
  let first := translate_text GoogleTranslator (Some lang) text w in
  first.1 = text
  ∧ translation_cache first.2 = translation_cache w
  ∧ provider_calls
      (translate_text GoogleTranslator' (Some lang) text first.2).2
    = provider_calls w ++ [(text, lang); (text, lang)].
Proof.
  intros Ht Hl Hc Hp. cbv zeta.
  rewrite (translate_text_timeout _ _ _ _ Ht Hl Hc Hp). simpl.
  split; [done|]. split; [done|].
  rewrite translate_text_dispatch by done. simpl.
  destruct (do_translate _ _ _ _); simpl; by rewrite <- app_assoc.
Qed.

Lemma translate_text_retries_after_timeout_witness :
  (translate_text slow_provider (Some "es") "Fever" empty_world).1 = "Fever"
  ∧ translation_cache
      (translate_text slow_provider (Some "es") "Fever" empty_world).2 = []
  ∧ provider_calls
      (translate_text echo_provider (Some "es") "Fever"
         (translate_text slow_provider (Some "es") "Fever" empty_world).2).2
    = [("Fever", "es"); ("Fever", "es")].
Proof.
  apply (translate_text_retries_after_timeout slow_provider echo_provider
           "es" "Fever" empty_world).
  - done.
  - done.
  - reflexivity.
  - reflexivity.
Defined.

(** The two things [translate_text] can do to the cache. *)
Lemma translate_text_cache_cases GoogleTranslator session_language text w :
  let lang := default "en" session_language in
  let w' := (translate_text GoogleTranslator session_language text w).2 in
  translation_cache w' = translation_cache w
  ∨ (text ≠ "" ∧ lang ≠ "en"
     ∧ dict_get (translation_cache w) (text, lang) = None
     ∧ ∃ translated,
         do_translate GoogleTranslator (provider_calls w) lang text
         = Some translated
         ∧ translation_cache w'
           = translation_cache w ++ [((text, lang), translated)]).
Proof.
  unfold translate_text. simpl.
  destruct (decide (text = "")); [by left|].
  destruct (decide (default "en" session_language = "en")); [by left|].
  destruct (dict_get _ _) eqn:Hc; [by left|].
  destruct (do_translate _ _ _ _) as [translated|] eqn:Hd; simpl; [|by left].
  right. repeat split; try done. exists translated. split; [done|].
  by apply dict_set_fresh.
Qed.

Lemma clear_old_cache_sublist w :
  translation_cache (clear_old_cache w) `sublist_of` translation_cache w.
Proof.
  destruct (decide (500 < length (translation_cache w))) as [Hgt|Hle].
  - rewrite (clear_old_cache_over w Hgt). simpl. apply sublist_drop.
  - rewrite clear_old_cache_under by lia. done.
Qed.

Section cache_invariants.
Variable GoogleTranslator :
  list (string * string) → string → string → provider_outcome.

Lemma translate_text_keys_valid session_language text w :
  cache_keys_valid w →
  cache_keys_valid (translate_text GoogleTranslator session_language text w).2.
Proof.
  intros Hw t l v.
  destruct (translate_text_cache_cases GoogleTranslator session_language text w)
    as [->|(Ht & Hl & _ & translated & _ & ->)]; [apply Hw|].
  rewrite elem_of_app, list_elem_of_singleton.
  intros [?|[= -> -> ->]]; [by eapply Hw|done].
Qed.

Lemma translate_text_keys_NoDup session_language text w :
  NoDup (translation_cache w).*1 →
  NoDup (translation_cache
           (translate_text GoogleTranslator session_language text w).2).*1.
Proof.
  intros Hw.
  destruct (translate_text_cache_cases GoogleTranslator session_language text w)
    as [->|(_ & _ & Hc & translated & _ & ->)]; [done|].
  rewrite fmap_app. apply NoDup_app. split; [done|].
  split; [|apply NoDup_singleton].
  intros k Hk ->%list_elem_of_singleton.
  by apply dict_get_None_keys in Hc.
Qed.

Lemma translate_text_untranslated session_language text w :
  provider_down GoogleTranslator →
  cache_untranslated w →
  (translate_text GoogleTranslator session_language text w).1 = text
  ∧ cache_untranslated (translate_text GoogleTranslator session_language text w).2.
Proof.
  intros Hdown Hw. split.
  - unfold translate_text.
    destruct (decide (text = "")); [done|].
    destruct (decide (default "en" session_language = "en")); [done|].
    destruct (dict_get _ _) as [cached|] eqn:Hc.
    + simpl. apply dict_get_elem_of in Hc. by eapply Hw.
    + unfold do_translate.
      destruct (GoogleTranslator _ _ _) eqn:Hp; simpl; try done.
      by apply Hdown in Hp.
  - intros t l v.
    destruct (translate_text_cache_cases GoogleTranslator session_language text w)
      as [->|(_ & _ & _ & translated & Hd & ->)]; [apply Hw|].
    rewrite elem_of_app, list_elem_of_singleton.
    intros [?|[= -> -> ->]]; [by eapply Hw|].
    unfold do_translate in Hd.
    destruct (GoogleTranslator _ _ _) eqn:Hp; simplify_eq; [|done].
    by apply Hdown in Hp.
Qed.

(** An invariant of the cache that [translate_text] keeps and that is
    inherited by every part of the cache holds after any requests. *)
Lemma serve_invariant (I : world → Prop) requests : ∀ w,
  (∀ w, I w → I (clear_old_cache w)) →
  (∀ session_language text w,
     I w → I (translate_text GoogleTranslator session_language text w).2) →
  I w → I (serve GoogleTranslator requests w).
Proof.
  unfold serve. induction requests as [|r requests IH]; intros w Hc Ht Hw;
    [done|].
  cbn [foldl]. apply IH; [done..|]. unfold handle_request.
  generalize (clear_old_cache w) (Hc w Hw).
  induction (req_texts r) as [|text texts IHt]; intros w0 Hw0; [done|].
  cbn [foldl]. apply IHt, Ht, Hw0.
Qed.
End cache_invariants.

Lemma clear_old_cache_keys_valid w :
  cache_keys_valid w → cache_keys_valid (clear_old_cache w).
Proof.
  intros Hw t l v Hin. apply (Hw t l v).
  eapply elem_of_sublist; [done|apply clear_old_cache_sublist].
Qed.

Lemma clear_old_cache_untranslated w :
  cache_untranslated w → cache_untranslated (clear_old_cache w).
Proof.
  intros Hw t l v Hin. apply (Hw t l v).
  eapply elem_of_sublist; [done|apply clear_old_cache_sublist].
Qed.

Lemma clear_old_cache_keys_NoDup w :
  NoDup (translation_cache w).*1 →
  NoDup (translation_cache (clear_old_cache w)).*1.
Proof.
  intros Hw.
  destruct (decide (500 < length (translation_cache w))) as [Hgt|Hle].
  - rewrite (clear_old_cache_over w Hgt). simpl. rewrite fmap_drop.
    eapply sublist_NoDup; [exact Hw|apply sublist_drop].
  - rewrite clear_old_cache_under by lia. done.
Qed.

(** X12: the cache never holds an entry for an empty text or for the
    base language ["en"]: from a cache without such keys, no sequence of
    requests produces one. *)
Theorem serve_cache_keys_valid
    (GoogleTranslator : list (string * string) → string → string → provider_outcome)
    (requests : list request) (w : world) (text lang v : string) :
  cache_keys_valid w →
  ((text, lang), v) ∈ translation_cache (serve GoogleTranslator requests w) →
  text ≠ "" ∧ lang ≠ "en".
Proof.
  intros Hw. apply (serve_invariant GoogleTranslator cache_keys_valid);
    [apply clear_old_cache_keys_valid| |done].
  intros. by apply translate_text_keys_valid.
Qed.

Lemma serve_cache_keys_valid_witness :
  translation_cache
    (serve echo_provider
       [{| req_language := Some "en"; req_texts := ["Cough"] |};
        {| req_language := Some "es"; req_texts := [""; "Fever"] |}]
       empty_world)
  = [(("Fever", "es"), "es:Fever")]
  ∧ "Fever" ≠ "" ∧ "es" ≠ "en".
Proof.
  split; [vm_compute; reflexivity|].
  apply (serve_cache_keys_valid echo_provider
           [{| req_language := Some "en"; req_texts := ["Cough"] |};
            {| req_language := Some "es"; req_texts := [""; "Fever"] |}]
           empty_world "Fever" "es" "es:Fever").
  - intros t l v H. by apply elem_of_nil in H.
  - vm_compute. left.
Defined.

(** The cache holds at most one entry per (text, language) key: from a
    cache with distinct keys, no sequence of requests produces a repeated
    key. *)
Lemma serve_cache_keys_NoDup
    (GoogleTranslator : list (string * string) → string → string → provider_outcome)
    (requests : list request) (w : world) :
  NoDup (translation_cache w).*1 →
  NoDup (translation_cache (serve GoogleTranslator requests w)).*1.
Proof.
  apply (serve_invariant GoogleTranslator
           (λ w, NoDup (translation_cache w).*1));
    [apply clear_old_cache_keys_NoDup|].
  intros. by apply translate_text_keys_NoDup.
Qed.

(** X13: fail-open.  While the provider delivers no translation (every
    call raises or times out), and starting from a cache that holds no
    translation, every [translate_text] call after any sequence of
    requests returns its text unchanged. *)
Theorem translate_text_fail_open
    (GoogleTranslator : list (string * string) → string → string → provider_outcome)
    (requests : list request) (w : world)
    (session_language : option string) (text : string) :
  provider_down GoogleTranslator →
  cache_untranslated w →
  (translate_text GoogleTranslator session_language text
     (serve GoogleTranslator requests w)).1 = text.
Proof.
  intros Hdown Hw. apply translate_text_untranslated; [done|].
  apply (serve_invariant GoogleTranslator cache_untranslated);
    [apply clear_old_cache_untranslated| |done].
  intros. by apply translate_text_untranslated.
Qed.

Lemma translate_text_fail_open_witness :
  (translate_text slow_provider (Some "es") "Fever"
     (serve slow_provider
        [{| req_language := Some "es"; req_texts := ["Fever"; "Cough"] |}]
        empty_world)).1 = "Fever".
Proof.
  apply (translate_text_fail_open slow_provider _ empty_world).
  - intros calls lang text translation H. discriminate H.
  - intros t l v H. by apply elem_of_nil in H.
Defined.

(** X14: with no request making more than [k] [translate_text] calls,
    for a [k] of at most 100, a cache of at most [500 + k] entries never
    grows beyond [500 + k] entries. *)
Theorem serve_cache_bound
    (GoogleTranslator : list (string * string) → string → string → provider_outcome)
    (k : nat) (requests : list request) (w : world) :
  k ≤ 100 →
  Forall (λ r, length (req_texts r) ≤ k) requests →
  length (translation_cache w) ≤ 500 + k →
  length (translation_cache (serve GoogleTranslator requests w)) ≤ 500 + k.
Proof.
  intros Hk. unfold serve. revert w.
  induction requests as [|r requests IH]; intros w Hr Hw; [done|].
  apply Forall_cons in Hr as [Hr Hrs]. cbn [foldl]. apply IH; [done|].
  unfold handle_request.
  etrans; [apply foldl_translate_text_bound|].
  assert (length (translation_cache (clear_old_cache w)) ≤ 500) as Hc.
  { destruct (decide (500 < length (translation_cache w))) as [Hgt|Hle].
    - rewrite (clear_old_cache_over w Hgt). cbn [translation_cache].
      rewrite length_drop. lia.
    - rewrite clear_old_cache_under; lia. }
  lia.
Qed.

Lemma serve_cache_bound_witness :
  length (translation_cache (serve echo_provider (fresh_requests 501) empty_world))
  ≤ 500 + 1.
Proof.
  apply (serve_cache_bound echo_provider 1 (fresh_requests 501) empty_world).
  - lia.
  - apply (bool_decide_unpack _). vm_compute. exact I.
  - simpl. lia.
Defined.

(** * Properties of the translation of questions and treatments *)

Lemma assign_batch_values options : ∀ translated,
  opt_value <$> (assign_batch options translated).1 = opt_value <$> options.
Proof.
  induction options as [|opt options IH]; intros translated; [done|].
  destruct translated as [|t translated]; [done|]. simpl.
  specialize (IH translated). destruct (assign_batch options translated).
  simpl in *. by f_equal.
Qed.

Lemma assign_batch_texts options : ∀ translated,
  opt_text <$> (assign_batch options translated).1
  = take (length options) translated
    ++ drop (length translated) (opt_text <$> options).
Proof.
  induction options as [|opt options IH]; intros translated.
  - simpl. by rewrite drop_nil.
  - destruct translated as [|t translated]; [done|]. simpl.
    specialize (IH translated). destruct (assign_batch options translated).
    simpl in *. by f_equal.
Qed.

Lemma assign_batch_completed options : ∀ translated,
  (assign_batch options translated).2 = true
  ↔ length options ≤ length translated.
Proof.
  induction options as [|opt options IH]; intros translated.
  - simpl. split; [lia|done].
  - destruct translated as [|t translated]; simpl; [split; [done|lia]|].
    specialize (IH translated). destruct (assign_batch options translated).
    simpl in *. rewrite IH. lia.
Qed.

Section translate_structures_properties.
Variable GoogleTranslator :
  list (string * string) → string → string → provider_outcome.
Variable translate_batch :
  list (string * string) → string → list string → batch_outcome.

Lemma translate_options_values session_language options : ∀ w,
  opt_value <$> (translate_options GoogleTranslator session_language options w).1
  = opt_value <$> options.
Proof.
  induction options as [|opt options IH]; intros w; [done|]. simpl.
  destruct (translate_text _ _ _ _) as [translated w1].
  specialize (IH w1). destruct (translate_options _ _ _ _). simpl in *.
  by f_equal.
Qed.

Lemma translate_options_texts session_language options : ∀ w,
  (opt_text <$> (translate_options GoogleTranslator session_language options w).1,
   (translate_options GoogleTranslator session_language options w).2)
  = translate_texts GoogleTranslator session_language (opt_text <$> options) w.
Proof.
  induction options as [|opt options IH]; intros w; [done|]. simpl.
  destruct (translate_text _ _ _ _) as [translated w1].
  specialize (IH w1). destruct (translate_options _ _ _ _).
  destruct (translate_texts _ _ _ _). simpl in *. by simplify_eq.
Qed.

Lemma translate_texts_length session_language items : ∀ w,
  length (translate_texts GoogleTranslator session_language items w).1
  = length items.
Proof.
  induction items as [|item items IH]; intros w; [done|]. simpl.
  destruct (translate_text _ _ _ _) as [translated w1].
  specialize (IH w1). destruct (translate_texts _ _ _ _). simpl in *.
  by f_equal.
Qed.

Lemma translate_text_english session_language text w :
  default "en" session_language = "en" →
  translate_text GoogleTranslator session_language text w = (text, w).
Proof.
  intros Hen. unfold translate_text. destruct (decide (text = "")); [done|].
  by rewrite decide_True.
Qed.

(** With the provider down and no translation in the cache, the loops
    return what they were given and store no translation. *)
Lemma translate_texts_untranslated session_language items : ∀ w,
  provider_down GoogleTranslator →
  cache_untranslated w →
  (translate_texts GoogleTranslator session_language items w).1 = items
  ∧ cache_untranslated
      (translate_texts GoogleTranslator session_language items w).2.
Proof.
  induction items as [|item items IH]; intros w Hdown Hw; [done|]. simpl.
  destruct (translate_text_untranslated GoogleTranslator session_language
              item w Hdown Hw) as [Ht Hw1].
  destruct (translate_text _ _ _ _) as [translated w1]. simpl in *.
  destruct (IH w1 Hdown Hw1) as [Hr Hw2].
  destruct (translate_texts _ _ _ _). simpl in *. by subst.
Qed.

Lemma translate_options_untranslated session_language options : ∀ w,
  provider_down GoogleTranslator →
  cache_untranslated w →
  (translate_options GoogleTranslator session_language options w).1 = options
  ∧ cache_untranslated
      (translate_options GoogleTranslator session_language options w).2.
Proof.
  induction options as [|[v t] options IH]; intros w Hdown Hw; [done|]. simpl.
  destruct (translate_text_untranslated GoogleTranslator session_language
              t w Hdown Hw) as [Ht Hw1].
  destruct (translate_text _ _ _ _) as [translated w1]. simpl in *.
  destruct (IH w1 Hdown Hw1) as [Hr Hw2].
  destruct (translate_options _ _ _ _). simpl in *. by subst.
Qed.

(** A question goes in, a question with the same skeleton comes out. *)
Lemma translate_question_Some session_language q w :
  ∃ q',
    (translate_question GoogleTranslator translate_batch session_language
       (Some q) w).1 = Some q'
    ∧ q_id q' = q_id q
    ∧ q_type q' = q_type q
    ∧ q_depends_on q' = q_depends_on q
    ∧ opt_value <$> q_options q' = opt_value <$> q_options q.
Proof.
  unfold translate_question.
  destruct (translate_text _ _ _ _) as [text w1].
  destruct (decide _); [by eexists|].
  destruct (translate_batch _ _ _) as [translated|].
  - pose proof (assign_batch_values (q_options q) translated) as Hv.
    destruct (assign_batch _ _) as [options completed]. simpl in Hv.
    destruct completed; [by eexists|].
    pose proof (translate_options_values session_language options w1) as Hv'.
    destruct (translate_options _ _ _ _) as [options' w2]. simpl in *.
    eexists. split; [done|]. simpl. by rewrite Hv', Hv.
  - pose proof (translate_options_values session_language (q_options q) w1)
      as Hv'.
    destruct (translate_options _ _ _ _) as [options' w2]. simpl in *.
    by eexists.
Qed.

(** X15: [translate_question] changes texts only: [None] stays [None],
    and for a question the result is a question with the same id, type
    and dependencies and with the same option values in the same order,
    whatever the providers do (also when the batch call returns too few
    or too many translations, or raises). *)
Theorem translate_question_keeps_structure
    (session_language : option string) (w : world) :
  translate_question GoogleTranslator translate_batch session_language None w
  = (None, w)
  ∧ ∀ q, ∃ q',
      (translate_question GoogleTranslator translate_batch session_language
         (Some q) w).1 = Some q'
      ∧ q_id q' = q_id q
      ∧ q_type q' = q_type q
      ∧ q_depends_on q' = q_depends_on q
      ∧ opt_value <$> q_options q' = opt_value <$> q_options q.
Proof.
  split; [done|]. intros q. apply translate_question_Some.
Qed.

(** X16: in an English session, or when no language is set,
    [translate_question] returns the question as it is and touches
    neither the cache nor a provider; in any other language, while the
    provider and the batch call deliver nothing and the cache holds no
    translation, it still returns the question with every text
    unchanged. *)
Theorem translate_question_fail_open
    (session_language : option string) (q : question) (w : world) :
  (default "en" session_language = "en" →
   translate_question GoogleTranslator translate_batch session_language
     (Some q) w = (Some q, w))
  ∧ (provider_down GoogleTranslator →
     (∀ calls lang texts, translate_batch calls lang texts = BatchError) →
     cache_untranslated w →
     (translate_question GoogleTranslator translate_batch session_language
        (Some q) w).1 = Some q).
Proof.
  split.
  - intros Hen. unfold translate_question.
    rewrite translate_text_english by done.
    rewrite decide_True by done. by destruct q.
  - intros Hdown Hbatch Hw. unfold translate_question.
    destruct (translate_text_untranslated GoogleTranslator session_language
                (q_question q) w Hdown Hw) as [Ht Hw1].
    destruct (translate_text _ _ _ _) as [text w1]. simpl in *. subst text.
    destruct (decide _); [by destruct q|].
    rewrite Hbatch.
    destruct (translate_options_untranslated session_language (q_options q)
                w1 Hdown Hw1) as [Ho _].
    destruct (translate_options _ _ _ _) as [options' w2]. simpl in *.
    subst. by destruct q.
Qed.

(** X17: when the batch call returns at least as many translations as
    there are options, the option texts of the result are the batch's
    translations in order, and the only effect on the cache and the
    provider log is that of translating the question text: batch
    translations are neither looked up in the cache nor stored in it. *)
Theorem translate_question_batch
    (session_language : option string) (q : question) (w : world)
    (translated : list string) :
  let lang := default "en" session_language in
  let w1 :=
    (translate_text GoogleTranslator session_language (q_question q) w).2 in
  lang ≠ "en" →
  translate_batch (provider_calls w1) lang (opt_text <$> q_options q)
  = BatchTranslated translated →
  length (q_options q) ≤ length translated →
  ∃ q',
    translate_question GoogleTranslator translate_batch session_language
      (Some q) w = (Some q', w1)
    ∧ opt_text <$> q_options q' = take (length (q_options q)) translated.
Proof.
  cbv zeta. intros Hl Hb Hlen. unfold translate_question.
  destruct (translate_text _ _ _ _) as [text w1]. simpl in *.
  rewrite decide_False, Hb by done.
  pose proof (assign_batch_texts (q_options q) translated) as Ht.
  pose proof (proj2 (assign_batch_completed (q_options q) translated) Hlen) as Hc.
  destruct (assign_batch _ _) as [options completed]. simpl in *. subst.
  eexists. split; [done|]. simpl. rewrite Ht.
  rewrite drop_ge by (rewrite length_fmap; lia). by rewrite app_nil_r.
Qed.

(** X18: when the batch call returns fewer translations than there are
    options, the options already overwritten are not restored: the
    fallback loop hands [translate_text] the batch's translations for
    the first options and the original texts for the others. *)
Theorem translate_question_short_batch
    (session_language : option string) (q : question) (w : world)
    (translated : list string) :
  let lang := default "en" session_language in
  let w1 :=
    (translate_text GoogleTranslator session_language (q_question q) w).2 in
  lang ≠ "en" →
  translate_batch (provider_calls w1) lang (opt_text <$> q_options q)
  = BatchTranslated translated →
  length translated < length (q_options q) →
  ∃ q',
    (translate_question GoogleTranslator translate_batch session_language
       (Some q) w).1 = Some q'
    ∧ opt_text <$> q_options q'
      = (translate_texts GoogleTranslator session_language
           (translated ++ drop (length translated) (opt_text <$> q_options q))
           w1).1.
Proof.
  cbv zeta. intros Hl Hb Hlen. unfold translate_question.
  destruct (translate_text _ _ _ _) as [text w1]. simpl in *.
  rewrite decide_False, Hb by done.
  pose proof (assign_batch_texts (q_options q) translated) as Ht.
  pose proof (assign_batch_completed (q_options q) translated) as Hc.
  destruct (assign_batch _ _) as [options completed]. simpl in *.
  destruct completed; [destruct Hc as [Hc _]; specialize (Hc eq_refl); lia|].
  pose proof (translate_options_texts session_language options w1) as Hto.
  destruct (translate_options _ _ _ _) as [options' w2]. simpl in *.
  eexists. split; [done|]. simpl.
  rewrite Ht, take_ge in Hto by lia. by rewrite <- Hto.
Qed.

Lemma translate_treatment_shape session_language t w :
  same_shape t (translate_treatment GoogleTranslator session_language t w).1.
Proof.
  destruct t as [s|items]; simpl.
  - by destruct (translate_text _ _ _ _).
  - pose proof (translate_texts_length session_language items w) as H.
    destruct (translate_texts _ _ _ _). simpl in *. done.
Qed.

Lemma translate_treatment_items_shape session_language treatments : ∀ w,
  (translate_treatment_items GoogleTranslator session_language treatments w).1.*1
  = treatments.*1
  ∧ Forall2 same_shape treatments.*2
      (translate_treatment_items GoogleTranslator session_language treatments w).1.*2.
Proof.
  induction treatments as [|[k t] treatments IH]; intros w; [by split|].
  simpl. pose proof (translate_treatment_shape session_language t w) as Ht.
  destruct (translate_treatment _ _ _ _) as [t' w1].
  destruct (IH w1) as [Hk Hs].
  destruct (translate_treatment_items _ _ _ _) as [rest w2]. simpl in *.
  split; [by f_equal|by constructor].
Qed.

Lemma same_shape_refl t : same_shape t t.
Proof. by destruct t. Qed.

(** X19: [translate_treatments] keeps the dictionary's shape: the same
    treatment types in the same order, a text stays a text and a list
    stays a list of the same length, whatever the provider does. *)
Theorem translate_treatments_keeps_shape
    (session_language : option string)
    (treatments : list (string * treatment)) (w : world) :
  (translate_treatments GoogleTranslator session_language treatments w).1.*1
  = treatments.*1
  ∧ Forall2 same_shape treatments.*2
      (translate_treatments GoogleTranslator session_language treatments w).1.*2.
Proof.
  unfold translate_treatments.
  assert (Forall2 same_shape treatments.*2 treatments.*2) as Hrefl.
  { apply Forall_Forall2_diag, Forall_forall. intros ??. apply same_shape_refl. }
  destruct treatments as [|entry treatments]; [done|].
  destruct (decide _); [done|].
  apply translate_treatment_items_shape.
Qed.

Lemma translate_treatment_items_untranslated session_language treatments : ∀ w,
  provider_down GoogleTranslator →
  cache_untranslated w →
  (translate_treatment_items GoogleTranslator session_language treatments w).1
  = treatments
  ∧ cache_untranslated
      (translate_treatment_items GoogleTranslator session_language treatments w).2.
Proof.
  induction treatments as [|[k t] treatments IH]; intros w Hdown Hw; [done|].
  simpl.
  assert ((translate_treatment GoogleTranslator session_language t w).1 = t
          ∧ cache_untranslated
              (translate_treatment GoogleTranslator session_language t w).2)
    as [Ht Hw1].
  { destruct t as [s|items]; simpl.
    - destruct (translate_text_untranslated GoogleTranslator session_language
                  s w Hdown Hw) as [? ?].
      destruct (translate_text _ _ _ _). simpl in *. by subst.
    - destruct (translate_texts_untranslated session_language items w Hdown Hw)
        as [? ?].
      destruct (translate_texts _ _ _ _). simpl in *. by subst. }
  destruct (translate_treatment _ _ _ _) as [t' w1]. simpl in *.
  destruct (IH w1 Hdown Hw1) as [Hr Hw2].
  destruct (translate_treatment_items _ _ _ _). simpl in *. by subst.
Qed.

(** X20: [translate_treatments] returns the treatments unchanged, and
    the world with them, for the empty dictionary and in an English
    session; and in any other language it still returns them unchanged
    while the provider delivers nothing and the cache holds no
    translation. *)
Theorem translate_treatments_fail_open
    (session_language : option string)
    (treatments : list (string * treatment)) (w : world) :
  (treatments = [] ∨ default "en" session_language = "en" →
   translate_treatments GoogleTranslator session_language treatments w
   = (treatments, w))
  ∧ (provider_down GoogleTranslator →
     cache_untranslated w →
     (translate_treatments GoogleTranslator session_language treatments w).1
     = treatments).
Proof.
  unfold translate_treatments. split.
  - intros [->|Hen]; [done|]. destruct treatments; [done|].
    by rewrite decide_True.
  - intros Hdown Hw. destruct treatments as [|entry treatments]; [done|].
    destruct (decide _); [done|].
    by apply translate_treatment_items_untranslated.
Qed.
End translate_structures_properties.

Lemma translate_question_fail_open_witness :
  translate_question echo_provider echo_batch (Some "en")
    (Some systemic_symptoms_question) empty_world
  = (Some systemic_symptoms_question, empty_world)
  ∧ (translate_question slow_provider failing_batch (Some "es")
       (Some systemic_symptoms_question) empty_world).1
    = Some systemic_symptoms_question.
Proof.
  split.
  - apply (proj1 (translate_question_fail_open echo_provider echo_batch
             (Some "en") systemic_symptoms_question empty_world)).
    reflexivity.
  - apply (proj2 (translate_question_fail_open slow_provider failing_batch
             (Some "es") systemic_symptoms_question empty_world)).
    + intros calls lang text translation H. discriminate H.
    + reflexivity.
    + intros t l v H. by apply elem_of_nil in H.
Defined.

Lemma translate_question_batch_witness :
  ∃ q',
    translate_question echo_provider echo_batch (Some "es")
      (Some systemic_symptoms_question) empty_world
    = (Some q',
       (translate_text echo_provider (Some "es")
          (q_question systemic_symptoms_question) empty_world).2)
    ∧ opt_text <$> q_options q'
      = take 4 ["es:Fever"; "es:Yellowing of Skin/Eyes (Jaundice)";
                "es:Painful Bowel Movements"; "es:None of these"].
Proof.
  apply (translate_question_batch echo_provider echo_batch (Some "es")
           systemic_symptoms_question empty_world).
  - done.
  - vm_compute. reflexivity.
  - simpl. lia.
Defined.

(** With a batch call that returns three translations for four options,
    the first three option texts are handed to [translate_text] already
    translated. *)
Lemma translate_question_short_batch_witness :
  ∃ q',
    (translate_question echo_provider short_batch (Some "es")
       (Some systemic_symptoms_question) empty_world).1 = Some q'
    ∧ opt_text <$> q_options q'
      = (translate_texts echo_provider (Some "es")
           (["es:Fever"; "es:Yellowing of Skin/Eyes (Jaundice)";
             "es:Painful Bowel Movements"]
            ++ drop 3 (opt_text <$> q_options systemic_symptoms_question))
           (translate_text echo_provider (Some "es")
              (q_question systemic_symptoms_question) empty_world).2).1.
Proof.
  apply (translate_question_short_batch echo_provider short_batch (Some "es")
           systemic_symptoms_question empty_world).
  - done.
  - vm_compute. reflexivity.
  - simpl. lia.
Defined.

Lemma translate_treatments_fail_open_witness :
  translate_treatments echo_provider (Some "en") sample_treatment_items
    empty_world
  = (sample_treatment_items, empty_world)
  ∧ (translate_treatments slow_provider (Some "es") sample_treatment_items
       empty_world).1
    = sample_treatment_items.
Proof.
  split.
  - apply (proj1 (translate_treatments_fail_open echo_provider (Some "en")
             sample_treatment_items empty_world)).
    by right.
  - apply (proj2 (translate_treatments_fail_open slow_provider (Some "es")
             sample_treatment_items empty_world)).
    + intros calls lang text translation H. discriminate H.
    + intros t l v H. by apply elem_of_nil in H.
Defined.

(** * Properties of loading *)

Lemma foldl_load_department_lookup files depts department : ∀ data,
  foldl (load_department files) data depts !! department
  = if decide (department ∈ depts) then
      Some match files ("data/" +:+ department +:+ ".json") with
           | FileContent d => d
           | _ => empty_dept_data
           end
    else data !! department.
Proof.
  induction depts as [|dept depts IH]; intros data.
  - cbn [foldl]. destruct (decide (department ∈ [])) as [H|]; [|done].
    by apply elem_of_nil in H.
  - cbn [foldl]. rewrite IH.
    destruct (decide (department ∈ depts)) as [Hin|Hnin];
      destruct (decide (department ∈ dept :: depts)) as [Hin'|Hnin'];
      try done.
    + destruct Hnin'. by right.
    + apply elem_of_cons in Hin' as [->|?]; [|done].
      unfold load_department. destruct (files _); by rewrite lookup_insert_eq.
    + apply not_elem_of_cons in Hnin' as [Hne _].
      unfold load_department. destruct (files _); by rewrite lookup_insert_ne.
Qed.

(** X21: after loading, the department data has an entry for exactly the
    configured departments, each from its own file: the parsed department
    object when the file holds one, the empty dictionary when the file is
    missing or cannot be opened or parsed.  For a configured department
    whose file could not be loaded the matcher returns the empty list,
    and for a department that is not configured there is no entry and the
    matcher returns [None]. *)
Theorem load_all_departments_entries
    (files : string → file_state) (department : string)
    (symptoms : list string) :
  (department ∈ DEPARTMENTS.*1 →
   (∀ data, files ("data/" +:+ department +:+ ".json") = FileContent data →
      departments_data (chatbot files) !! department = Some data)
   ∧ (files ("data/" +:+ department +:+ ".json") = FileMissing
      ∨ files ("data/" +:+ department +:+ ".json") = FileUnreadable →
      departments_data (chatbot files) !! department = Some empty_dept_data
      ∧ find_condition_by_symptoms (chatbot files) department symptoms
        = Some []))
  ∧ (department ∉ DEPARTMENTS.*1 →
     departments_data (chatbot files) !! department = None
     ∧ find_condition_by_symptoms (chatbot files) department symptoms = None).
Proof.
  unfold find_condition_by_symptoms, chatbot, MedicalChatbot_init,
    load_all_departments.
  cbn [departments_data]. rewrite foldl_load_department_lookup. split.
  - intros Hin. destruct (decide _) as [_|]; [|done]. split.
    + by intros data ->.
    + by intros [-> | ->].
  - intros Hnin. destruct (decide _) as [|_]; [done|]. by rewrite lookup_empty.
Qed.

Lemma load_all_departments_entries_witness :
  departments_data (chatbot sample_files) !! "gastrointestinal"
  = Some sample_dept
  ∧ (departments_data (chatbot sample_files) !! "dermatology"
     = Some empty_dept_data
     ∧ find_condition_by_symptoms (chatbot sample_files) "dermatology"
         ["DER_001"] = Some [])
  ∧ (departments_data (chatbot sample_files) !! "cardiology" = None
     ∧ find_condition_by_symptoms (chatbot sample_files) "cardiology"
         ["DER_001"] = None).
Proof.
  split; [|split].
  - apply (proj1 (proj1 (load_all_departments_entries sample_files
                           "gastrointestinal" []) ltac:(vm_compute; left))).
    reflexivity.
  - apply (proj2 (proj1 (load_all_departments_entries sample_files
                           "dermatology" ["DER_001"])
                    ltac:(vm_compute; right; left))).
    right. reflexivity.
  - apply (proj2 (load_all_departments_entries sample_files "cardiology"
                    ["DER_001"])).
    vm_compute. intros H.
    repeat (apply elem_of_cons in H as [H|H]; [discriminate H|]).
    by apply elem_of_nil in H.
Defined.
(** * Properties of the request handlers *)

Lemma dict_set_keys {K V} `{EqDecision K} (d : list (K * V)) k v k' :
  k' ∈ (dict_set d k v).*1 ↔ k' = k ∨ k' ∈ d.*1.
Proof.
  induction d as [|[k0 v0] d IH]; simpl.
  - rewrite list_elem_of_singleton. split; [by left|].
    intros [?|H]; [done|]. by apply elem_of_nil in H.
  - destruct (decide (k0 = k)) as [->|Hne]; simpl.
    + rewrite elem_of_cons. split; [by right|]. intros [->|?]; [by left|done].
    + rewrite !elem_of_cons, IH. tauto.
Qed.

Lemma dict_get_set_eq {K V} `{EqDecision K} (d : list (K * V)) k v :
  dict_get (dict_set d k v) k = Some v.
Proof.
  induction d as [|[k0 v0] d IH]; simpl.
  - by rewrite decide_True.
  - destruct (decide (k0 = k)) as [->|Hne]; simpl.
    + by rewrite decide_True.
    + by rewrite decide_False.
Qed.

Lemma dict_get_set_ne {K V} `{EqDecision K} (d : list (K * V)) k v k' :
  k' ≠ k → dict_get (dict_set d k v) k' = dict_get d k'.
Proof.
  intros Hne. induction d as [|[k0 v0] d IH]; simpl.
  - by rewrite decide_False.
  - destruct (decide (k0 = k)) as [->|Hne0]; simpl.
    + by rewrite !decide_False.
    + destruct (decide (k0 = k')); [done|]. apply IH.
Qed.

Lemma scan_flow_pending flow (answers : AnswerSet) q :
  scan_flow flow answers = Some q → q ∈ pending flow answers.
Proof.
  intros (Hin & Hc & _)%scan_flow_Some. apply list_elem_of_filter.
  split; [|done]. unfold dict_contains in Hc.
  by apply bool_decide_eq_false in Hc.
Qed.

Lemma pending_dict_set flow (answers : AnswerSet) q v :
  q ∈ pending flow answers →
  length (pending flow (dict_set answers (q_id q) v))
  < length (pending flow answers).
Proof.
  intros Hq. unfold pending in *.
  assert (filter (λ q0, q_id q0 ∉ (dict_set answers (q_id q) v).*1) flow
          = filter (λ q0, q_id q0 ∉ (dict_set answers (q_id q) v).*1)
              (filter (λ q0, q_id q0 ∉ answers.*1) flow)) as ->.
  { rewrite list_filter_filter. apply list_filter_iff. intros q0.
    rewrite dict_set_keys. tauto. }
  apply length_filter_lt with q; [done|].
  rewrite dict_set_keys. intros H. apply H. by left.
Qed.

Lemma interview_complete self department user flow :
  conversation_flows self !! department = Some flow →
  ∀ rounds answers,
    length (pending flow answers) ≤ rounds →
    get_next_question self department
      (interview self department user rounds answers) = None.
Proof.
  intros Hf. induction rounds as [|rounds IH]; intros answers Hlen.
  - simpl. destruct (get_next_question self department answers) as [q|] eqn:Hq;
      [|done].
    unfold get_next_question in Hq. rewrite Hf in Hq.
    apply scan_flow_pending in Hq.
    destruct (pending flow answers); [by apply elem_of_nil in Hq|].
    simpl in Hlen. lia.
  - simpl. destruct (get_next_question self department answers) as [q|] eqn:Hq;
      [|done].
    apply IH. unfold get_next_question in Hq. rewrite Hf in Hq.
    apply scan_flow_pending in Hq.
    pose proof (pending_dict_set flow answers q (user q) Hq). lia.
Qed.

(** X22: an interview ends.  Whatever the user answers, when every asked
    question is answered under its id the flow is complete after at most
    as many questions as the flow has: [get_next_question] then returns
    [None]. *)
Theorem interview_terminates
    (self : MedicalChatbot) (department : string)
    (user : question → answer_value) (flow : list question)
    (rounds : nat) (answers : AnswerSet) :
  conversation_flows self !! department = Some flow →
  length flow ≤ rounds →
  get_next_question self department
    (interview self department user rounds answers) = None.
Proof.
  intros Hf Hr. apply (interview_complete _ _ _ flow Hf).
  etrans; [apply length_filter|done].
Qed.

Lemma interview_terminates_witness :
  get_next_question (MedicalChatbot_init ∅) "gastrointestinal"
    (interview (MedicalChatbot_init ∅) "gastrointestinal" silent_user 7 [])
  = None.
Proof.
  apply (interview_terminates (MedicalChatbot_init ∅) "gastrointestinal"
           silent_user gastrointestinal_flow 7 []).
  - vm_compute. reflexivity.
  - simpl. lia.
Defined.

Lemma dict_get_is_Some {K V} `{EqDecision K} (d : list (K * V)) k :
  is_Some (dict_get d k) ↔ k ∈ d.*1.
Proof.
  induction d as [|[k0 v0] d IH]; simpl.
  - split; [by intros [? ?]|by intros ?%elem_of_nil].
  - destruct (decide (k0 = k)) as [->|Hne].
    + split; [intros _; left|by eexists].
    + rewrite IH, elem_of_cons. split; [by right|]. by intros [?|?].
Qed.

(** X23: [set_language] accepts exactly the configured languages.  For
    one of them it stores the language in the session and empties the
    whole translation cache, so that the next translation of any text,
    also one cached before and also when the language did not change,
    goes to the provider; for any other code it answers with an error
    and changes neither the session nor the cache. *)
Theorem set_language_clears_cache
    (req_language : option string) (s : session) (w : world) :
  let language := default "en" req_language in
  (∀ name, dict_get LANGUAGES language = Some name →
     ∃ s',
       set_language req_language s w
       = (Responded (language_response ("Language set to " +:+ name)) s',
          {| translation_cache := []; provider_calls := provider_calls w |})
       ∧ s_language s' = Some language
       ∧ s_department s' = s_department s
       ∧ s_answers s' = s_answers s
       ∧ ∀ GoogleTranslator lang text,
           text ≠ "" → lang ≠ "en" →
           provider_calls
             (translate_text GoogleTranslator (Some lang) text
                {| translation_cache := [];
                   provider_calls := provider_calls w |}).2
           = provider_calls w ++ [(text, lang)])
  ∧ (language ∉ LANGUAGES.*1 →
     set_language req_language s w
     = (Responded (error_response "Invalid language" 400) s, w)).
Proof.
  cbv zeta. unfold set_language. split.
  - intros name ->. eexists. split; [done|]. repeat split.
    intros P lang text Ht Hl.
    rewrite translate_text_dispatch by done. simpl.
    by destruct (do_translate _ _ _ _).
  - intros Hn. destruct (dict_get LANGUAGES _) eqn:Hg; [|done].
    destruct Hn. apply dict_get_is_Some. by rewrite Hg.
Qed.

Lemma set_language_clears_cache_witness :
  (∃ s',
     set_language (Some "es") cleared_session
       {| translation_cache := [(("Fever", "es"), "Fiebre")];
          provider_calls := [("Fever", "es")] |}
     = (Responded (language_response ("Language set to " +:+ "Español")) s',
        {| translation_cache := []; provider_calls := [("Fever", "es")] |})
     ∧ s_language s' = Some "es"
     ∧ s_department s' = None
     ∧ s_answers s' = None
     ∧ ∀ GoogleTranslator lang text,
         text ≠ "" → lang ≠ "en" →
         provider_calls
           (translate_text GoogleTranslator (Some lang) text
              {| translation_cache := [];
                 provider_calls := [("Fever", "es")] |}).2
         = [("Fever", "es")] ++ [(text, lang)])
  ∧ set_language (Some "xx") cleared_session empty_world
    = (Responded (error_response "Invalid language" 400) cleared_session,
       empty_world).
Proof.
  split.
  - apply (proj1 (set_language_clears_cache (Some "es") cleared_session
             {| translation_cache := [(("Fever", "es"), "Fiebre")];
                provider_calls := [("Fever", "es")] |})).
    vm_compute. reflexivity.
  - apply (proj2 (set_language_clears_cache (Some "xx") cleared_session
             empty_world)).
    apply (bool_decide_unpack _). vm_compute. exact I.
Defined.

Lemma configured_department_first_question department :
  department ∈ DEPARTMENTS.*1 →
  ∃ flow q,
    create_conversation_flows !! department = Some flow
    ∧ head flow = Some q
    ∧ scan_flow flow [] = Some q.
Proof.
  intros H. cbn in H.
  repeat (apply elem_of_cons in H as [->|H]);
    [exists gastrointestinal_flow | exists dermatology_flow
    | exists first_aid_flow | exists general_medicine_flow
    | exists mental_health_flow | exists musculoskeletal_flow
    | by apply elem_of_nil in H];
    (eexists; split; [vm_compute; reflexivity|];
     split; [reflexivity|vm_compute; reflexivity]).
Qed.

Section handler_properties.
Variable GoogleTranslator :
  list (string * string) → string → string → provider_outcome.
Variable translate_batch :
  list (string * string) → string → list string → batch_outcome.

(** X24: [start_chat] refuses a department that is not configured, with
    an error answer and no change to the session or the cache.  For a
    configured department it starts a fresh session (that department, no
    answers, the language the request names, which is not checked
    against the configured languages) and presents the first question of
    the department's flow, with its id and option values intact, whatever
    the data files and the providers are. *)
Theorem start_chat_presents_first_question
    (files : string → file_state)
    (req_department req_language : option string) (s : session) (w : world) :
  ((∀ department, req_department = Some department →
      department ∉ DEPARTMENTS.*1) →
   start_chat GoogleTranslator translate_batch (chatbot files)
     req_department req_language s w
   = (Responded (error_response "Invalid department" 400) s, w))
  ∧ (∀ department,
       req_department = Some department →
       department ∈ DEPARTMENTS.*1 →
       ∃ flow q q' message w',
         conversation_flows (chatbot files) !! department = Some flow
         ∧ head flow = Some q
         ∧ start_chat GoogleTranslator translate_batch (chatbot files)
             req_department req_language s w
           = (Responded (start_response department (Some q') message)
                {| s_department := Some department; s_answers := Some [];
                   s_current_step := Some 0; s_treatment_type := None;
                   s_language := Some (default "en" req_language) |},
              w')
         ∧ q_id q' = q_id q
         ∧ opt_value <$> q_options q' = opt_value <$> q_options q).
Proof.
  unfold start_chat. split.
  - intros Hn. destruct req_department as [department|]; [|done].
    cbn [mbind option_bind].
    destruct (dict_get DEPARTMENTS department) eqn:Hg; [|done].
    destruct (Hn department eq_refl). apply dict_get_is_Some. by rewrite Hg.
  - intros department -> Hin.
    destruct (configured_department_first_question department Hin)
      as (flow & q & Hf & Hh & Hs).
    exists flow, q.
    apply dict_get_is_Some in Hin as [name Hname].
    cbn [mbind option_bind]. rewrite Hname. cbn [fmap option_fmap option_map].
    unfold get_next_question. cbn [conversation_flows chatbot MedicalChatbot_init].
    rewrite Hf, Hs.
    destruct (translate_question_Some GoogleTranslator translate_batch
                (Some (default "en" req_language)) q w)
      as (q' & Hq' & Hid & _ & _ & Hv).
    destruct (translate_question _ _ _ _ _) as [asked w1]. simpl in Hq'.
    subst asked.
    destruct (translate_text _ _ _ _) as [message w2].
    by exists q', message, w2.
Qed.
End handler_properties.

Lemma start_chat_presents_first_question_witness :
  start_chat echo_provider echo_batch (chatbot sample_files)
    (Some "cardiology") None cleared_session empty_world
  = (Responded (error_response "Invalid department" 400) cleared_session,
     empty_world)
  ∧ ∃ flow q q' message w',
      conversation_flows (chatbot sample_files) !! "mental_health" = Some flow
      ∧ head flow = Some q
      ∧ start_chat echo_provider echo_batch (chatbot sample_files)
          (Some "mental_health") (Some "xx") cleared_session empty_world
        = (Responded (start_response "mental_health" (Some q') message)
             {| s_department := Some "mental_health"; s_answers := Some [];
                s_current_step := Some 0; s_treatment_type := None;
                s_language := Some "xx" |},
           w')
      ∧ q_id q' = q_id q
      ∧ opt_value <$> q_options q' = opt_value <$> q_options q.
Proof.
  split.
  - apply (proj1 (start_chat_presents_first_question echo_provider echo_batch
             sample_files (Some "cardiology") None cleared_session empty_world)).
    intros department [= <-]. apply (bool_decide_unpack _). vm_compute. exact I.
  - apply (proj2 (start_chat_presents_first_question echo_provider echo_batch
             sample_files (Some "mental_health") (Some "xx") cleared_session
             empty_world) "mental_health" eq_refl).
    apply (bool_decide_unpack _). vm_compute. exact I.
Defined.

Lemma treatment_options_values GoogleTranslator session_language types : ∀ w,
  opt_value <$> (treatment_options GoogleTranslator session_language types w).1
  = types.*1.
Proof.
  induction types as [|[k v] types IH]; intros w; [done|]. simpl.
  destruct (translate_text _ _ _ _) as [text w1].
  specialize (IH w1). destruct (treatment_options _ _ _ _). simpl in *.
  by f_equal.
Qed.

Section answer_properties.
Variable GoogleTranslator :
  list (string * string) → string → string → provider_outcome.
Variable translate_batch :
  list (string * string) → string → list string → batch_outcome.
Variable the_chatbot : MedicalChatbot.

(** X25: [answer_question] refuses a request without a question id, or
    in a session without a department, and then changes nothing.
    Otherwise it stores the answer under the question id, leaving the
    other answers as they were, whether or not the id names a question
    of the flow; and the question it then presents, if any, is one that
    has no answer yet, so never the one just answered. *)
Theorem answer_question_records
    (question_id : option string) (answer : answer_value)
    (s : session) (w : world) :
  (truthy (s_department s) = false ∨ truthy question_id = false →
   answer_question GoogleTranslator translate_batch the_chatbot
     question_id answer s w
   = (Responded (error_response "Invalid request" 400) s, w))
  ∧ (∀ id, question_id = Some id →
       truthy (s_department s) = true → truthy question_id = true →
       ∃ r s' w' answers,
         answer_question GoogleTranslator translate_batch the_chatbot
           question_id answer s w = (Responded r s', w')
         ∧ s_answers s' = Some answers
         ∧ answers = dict_set (default [] (s_answers s)) id answer
         ∧ dict_get answers id = Some answer
         ∧ (∀ k, k ≠ id →
              dict_get answers k = dict_get (default [] (s_answers s)) k)
         ∧ s_department s' = s_department s
         ∧ s_language s' = s_language s
         ∧ ∀ q completed,
             r = next_question_response q completed →
             (q_id q ∉ answers.*1) ∧ q_id q ≠ id ∧ completed = false).
Proof.
  unfold answer_question. split.
  - intros [H|H].
    + destruct (s_department s) as [department|]; [|done].
      destruct question_id; [|done]. cbn [truthy] in H |- *. by rewrite H.
    + destruct (s_department s) as [department|]; [|done].
      destruct question_id; [|done]. cbn [truthy] in H |- *.
      by rewrite H, andb_false_r.
  - intros id -> Hd Hq.
    destruct (s_department s) as [department|] eqn:Hdep; [|done].
    rewrite Hd, Hq. cbn [andb].
    set (answers := dict_set (default [] (s_answers s)) id answer).
    destruct (get_next_question the_chatbot department answers) as [q|] eqn:Hn.
    + destruct (translate_question_Some GoogleTranslator translate_batch
                  (s_language s) q w) as (q' & Hq' & Hid & _).
      destruct (translate_question _ _ _ _ _) as [asked w1]. simpl in Hq'.
      subst asked. eexists _, _, _, answers. split; [done|].
      cbn [s_answers s_department s_language].
      split; [done|]. split; [done|]. split; [apply dict_get_set_eq|].
      split; [intros k Hk; by apply dict_get_set_ne|].
      split; [done|]. split; [done|].
      intros q0 completed [= <- <-]. rewrite Hid.
      unfold get_next_question in Hn.
      destruct (conversation_flows the_chatbot !! department) as [flow|];
        [|done].
      apply scan_flow_Some in Hn as (_ & Hc & _).
      unfold dict_contains in Hc. apply bool_decide_eq_false in Hc.
      split; [done|]. split; [|done]. intros Heq. apply Hc.
      apply dict_set_keys. by left.
    + cbn [translate_question].
      destruct (translate_text _ _ _ _) as [text w2].
      destruct (treatment_options _ _ _ _) as [options w3].
      eexists _, _, _, answers. split; [done|].
      cbn [s_answers s_department s_language].
      split; [done|]. split; [done|]. split; [apply dict_get_set_eq|].
      split; [intros k Hk; by apply dict_get_set_ne|].
      split; [done|]. split; [done|]. intros q0 completed H. discriminate H.
Qed.

(** X26: when the stored answers complete the flow, [answer_question]
    asks for the treatment type: the question ["treatment_preference"]
    of type ["treatment_selection"], whose option values are the four
    configured treatment types in their configured order, untranslated
    whatever the language. *)
Theorem answer_question_asks_treatment
    (id : string) (answer : answer_value) (department : string)
    (s : session) (w : world) :
  s_department s = Some department →
  department ≠ "" → id ≠ "" →
  get_next_question the_chatbot department
    (dict_set (default [] (s_answers s)) id answer) = None →
  ∃ text options s' w',
    answer_question GoogleTranslator translate_batch the_chatbot
      (Some id) answer s w
    = (Responded
         (treatment_question_response "treatment_preference" text
            "treatment_selection" options false) s',
       w')
    ∧ opt_value <$> options
      = ["allopathy"; "homeopathy"; "ayurveda"; "home_remedy"].
Proof.
  intros Hdep Hd Hid Hn. unfold answer_question. rewrite Hdep.
  cbn [truthy]. rewrite !bool_decide_eq_true_2 by done. cbn [andb].
  rewrite Hn. cbn [translate_question].
  destruct (translate_text _ _ _ _) as [text w2].
  pose proof (treatment_options_values GoogleTranslator (s_language s)
                TREATMENT_TYPES w2) as Hv.
  destruct (treatment_options _ _ _ _) as [options w3].
  by eexists _, _, _, _.
Qed.
End answer_properties.

Lemma answer_question_records_witness :
  answer_question echo_provider echo_batch (MedicalChatbot_init ∅)
    None (AnswerStr "left_side") early_session empty_world
  = (Responded (error_response "Invalid request" 400) early_session,
     empty_world)
  ∧ ∃ r s' w' answers,
      answer_question echo_provider echo_batch (MedicalChatbot_init ∅)
        (Some "symptom_location") (AnswerStr "left_side") early_session
        empty_world = (Responded r s', w')
      ∧ s_answers s' = Some answers
      ∧ answers = dict_set [] "symptom_location" (AnswerStr "left_side")
      ∧ dict_get answers "symptom_location" = Some (AnswerStr "left_side")
      ∧ (∀ k, k ≠ "symptom_location" → dict_get answers k = dict_get [] k)
      ∧ s_department s' = Some "gastrointestinal"
      ∧ s_language s' = Some "en"
      ∧ ∀ q completed,
          r = next_question_response q completed →
          (q_id q ∉ answers.*1) ∧ q_id q ≠ "symptom_location"
          ∧ completed = false.
Proof.
  split.
  - apply (proj1 (answer_question_records echo_provider echo_batch
             (MedicalChatbot_init ∅) None (AnswerStr "left_side")
             early_session empty_world)).
    right. reflexivity.
  - apply (proj2 (answer_question_records echo_provider echo_batch
             (MedicalChatbot_init ∅) (Some "symptom_location")
             (AnswerStr "left_side") early_session empty_world)
             "symptom_location" eq_refl).
    + reflexivity.
    + reflexivity.
Defined.

Lemma answer_question_asks_treatment_witness :
  ∃ text options s' w',
    answer_question echo_provider echo_batch (MedicalChatbot_init ∅)
      (Some "systemic_symptoms") (AnswerList ["fever"]) late_session
      empty_world
    = (Responded
         (treatment_question_response "treatment_preference" text
            "treatment_selection" options false) s',
       w')
    ∧ opt_value <$> options
      = ["allopathy"; "homeopathy"; "ayurveda"; "home_remedy"].
Proof.
  apply (answer_question_asks_treatment echo_provider echo_batch
           (MedicalChatbot_init ∅) "systemic_symptoms" (AnswerList ["fever"])
           "gastrointestinal" late_session empty_world).
  - reflexivity.
  - done.
  - done.
  - vm_compute. reflexivity.
Defined.

Section select_treatment_properties.
Variable GoogleTranslator :
  list (string * string) → string → string → provider_outcome.
Variable the_chatbot : MedicalChatbot.
Variable treatment_items : gmap string treatment → list (string * treatment).

(** X27: [select_treatment] refuses a request without a treatment type,
    or in a session without a department, and then changes nothing.  When
    no condition matches the session's answers (the matcher returns
    [None] or the empty list) it answers that no condition matched and
    that a doctor is required, whatever treatment type the request
    names, known or not; the only text translated is that message. *)
Theorem select_treatment_no_match
    (req_treatment_type : option string) (s : session) (w : world) :
  (truthy (s_department s) = false ∨ truthy req_treatment_type = false →
   select_treatment GoogleTranslator the_chatbot treatment_items
     req_treatment_type s w
   = (Responded (error_response "Invalid request" 400) s, w))
  ∧ (∀ department treatment_type,
       s_department s = Some department → department ≠ "" →
       req_treatment_type = Some treatment_type → treatment_type ≠ "" →
       (∀ top rest,
          find_condition_by_symptoms the_chatbot department
            (map_answers_to_symptoms the_chatbot department
               (default [] (s_answers s)))
          ≠ Some (top :: rest)) →
       ∃ s',
         select_treatment GoogleTranslator the_chatbot treatment_items
           req_treatment_type s w
         = (Responded
              (no_match_response
                 (translate_text GoogleTranslator (s_language s)
                    "No specific conditions matched your symptoms pattern. Please consult a healthcare professional for proper diagnosis and treatment."
                    w).1 true) s',
            (translate_text GoogleTranslator (s_language s)
               "No specific conditions matched your symptoms pattern. Please consult a healthcare professional for proper diagnosis and treatment."
               w).2)
         ∧ s_treatment_type s' = Some treatment_type
         ∧ s_answers s' = s_answers s).
Proof.
  unfold select_treatment. split.
  - intros [H|H].
    + destruct (s_department s) as [department|]; [|done].
      destruct req_treatment_type; [|done]. cbn [truthy] in H |- *.
      by rewrite H.
    + destruct (s_department s) as [department|]; [|done].
      destruct req_treatment_type; [|done]. cbn [truthy] in H |- *.
      by rewrite H, andb_false_r.
  - intros department treatment_type -> Hd -> Ht Hnone.
    cbn [truthy]. rewrite !bool_decide_eq_true_2 by done. cbn [andb].
    destruct (find_condition_by_symptoms _ _ _) as [[|top rest]|] eqn:Hfind.
    + destruct (translate_text _ _ _ _) as [message w1]. by eexists.
    + by destruct (Hnone top rest).
    + destruct (translate_text _ _ _ _) as [message w1]. by eexists.
Qed.

(** X28: when a condition matches and the request names a treatment
    type that is not one of the configured ones, [select_treatment] does
    not answer: the lookup [TREATMENT_TYPES[treatment_type]] raises
    [KeyError]. *)
Theorem select_treatment_unknown_type
    (department treatment_type : string) (s : session) (w : world)
    (top : condition_info) (rest : list condition_info) :
  s_department s = Some department → department ≠ "" →
  treatment_type ≠ "" →
  treatment_type ∉ TREATMENT_TYPES.*1 →
  find_condition_by_symptoms the_chatbot department
    (map_answers_to_symptoms the_chatbot department (default [] (s_answers s)))
  = Some (top :: rest) →
  (select_treatment GoogleTranslator the_chatbot treatment_items
     (Some treatment_type) s w).1
  = Raised (KeyError treatment_type).
Proof.
  intros Hdep Hd Ht Hn Hfind. unfold select_treatment. rewrite Hdep.
  cbn [truthy]. rewrite !bool_decide_eq_true_2 by done. cbn [andb].
  rewrite Hfind.
  destruct (translate_treatments _ _ _ _) as [translated w1].
  destruct (translate_text _ _ _ _) as [condition_name w2].
  destruct (dict_get TREATMENT_TYPES treatment_type) eqn:Hg; [|done].
  destruct Hn. apply dict_get_is_Some. by rewrite Hg.
Qed.
End select_treatment_properties.

Lemma dict_get_NoDup {K V} `{EqDecision K} (d : list (K * V)) k v :
  NoDup d.*1 → (k, v) ∈ d → dict_get d k = Some v.
Proof.
  induction d as [|[k0 v0] d IH]; simpl; [by intros _ ?%elem_of_nil|].
  intros [Hk Hd]%NoDup_cons [[= -> ->]|Hin]%elem_of_cons.
  - by rewrite decide_True.
  - destruct (decide (k0 = k)) as [->|]; [|by apply IH].
    destruct Hk. apply list_elem_of_fmap. by exists (k, v).
Qed.

Lemma dict_get_map_items treatments k :
  dict_get (map_items treatments) k = treatments !! k.
Proof.
  unfold map_items. destruct (treatments !! k) as [v|] eqn:Hk.
  - apply dict_get_NoDup; [apply NoDup_fst_map_to_list|].
    by apply elem_of_map_to_list.
  - destruct (dict_get (map_to_list treatments) k) as [v|] eqn:Hg; [|done].
    apply dict_get_elem_of, elem_of_map_to_list in Hg. congruence.
Qed.

Section english_session.
Variable GoogleTranslator :
  list (string * string) → string → string → provider_outcome.
Variable session_language : option string.
Hypothesis english : default "en" session_language = "en".

Lemma translate_treatments_english treatments w :
  translate_treatments GoogleTranslator session_language treatments w
  = (treatments, w).
Proof.
  unfold translate_treatments. destruct treatments; [done|].
  by rewrite decide_True.
Qed.

Lemma urgent_message_english condition_name w :
  (urgent_message GoogleTranslator session_language condition_name w).2 = w.
Proof.
  unfold urgent_message. cbv zeta.
  by rewrite !(translate_text_english _ _ _ _ english).
Qed.

Lemma usage_instructions_english treatment_type w :
  (usage_instructions GoogleTranslator session_language treatment_type w).2 = w.
Proof.
  unfold usage_instructions. cbv zeta.
  repeat (destruct (decide _);
          [by rewrite (translate_text_english _ _ _ _ english)|]).
  done.
Qed.

Lemma regular_message_english department treatment_type condition_name
    treatment_type_name selected_treatment symptoms disease_id w :
  ∃ message,
    regular_message GoogleTranslator session_language department
      treatment_type condition_name treatment_type_name selected_treatment
      symptoms disease_id w
    = ((message, default [] (dict_get serious_conditions department)), w).
Proof.
  unfold regular_message. cbv zeta.
  rewrite !(translate_text_english _ _ _ _ english).
  pose proof (usage_instructions_english treatment_type w) as Hu.
  destruct (usage_instructions _ _ _ _) as [t4 w4]. simpl in Hu. subst w4.
  rewrite !(translate_text_english _ _ _ _ english).
  destruct (decide _); by eexists.
Qed.
End english_session.

(** In an English session every [translate_text] is the identity; the
    steps below replace the calls one after the other. *)
Ltac english_steps Hen :=
  repeat first
    [ rewrite !(translate_text_english _ _ _ _ Hen)
    | progress cbn beta iota ].

Section select_treatment_english.
Variable GoogleTranslator :
  list (string * string) → string → string → provider_outcome.
Variable the_chatbot : MedicalChatbot.
Variable treatment_items : gmap string treatment → list (string * treatment).

(** X29: in an English session, when the best match's home remedy is the
    text ["please consult doctor"] and the request asks for home
    remedies, [select_treatment] does not answer.  The branch that
    builds the urgent message never assigns [department_serious], and
    the answer's ['requires_doctor'] field reads it: the handler raises
    [UnboundLocalError]. *)
Theorem select_treatment_urgent_raises
    (department : string) (s : session) (w : world)
    (top : condition_info) (rest : list condition_info) :
  default "en" (s_language s) = "en" →
  s_department s = Some department → department ≠ "" →
  find_condition_by_symptoms the_chatbot department
    (map_answers_to_symptoms the_chatbot department (default [] (s_answers s)))
  = Some (top :: rest) →
  (∀ k, dict_get (treatment_items (ci_treatments top)) k
        = ci_treatments top !! k) →
  ci_treatments top !! "home_remedy"
  = Some (TreatmentText "please consult doctor") →
  select_treatment GoogleTranslator the_chatbot treatment_items
    (Some "home_remedy") s w
  = (Raised (UnboundLocalError "department_serious"), w).
Proof.
  intros Hen Hdep Hd Hfind Hitems Hhome. unfold select_treatment. cbv zeta.
  rewrite Hdep. cbn [truthy]. rewrite !bool_decide_eq_true_2 by done.
  cbn [andb]. rewrite Hfind.
  rewrite (translate_treatments_english _ _ Hen).
  english_steps Hen. rewrite Hitems, Hhome.
  change (dict_get TREATMENT_TYPES "home_remedy")
    with (Some "🏠 Home Remedies & Lifestyle").
  cbn [default from_option id]. english_steps Hen.
  rewrite decide_True by done. english_steps Hen.
  rewrite bool_decide_eq_true_2 by done. english_steps Hen.
  pose proof (urgent_message_english GoogleTranslator _ Hen
                (ci_disease_name top) w) as Hu.
  destruct (urgent_message _ _ _ _) as [message w5]. simpl in Hu. subst w5.
  english_steps Hen. done.
Qed.

(** X30: in an English session, for a configured treatment type other
    than the case above, [select_treatment] answers with the name of the
    best match, the label of the treatment type, the best match's
    treatment of that type (the empty list when it lists none), the
    number of symptoms found in the answers (all of them, not only those
    the condition matched), and ['requires_doctor'] set exactly when the
    condition's id is in the department's list of serious conditions;
    the cache and the provider are not touched. *)
Theorem select_treatment_recommends
    (department treatment_type label : string) (s : session) (w : world)
    (top : condition_info) (rest : list condition_info) :
  default "en" (s_language s) = "en" →
  s_department s = Some department → department ≠ "" →
  treatment_type ≠ "" →
  dict_get TREATMENT_TYPES treatment_type = Some label →
  find_condition_by_symptoms the_chatbot department
    (map_answers_to_symptoms the_chatbot department (default [] (s_answers s)))
  = Some (top :: rest) →
  (∀ k, dict_get (treatment_items (ci_treatments top)) k
        = ci_treatments top !! k) →
  ¬ (treatment_type = "home_remedy"
     ∧ ci_treatments top !! "home_remedy"
       = Some (TreatmentText "please consult doctor")) →
  ∃ message s',
    select_treatment GoogleTranslator the_chatbot treatment_items
      (Some treatment_type) s w
    = (Responded
         (recommendation_response
            {| r_condition := ci_disease_name top;
               r_treatment_type := label;
               r_recommendations :=
                 default (TreatmentList []) (ci_treatments top !! treatment_type);
               r_matched_symptoms_count :=
                 length (map_answers_to_symptoms the_chatbot department
                           (default [] (s_answers s)));
               r_formatted_message := message;
               r_requires_doctor :=
                 bool_decide
                   (ci_disease_id top
                    ∈ default [] (dict_get serious_conditions department)) |})
         s',
       w)
    ∧ s_treatment_type s' = Some treatment_type.
Proof.
  intros Hen Hdep Hd Ht Hlabel Hfind Hitems Hnot.
  unfold select_treatment. cbv zeta.
  rewrite Hdep. cbn [truthy]. rewrite !bool_decide_eq_true_2 by done.
  cbn [andb]. rewrite Hfind.
  rewrite (translate_treatments_english _ _ Hen).
  english_steps Hen. rewrite Hitems, Hlabel. english_steps Hen.
  assert ((if decide (treatment_type = "home_remedy")
           then
             (bool_decide
                (default (TreatmentList []) (ci_treatments top !! treatment_type)
                 = TreatmentText "please consult doctor"), w)
           else (false, w)) = (false, w)) as ->.
  { destruct (decide (treatment_type = "home_remedy")) as [->|]; [|done].
    rewrite bool_decide_eq_false_2; [done|]. intros Heq. apply Hnot.
    split; [done|].
    destruct (ci_treatments top !! "home_remedy") as [t|]; [|done].
    simpl in Heq. by subst. }
  english_steps Hen.
  destruct (regular_message_english GoogleTranslator _ Hen department
              treatment_type (ci_disease_name top) label
              (default (TreatmentList []) (ci_treatments top !! treatment_type))
              (map_answers_to_symptoms the_chatbot department
                 (default [] (s_answers s)))
              (ci_disease_id top) w) as [message ->].
  english_steps Hen. by eexists _, _.
Qed.
End select_treatment_english.

Lemma select_treatment_no_match_witness :
  select_treatment echo_provider urgent_chatbot map_items None
    answered_session empty_world
  = (Responded (error_response "Invalid request" 400) answered_session,
     empty_world)
  ∧ ∃ s',
      select_treatment echo_provider urgent_chatbot map_items (Some "reiki")
        early_session empty_world
      = (Responded
           (no_match_response
              (translate_text echo_provider (s_language early_session)
                 "No specific conditions matched your symptoms pattern. Please consult a healthcare professional for proper diagnosis and treatment."
                 empty_world).1 true) s',
         (translate_text echo_provider (s_language early_session)
            "No specific conditions matched your symptoms pattern. Please consult a healthcare professional for proper diagnosis and treatment."
            empty_world).2)
      ∧ s_treatment_type s' = Some "reiki"
      ∧ s_answers s' = s_answers early_session.
Proof.
  split.
  - apply (proj1 (select_treatment_no_match echo_provider urgent_chatbot
             map_items None answered_session empty_world)).
    right. reflexivity.
  - apply (proj2 (select_treatment_no_match echo_provider urgent_chatbot
             map_items (Some "reiki") early_session empty_world)
             "gastrointestinal" "reiki").
    + reflexivity.
    + done.
    + reflexivity.
    + done.
    + intros top rest. vm_compute. discriminate.
Defined.

Lemma select_treatment_unknown_type_witness :
  (select_treatment echo_provider urgent_chatbot map_items (Some "reiki")
     answered_session empty_world).1
  = Raised (KeyError "reiki").
Proof.
  eapply (select_treatment_unknown_type echo_provider urgent_chatbot map_items
            "gastrointestinal" "reiki" answered_session empty_world).
  - reflexivity.
  - done.
  - done.
  - apply (bool_decide_unpack _). vm_compute. exact I.
  - vm_compute. reflexivity.
Defined.

Lemma select_treatment_urgent_raises_witness :
  select_treatment echo_provider urgent_chatbot map_items (Some "home_remedy")
    answered_session empty_world
  = (Raised (UnboundLocalError "department_serious"), empty_world).
Proof.
  eapply (select_treatment_urgent_raises echo_provider urgent_chatbot map_items
            "gastrointestinal" answered_session empty_world).
  - reflexivity.
  - reflexivity.
  - done.
  - vm_compute. reflexivity.
  - intros k. apply dict_get_map_items.
  - vm_compute. reflexivity.
Defined.

Lemma select_treatment_recommends_witness :
  ∃ top rest,
    find_condition_by_symptoms urgent_chatbot "gastrointestinal"
      (map_answers_to_symptoms urgent_chatbot "gastrointestinal"
         (default [] (s_answers answered_session)))
    = Some (top :: rest)
    ∧ ci_disease_name top = "Appendicitis"
    ∧ ∃ message s',
        select_treatment echo_provider urgent_chatbot map_items
          (Some "allopathy") answered_session empty_world
        = (Responded
             (recommendation_response
                {| r_condition := ci_disease_name top;
                   r_treatment_type := "🏥 Modern Medicine (Allopathy)";
                   r_recommendations :=
                     default (TreatmentList []) (ci_treatments top !! "allopathy");
                   r_matched_symptoms_count :=
                     length (map_answers_to_symptoms urgent_chatbot
                               "gastrointestinal"
                               (default [] (s_answers answered_session)));
                   r_formatted_message := message;
                   r_requires_doctor :=
                     bool_decide
                       (ci_disease_id top
                        ∈ default []
                            (dict_get serious_conditions "gastrointestinal")) |})
             s',
           empty_world)
        ∧ s_treatment_type s' = Some "allopathy".
Proof.
  eexists _, _. split; [vm_compute; reflexivity|].
  split; [reflexivity|].
  eapply (select_treatment_recommends echo_provider urgent_chatbot map_items
            "gastrointestinal" "allopathy" "🏥 Modern Medicine (Allopathy)"
            answered_session empty_world).
  - reflexivity.
  - reflexivity.
  - done.
  - done.
  - reflexivity.
  - vm_compute. reflexivity.
  - intros k. apply dict_get_map_items.
  - intros [Hne _]. discriminate Hne.
Defined.

